(** * Sampling pipelines of realtimecam_idx: a shallow embedding

    Three React Native screens are embedded, one module each:

    - [VideoAnalyzer]  (src/unnamed/part_000): the progress-driven pipeline,
      frames and audio chunks cut out of a picked video with FFmpegKit;
    - [MediaAnalyzer]  (src/App.tsx): manual pick-and-upload of one image or
      one audio file;
    - [LiveCamera]     (src/unnamed/part_001): the timer-driven pipeline on
      the live camera and microphone.

    An [async] function is a resumption: it runs on the shared world up to
    its next [await], hands the pending external call and its continuation
    back to the event loop, and is resumed later with the outcome of the call
    on whatever the world has become in between.  React state is a record in
    the world; a setter writes it and a function reads it once, on entry
    (the closure of the render that installed the handler).

    Numbers are exact rationals ([Q]); the runtime's conversions of a number
    to text are parameters of the model ([Runtime]). *)

From Stdlib Require Import String List ZArith QArith Qround Qabs Bool Lia Lqa DecimalString.
Import ListNotations.
Open Scope string_scope.

Set Implicit Arguments.

(* ------------------------------------------------------------------ *)
(** ** JavaScript values, as far as the handlers look at them          *)

Inductive Err : Type :=
| NetworkError                     (* fetch rejected *)
| SyntaxError                      (* response.json() rejected *)
| TypeError                        (* property read on null / undefined *)
| NativeError (msg : string).      (* a native module rejected *)

Module Js.

#[local] Unset Elimination Schemes.
Inductive Value : Type :=
| Undefined
| Null
| Bool (b : bool)
| Number (q : Q)
| Str (s : string)
| Object (fields : list (string * Value))
| Array (items : list Value).
#[local] Set Elimination Schemes.

(** ToBoolean. *)
Definition truthy (v : Value) : bool :=
  match v with
  | Undefined | Null => false
  | Bool b => b
  | Number q => negb (Qeq_bool q 0)
  | Str s => negb (s =? "")
  | Object _ | Array _ => true
  end.

(** [a || b]. *)
Definition or (a b : Value) : Value := if truthy a then a else b.

(** Own property of a parsed JSON object; a later duplicate key wins. *)
Fixpoint lookup (key : string) (fields : list (string * Value)) : Value :=
  match fields with
  | [] => Undefined
  | (k, v) :: rest =>
      match lookup key rest with
      | Undefined => if k =? key then v else Undefined
      | later => later
      end
  end.

(** [v.key] for a key that no prototype defines ([classification],
    [predicted_class], [emotion]): a TypeError on null and undefined,
    undefined on the other primitives and on arrays. *)
Definition get (v : Value) (key : string) : Err + Value :=
  match v with
  | Undefined | Null => inl TypeError
  | Object fields => inr (lookup key fields)
  | _ => inr Undefined
  end.

End Js.

(* ------------------------------------------------------------------ *)
(** ** External collaborators: the calls a handler awaits              *)

Inductive Permission : Type :=
| READ_MEDIA_VIDEO | READ_MEDIA_IMAGES | READ_MEDIA_AUDIO
| READ_EXTERNAL_STORAGE | WRITE_EXTERNAL_STORAGE
| CAMERA | RECORD_AUDIO.

Inductive PermissionStatus : Type := GRANTED | DENIED | NEVER_ASK_AGAIN.

Definition is_granted (s : PermissionStatus) : bool :=
  match s with GRANTED => true | _ => false end.

Record PickResult : Type := { pick_uri : string; pick_name : string }.

(** The one part appended to a [FormData]. *)
Record FormData : Type :=
  { field : string; file_uri : string; mime : string; filename : string }.

(** What the handlers can see of a [Response]; none of them reads it. *)
Record Response : Type := { http_status : Z }.

Record PhotoFile : Type := { photo_path : string }.

Inductive Call : Type :=
| PermissionsAndroid_request (p : Permission)
| PermissionsAndroid_requestMultiple (ps : list Permission)
| DocumentPicker_pick (type : string)
| fetch_get (url : string)
| response_blob
| FileReader_readAsDataURL
| FileSystem_writeFile (p : string)
| FileSystem_mkdir (p : string)
| FileSystem_unlink (p : string)
| FFmpegKit_execute (command : string)
| session_getReturnCode
| session_getLogsAsString
| fetch_post (url : string) (body : FormData)
| response_json
| camera_takePhoto
| AudioRecord_init (sampleRate channels bitsPerSample : Z) (wavFile : string)
| AudioRecord_start
| AudioRecord_stop.

(** The type of the value a call resolves to.  [requestMultiple] answers
    with one status per permission it was asked for, [pick] with an array,
    [getReturnCode] with the engine's exit value if the session has one. *)
Definition reply_type (c : Call) : Type :=
  match c with
  | PermissionsAndroid_request _ => PermissionStatus
  | PermissionsAndroid_requestMultiple _ => Permission -> PermissionStatus
  | DocumentPicker_pick _ => list PickResult
  | fetch_get _ | fetch_post _ _ => Response
  | response_blob => unit
  | FileReader_readAsDataURL => string
  | FileSystem_writeFile _ | FileSystem_mkdir _ | FileSystem_unlink _ => unit
  | FFmpegKit_execute _ => unit
  | session_getReturnCode => option Z
  | session_getLogsAsString => string
  | response_json => Js.Value
  | camera_takePhoto => PhotoFile
  | AudioRecord_init _ _ _ _ => unit
  | AudioRecord_start => unit
  | AudioRecord_stop => string
  end.

(** A settled promise. *)
Inductive Result (A : Type) : Type :=
| Resolved (a : A)
| Rejected (e : Err).
Arguments Rejected {A} e.

(** One environment: the outcome of every call. *)
Definition Oracle : Type := forall c : Call, Result (reply_type c).

(** [ReturnCode.isSuccess] of ffmpeg-kit: the session finished with 0. *)
Definition ReturnCode_isSuccess (rc : option Z) : bool :=
  match rc with
  | Some 0%Z => true
  | _ => false
  end.

(* ------------------------------------------------------------------ *)
(** ** The observable world                                            *)

Inductive LogArg : Type :=
| LStr (s : string)
| LNum (q : Q)
| LVal (v : Js.Value)
| LErr (e : Err).

Inductive Event : Type :=
| console_log (msg : string) (args : list LogArg)
| console_error (msg : string) (args : list LogArg)
| Alert_alert (title message : string)
| Called (c : Call).

(** [app] is the screen's own state (React state and refs), [trace] what it
    did so far, oldest first, [files] the scratch files present. *)
#[projections(primitive)]
Record World (St : Type) : Type :=
  { app : St; trace : list Event; files : list string }.

(** The world after the events [es]. *)
Definition say {St} (es : list Event) (w : World St) : World St :=
  {| app := app w; trace := trace w ++ es; files := files w |}.

Definition remove_file (p : string) (fs : list string) : list string :=
  filter (fun f => negb (f =? p)) fs.

(** What a settled call did to the scratch files.  Only a successful
    [unlink] is tracked; the file an engine run writes is assumed present
    by the statements that need it. *)
Definition settle_files (c : Call) (r : Result (reply_type c))
    (fs : list string) : list string :=
  match c, r with
  | FileSystem_unlink p, Resolved _ => remove_file p fs
  | _, _ => fs
  end.

(* ------------------------------------------------------------------ *)
(** ** Async functions as resumptions                                  *)

Section Async.

Variable St : Type.
Abbreviation W := (World St).

Inductive Res (A : Type) : Type :=
| Done (w : W) (a : A)
| Thrown (w : W) (e : Err)
| Wait (w : W) (c : Call) (k : Result (reply_type c) -> W -> Res A).
Arguments Done {A} w a.
Arguments Thrown {A} w e.
Arguments Wait {A} w c k.

Definition M (A : Type) : Type := W -> Res A.

Definition ret {A} (a : A) : M A := fun w => Done w a.
Definition throw {A} (e : Err) : M A := fun w => Thrown w e.

Fixpoint bindR {A B} (r : Res A) (f : A -> M B) : Res B :=
  match r with
  | Done w a => f a w
  | Thrown w e => Thrown w e
  | Wait w c k => Wait w c (fun rep w' => bindR (k rep w') f)
  end.

Definition bind {A B} (m : M A) (f : A -> M B) : M B :=
  fun w => bindR (m w) f.

(** [try { m } catch (e) { h e }]. *)
Fixpoint catchR {A} (r : Res A) (h : Err -> M A) : Res A :=
  match r with
  | Done w a => Done w a
  | Thrown w e => h e w
  | Wait w c k => Wait w c (fun rep w' => catchR (k rep w') h)
  end.

Definition try_catch {A} (m : M A) (h : Err -> M A) : M A :=
  fun w => catchR (m w) h.

(** [try { m } finally { f }]: [f] runs on both exits and the outcome of
    [m] stands, unless [f] itself throws. *)
Fixpoint finallyR {A} (r : Res A) (f : M unit) : Res A :=
  match r with
  | Done w a => bindR (f w) (fun _ => ret a)
  | Thrown w e => bindR (f w) (fun _ => throw e)
  | Wait w c k => Wait w c (fun rep w' => finallyR (k rep w') f)
  end.

Definition try_finally {A} (m : M A) (f : M unit) : M A :=
  fun w => finallyR (m w) f.

Definition get_app : M St := fun w => Done w (app w).

Definition modify_app (f : St -> St) : M unit :=
  fun w => Done {| app := f (app w); trace := trace w; files := files w |} tt.

Definition emit (e : Event) : M unit :=
  fun w => Done {| app := app w; trace := trace w ++ [e]; files := files w |} tt.

(** Issue [c] and suspend; the outcome arrives with the resumption. *)
Definition await_result (c : Call) : M (Result (reply_type c)) :=
  fun w =>
    Wait {| app := app w; trace := trace w ++ [Called c]; files := files w |} c
         (fun rep w' =>
            Done {| app := app w'; trace := trace w';
                    files := settle_files c rep (files w') |} rep).

(** [await c]: a rejection is thrown at the await. *)
Definition await (c : Call) : M (reply_type c) :=
  bind (await_result c)
       (fun rep => match rep with
                   | Resolved a => ret a
                   | Rejected e => throw e
                   end).

(** Run one async function to its end against an environment, nothing
    else happening in between.  No function of the three screens issues
    the same call twice in one invocation, so an environment that answers
    by call can give every sequence of outcomes an invocation can meet. *)
Fixpoint run {A} (o : Oracle) (r : Res A) : W * (Err + A) :=
  match r with
  | Done w a => (w, inr a)
  | Thrown w e => (w, inl e)
  | Wait w c k => run o (k (o c) w)
  end.

(** The same run while other handlers are at work: [others] is what they
    did to the world by the time a call settles. *)
Fixpoint run_among {A} (o : Oracle) (others : W -> W) (r : Res A) : W * (Err + A) :=
  match r with
  | Done w a => (w, inr a)
  | Thrown w e => (w, inl e)
  | Wait w c k => run_among o others (k (o c) (others w))
  end.

Definition exec {A} (o : Oracle) (m : M A) (w : W) : W := fst (run o (m w)).
Definition eval {A} (o : Oracle) (m : M A) (w : W) : Err + A := snd (run o (m w)).

End Async.

Arguments Done {St A} w a.
Arguments Thrown {St A} w e.
Arguments Wait {St A} w c k.
Arguments ret {St A} a _.
Arguments throw {St A} e _.
Arguments get_app {St} _.
Arguments emit {St} e _.
Arguments await_result {St} c _.
Arguments await {St} c _.

Declare Scope async_scope.
Delimit Scope async_scope with async.
Notation "x <- m ;; k" := (bind m (fun x => k))
  (at level 61, m at next level, right associativity) : async_scope.
Notation "m ;;; k" := (bind m (fun _ => k))
  (at level 61, right associativity) : async_scope.


(* ------------------------------------------------------------------ *)
(** ** The event loop: handlers and the async functions in flight      *)

Section EventLoop.

Variable St : Type.
Variable Label : Type.

(** A suspended async function: the call it awaits and what follows.
    [origin] names the invocation it belongs to; the code has no such
    tag, it only lets a statement say which invocations are in flight. *)
Record Task : Type :=
  { origin : Label;
    awaited : Call;
    resume : Result (reply_type awaited) -> World St -> Res St unit }.

Record Sys : Type := { world : World St; tasks : list Task }.

(** Where an invocation stands after running up to its next await.  A
    rejection nobody catches ends the invocation. *)
Definition park (l : Label) (r : Res St unit) (ts : list Task) : Sys :=
  match r with
  | Done w _ => {| world := w; tasks := ts |}
  | Thrown w _ => {| world := w; tasks := ts |}
  | Wait w c k => {| world := w; tasks := ts ++ [{| origin := l; awaited := c; resume := k |}] |}
  end.

(** Calling an async function without awaiting it: its synchronous prefix
    runs at once, the rest joins the tasks in flight. *)
Definition spawn (l : Label) (m : M St unit) (s : Sys) : Sys :=
  park l (m (world s)) (tasks s).

(** A synchronous statement of a handler. *)
Definition update (f : St -> St) (s : Sys) : Sys :=
  {| world := {| app := f (app (world s)); trace := trace (world s);
                 files := files (world s) |};
     tasks := tasks s |}.

Definition log (e : Event) (s : Sys) : Sys :=
  {| world := {| app := app (world s); trace := trace (world s) ++ [e];
                 files := files (world s) |};
     tasks := tasks s |}.

Fixpoint drop_nth {A} (i : nat) (l : list A) : list A :=
  match i, l with
  | _, [] => []
  | O, _ :: l' => l'
  | S i', x :: l' => x :: drop_nth i' l'
  end.

(** The call awaited by task [i] settles as the environment says, and the
    task runs on to its next await. *)
Definition deliver (o : Oracle) (i : nat) (s : Sys) : Sys :=
  match nth_error (tasks s) i with
  | None => s
  | Some t => park (origin t) (resume t (o (awaited t)) (world s))
                   (drop_nth i (tasks s))
  end.

Definition in_flight (s : Sys) : list Label := map origin (tasks s).

(** [n] turns of the event loop, the oldest pending call settling first. *)
Fixpoint turns (o : Oracle) (n : nat) (s : Sys) : Sys :=
  match n with
  | O => s
  | S n' => turns o n' (deliver o 0 s)
  end.

End EventLoop.

Arguments update {St Label} f s.
Arguments log {St Label} e s.

(* ------------------------------------------------------------------ *)
(** ** The runtime around the screens                                  *)

Inductive PlatformOS : Type := android | ios.

(** [Number_toString] is the text of a number in a template literal,
    [Number_toFixed] is [n.toFixed(d)]. *)
Record Runtime : Type :=
  { Platform_OS : PlatformOS;
    Platform_Version : Z;
    Dirs_CacheDir : string;
    Number_toString : Q -> string;
    Number_toFixed : Q -> nat -> string }.

Definition is_android (rt : Runtime) : bool :=
  match Platform_OS rt with android => true | ios => false end.

(** [Math.floor]. *)
Definition Math_floor (x : Q) : Q := inject_Z (Qfloor x).

Definition dquote : string := String (Ascii.ascii_of_nat 34) EmptyString.
Definition newline : string := String (Ascii.ascii_of_nat 10) EmptyString.

(** [Object.values] of the object [requestMultiple] resolves to: one entry
    per permission asked for, in that order. *)
Definition Object_values (ps : list Permission)
    (result : Permission -> PermissionStatus) : list PermissionStatus :=
  map result ps.

(** Lift a property read into an async function. *)
Definition read_prop {St} (v : Js.Value) (key : string) : M St Js.Value :=
  match Js.get v key with
  | inl e => throw e
  | inr x => ret x
  end.

(* ------------------------------------------------------------------ *)
(** ** src/unnamed/part_000: the progress-driven video analyzer        *)

Module VideoAnalyzer.

Local Open Scope async_scope.

Record State : Type :=
  { videoUri : option string;
    processingStatus : string;
    audioClassification : Js.Value;
    imageClassification : Js.Value;
    lastFrameTime : Q;
    lastAudioTime : Q;
    isProcessing : bool }.

(** The [useState] initial values. *)
Definition initial : State :=
  {| videoUri := None; processingStatus := "";
     audioClassification := Js.Str ""; imageClassification := Js.Str "";
     lastFrameTime := 0; lastAudioTime := 0; isProcessing := false |}.

Definition setVideoUri (v : option string) (s : State) : State :=
  {| videoUri := v; processingStatus := processingStatus s;
     audioClassification := audioClassification s;
     imageClassification := imageClassification s;
     lastFrameTime := lastFrameTime s; lastAudioTime := lastAudioTime s;
     isProcessing := isProcessing s |}.

Definition setProcessingStatus (v : string) (s : State) : State :=
  {| videoUri := videoUri s; processingStatus := v;
     audioClassification := audioClassification s;
     imageClassification := imageClassification s;
     lastFrameTime := lastFrameTime s; lastAudioTime := lastAudioTime s;
     isProcessing := isProcessing s |}.

Definition setAudioClassification (v : Js.Value) (s : State) : State :=
  {| videoUri := videoUri s; processingStatus := processingStatus s;
     audioClassification := v;
     imageClassification := imageClassification s;
     lastFrameTime := lastFrameTime s; lastAudioTime := lastAudioTime s;
     isProcessing := isProcessing s |}.

Definition setImageClassification (v : Js.Value) (s : State) : State :=
  {| videoUri := videoUri s; processingStatus := processingStatus s;
     audioClassification := audioClassification s;
     imageClassification := v;
     lastFrameTime := lastFrameTime s; lastAudioTime := lastAudioTime s;
     isProcessing := isProcessing s |}.

Definition setLastFrameTime (v : Q) (s : State) : State :=
  {| videoUri := videoUri s; processingStatus := processingStatus s;
     audioClassification := audioClassification s;
     imageClassification := imageClassification s;
     lastFrameTime := v; lastAudioTime := lastAudioTime s;
     isProcessing := isProcessing s |}.

Definition setLastAudioTime (v : Q) (s : State) : State :=
  {| videoUri := videoUri s; processingStatus := processingStatus s;
     audioClassification := audioClassification s;
     imageClassification := imageClassification s;
     lastFrameTime := lastFrameTime s; lastAudioTime := v;
     isProcessing := isProcessing s |}.

Definition setIsProcessing (v : bool) (s : State) : State :=
  {| videoUri := videoUri s; processingStatus := processingStatus s;
     audioClassification := audioClassification s;
     imageClassification := imageClassification s;
     lastFrameTime := lastFrameTime s; lastAudioTime := lastAudioTime s;
     isProcessing := v |}.

Section Screen.

Variable rt : Runtime.

Definition BACKEND_URL : string :=
  if is_android rt then "http://10.0.2.2:6001" else "http://localhost:6001".

Definition copyContentUriToLocal (originalUri : string) : M State string :=
  let localPath := Dirs_CacheDir rt ++ "/input_video_temp.mp4" in
  emit (console_log "Copying content URI => local path:"
          [LStr originalUri; LStr "=>"; LStr localPath]) ;;;
  _ <- await (fetch_get originalUri) ;;
  _ <- await response_blob ;;
  _ <- await FileReader_readAsDataURL ;;
  _ <- await (FileSystem_writeFile localPath) ;;
  ret ("file://" ++ localPath).

Definition openAppSettings : M State unit :=
  emit (Alert_alert "Permission Required"
          "Storage permissions are required but have been permanently denied. Please enable them in app settings.").

Definition requestPermissions : M State bool :=
  if negb (is_android rt) then ret true else
  try_catch
    (if (33 <=? Platform_Version rt)%Z then
       result <- await (PermissionsAndroid_request READ_MEDIA_VIDEO) ;;
       match result with
       | GRANTED => ret true
       | NEVER_ASK_AGAIN => openAppSettings ;;; ret false
       | DENIED => ret false
       end
     else
       let asked := [READ_EXTERNAL_STORAGE; WRITE_EXTERNAL_STORAGE] in
       result <- await (PermissionsAndroid_requestMultiple asked) ;;
       ret (forallb is_granted (Object_values asked result)))
    (fun err => emit (console_error "Permission error:" [LErr err]) ;;; ret false).

Definition pickVideo : M State unit :=
  try_catch
    (hasPermission <- requestPermissions ;;
     if negb hasPermission then
       emit (Alert_alert "Permission Denied"
               "Storage permission is required to select videos.")
     else
       picked <- await (DocumentPicker_pick "video/*") ;;
       match picked with
       | [] => ret tt
       | result :: _ =>
           finalUri <- (if String.prefix "content://" (pick_uri result)
                        then copyContentUriToLocal (pick_uri result)
                        else ret (pick_uri result)) ;;
           emit (console_log "Picked video =>" [LStr finalUri]) ;;;
           modify_app (setVideoUri (Some finalUri)) ;;;
           modify_app (setProcessingStatus ("Video selected: " ++ pick_name result)) ;;;
           modify_app (setAudioClassification (Js.Str "")) ;;;
           modify_app (setImageClassification (Js.Str "")) ;;;
           modify_app (setLastFrameTime 0) ;;;
           modify_app (setLastAudioTime 0)
       end)
    (fun err =>
       emit (console_error "Error picking video:" [LErr err]) ;;;
       emit (Alert_alert "Error" "Failed to pick video.")).

(** [try { await FileSystem.mkdir(d); } catch {}]. *)
Definition mkdir_quietly (d : string) : M State unit :=
  try_catch (_ <- await (FileSystem_mkdir d) ;; ret tt) (fun _ => ret tt).

Definition videoProcessingDir : string := Dirs_CacheDir rt ++ "/video_processing".
Definition framesDir : string := videoProcessingDir ++ "/frames".
Definition audioDir : string := videoProcessingDir ++ "/audio".

Definition createSubdirectories : M State (string * string) :=
  mkdir_quietly videoProcessingDir ;;;
  mkdir_quietly framesDir ;;;
  mkdir_quietly audioDir ;;;
  ret (framesDir, audioDir).

Definition processVideoFrame (framePath : string) : M State unit :=
  try_catch
    (emit (console_log ("Sending frame to backend: " ++ framePath) []) ;;;
     let formData := {| field := "image_file"; file_uri := "file://" ++ framePath;
                        mime := "image/jpeg"; filename := "frame.jpg" |} in
     _ <- await (fetch_post (BACKEND_URL ++ "/predict_image") formData) ;;
     result <- await response_json ;;
     classification <- read_prop result "classification" ;;
     modify_app (setImageClassification
                   (Js.or classification (Js.Str "No classification"))) ;;;
     emit (console_log "Image classification result:" [LVal result]) ;;;
     _ <- await (FileSystem_unlink framePath) ;;
     ret tt)
    (fun error => emit (console_error "Error processing video frame:" [LErr error])).

Definition frame_command (uri : string) (time : Q) (framePath : string) : string :=
  "-ss " ++ Number_toString rt time ++ " -i " ++ dquote ++ uri ++ dquote
  ++ " -vframes 1 -q:v 2 " ++ dquote ++ framePath ++ dquote.

Definition captureFrame (time : Q) : M State unit :=
  st <- get_app ;;
  match videoUri st with
  | None => ret tt
  | Some uri =>
      if uri =? "" then ret tt else
      try_finally
        (try_catch
           (modify_app (setIsProcessing true) ;;;
            dirs <- createSubdirectories ;;
            let framePath :=
              fst dirs ++ "/frame_" ++ Number_toString rt (Math_floor time) ++ ".jpg" in
            modify_app (setProcessingStatus
                          ("Extracting frame at " ++ Number_toFixed rt time 1 ++ "s...")) ;;;
            emit (console_log "FFmpeg command =>" [LStr (frame_command uri time framePath)]) ;;;
            _ <- await (FFmpegKit_execute (frame_command uri time framePath)) ;;
            returnCode <- await session_getReturnCode ;;
            logs <- await session_getLogsAsString ;;
            emit (console_log ("FFmpeg logs:" ++ newline) [LStr logs]) ;;;
            if ReturnCode_isSuccess returnCode
            then processVideoFrame framePath
            else emit (console_error "Failed to extract frame at time" [LNum time]))
           (fun error => emit (console_error "Error capturing frame:" [LErr error])))
        (modify_app (setIsProcessing false))
  end.

Definition processAudioChunk (audioPath : string) : M State unit :=
  try_catch
    (emit (console_log ("Sending audio chunk to backend: " ++ audioPath) []) ;;;
     let formData := {| field := "audio_file"; file_uri := "file://" ++ audioPath;
                        mime := "audio/wav"; filename := "audio_chunk.wav" |} in
     _ <- await (fetch_post (BACKEND_URL ++ "/predict") formData) ;;
     result <- await response_json ;;
     classification <- read_prop result "classification" ;;
     modify_app (setAudioClassification
                   (Js.or classification (Js.Str "No classification"))) ;;;
     emit (console_log "Audio classification result:" [LVal result]) ;;;
     _ <- await (FileSystem_unlink audioPath) ;;
     ret tt)
    (fun error => emit (console_error "Error processing audio:" [LErr error])).

Definition audio_command (uri : string) (time : Q) (audioChunkPath : string) : string :=
  "-ss " ++ Number_toString rt time ++ " -i " ++ dquote ++ uri ++ dquote
  ++ " -t 2.5 -acodec pcm_s16le -ar 16000 -ac 1 " ++ dquote ++ audioChunkPath ++ dquote.

Definition processAudioAtTime (time : Q) : M State unit :=
  st <- get_app ;;
  match videoUri st with
  | None => ret tt
  | Some uri =>
      if uri =? "" then ret tt else
      try_finally
        (try_catch
           (modify_app (setIsProcessing true) ;;;
            dirs <- createSubdirectories ;;
            let audioChunkPath :=
              snd dirs ++ "/chunk_" ++ Number_toString rt (Math_floor time) ++ ".wav" in
            modify_app (setProcessingStatus
                          ("Extracting audio chunk at " ++ Number_toFixed rt time 1 ++ "s...")) ;;;
            emit (console_log "FFmpeg command =>" [LStr (audio_command uri time audioChunkPath)]) ;;;
            _ <- await (FFmpegKit_execute (audio_command uri time audioChunkPath)) ;;
            returnCode <- await session_getReturnCode ;;
            logs <- await session_getLogsAsString ;;
            emit (console_log ("FFmpeg logs:" ++ newline) [LStr logs]) ;;;
            if ReturnCode_isSuccess returnCode
            then processAudioChunk audioChunkPath
            else emit (console_error "Failed to extract audio chunk at time" [LNum time]))
           (fun error => emit (console_error "Error processing audio chunk:" [LErr error])))
        (modify_app (setIsProcessing false))
  end.

(** The invocations a progress event can start. *)
Inductive Extraction : Type :=
| FrameAt (time : Q)
| AudioAt (time : Q).

Definition System : Type := Sys State Extraction.

(** [currentTime - last >= threshold]. *)
Definition due (currentTime last threshold : Q) : bool :=
  Qle_bool threshold (currentTime - last).

(** The handler reads [lastFrameTime] and [lastAudioTime] from the render
    that installed it, [st]. *)
Definition onVideoProgress (currentTime : Q) (s : System) : System :=
  let st := app (world s) in
  let s0 := log (console_log ("Video Progress => " ++ Number_toFixed rt currentTime 2 ++ "s") []) s in
  let s1 := if due currentTime (lastFrameTime st) 1
            then update (setLastFrameTime currentTime)
                        (spawn (FrameAt currentTime) (captureFrame currentTime) s0)
            else s0 in
  let s2 := if due currentTime (lastAudioTime st) (5 # 2)
            then update (setLastAudioTime currentTime)
                        (spawn (AudioAt currentTime) (processAudioAtTime currentTime) s1)
            else s1 in
  s2.

End Screen.

End VideoAnalyzer.

(* ------------------------------------------------------------------ *)
(** ** src/App.tsx: manual upload of one image or one audio file       *)

Module MediaAnalyzer.

Local Open Scope async_scope.

Record State : Type :=
  { processingStatus : string;
    imageClassification : Js.Value;
    audioClassification : Js.Value;
    isProcessing : bool }.

Definition initial : State :=
  {| processingStatus := ""; imageClassification := Js.Str "";
     audioClassification := Js.Str ""; isProcessing := false |}.

Definition setProcessingStatus (v : string) (s : State) : State :=
  {| processingStatus := v; imageClassification := imageClassification s;
     audioClassification := audioClassification s; isProcessing := isProcessing s |}.

Definition setImageClassification (v : Js.Value) (s : State) : State :=
  {| processingStatus := processingStatus s; imageClassification := v;
     audioClassification := audioClassification s; isProcessing := isProcessing s |}.

Definition setAudioClassification (v : Js.Value) (s : State) : State :=
  {| processingStatus := processingStatus s; imageClassification := imageClassification s;
     audioClassification := v; isProcessing := isProcessing s |}.

Definition setIsProcessing (v : bool) (s : State) : State :=
  {| processingStatus := processingStatus s; imageClassification := imageClassification s;
     audioClassification := audioClassification s; isProcessing := v |}.

Inductive MediaType : Type := image | audio.

Section Screen.

Variable rt : Runtime.

Definition BACKEND_URL : string :=
  if is_android rt then "http://10.0.2.2:6001" else "http://localhost:6001".

Definition openAppSettings : M State unit :=
  emit (Alert_alert "Permission Required"
          "Storage permissions have been permanently denied. Please enable them in app settings.").

Definition requestPermissions (mediaType : MediaType) : M State bool :=
  if negb (is_android rt) then ret true else
  try_catch
    (if (33 <=? Platform_Version rt)%Z then
       let permission := match mediaType with
                         | image => READ_MEDIA_IMAGES
                         | audio => READ_MEDIA_AUDIO
                         end in
       result <- await (PermissionsAndroid_request permission) ;;
       match result with
       | GRANTED => ret true
       | NEVER_ASK_AGAIN => openAppSettings ;;; ret false
       | DENIED => ret false
       end
     else
       result <- await (PermissionsAndroid_request READ_EXTERNAL_STORAGE) ;;
       ret (is_granted result))
    (fun err => emit (console_error "Permission error:" [LErr err]) ;;; ret false).

Definition uploadImage (uri : string) : M State unit :=
  try_finally
    (try_catch
       (modify_app (setIsProcessing true) ;;;
        let formData := {| field := "image_file"; file_uri := uri;
                           mime := "image/jpeg"; filename := "uploaded_image.jpg" |} in
        _ <- await (fetch_post (BACKEND_URL ++ "/predict_image") formData) ;;
        result <- await response_json ;;
        predicted <- read_prop result "predicted_class" ;;
        modify_app (setImageClassification
                      (Js.or predicted (Js.Str "No classification"))) ;;;
        modify_app (setProcessingStatus "Image classification complete."))
       (fun error =>
          emit (console_error "Error uploading image:" [LErr error]) ;;;
          emit (Alert_alert "Error" "Failed to upload image.")))
    (modify_app (setIsProcessing false)).

Definition uploadAudio (uri : string) : M State unit :=
  try_finally
    (try_catch
       (modify_app (setIsProcessing true) ;;;
        let formData := {| field := "audio_file"; file_uri := uri;
                           mime := "audio/wav"; filename := "uploaded_audio.wav" |} in
        _ <- await (fetch_post (BACKEND_URL ++ "/predict") formData) ;;
        result <- await response_json ;;
        emotion <- read_prop result "emotion" ;;
        modify_app (setAudioClassification
                      (Js.or emotion (Js.Str "No classification"))) ;;;
        modify_app (setProcessingStatus "Audio classification complete."))
       (fun error =>
          emit (console_error "Error uploading audio:" [LErr error]) ;;;
          emit (Alert_alert "Error" "Failed to upload audio.")))
    (modify_app (setIsProcessing false)).

Definition pickImage : M State unit :=
  try_catch
    (hasPermission <- requestPermissions image ;;
     if negb hasPermission then
       emit (Alert_alert "Permission Denied"
               "Storage permission is required to select images.")
     else
       picked <- await (DocumentPicker_pick "image/*") ;;
       match picked with
       | [] => ret tt
       | result :: _ =>
           modify_app (setProcessingStatus ("Uploading image: " ++ pick_name result)) ;;;
           uploadImage (pick_uri result)
       end)
    (fun err =>
       emit (console_error "Error picking image:" [LErr err]) ;;;
       emit (Alert_alert "Error" "Failed to pick image.")).

Definition pickAudio : M State unit :=
  try_catch
    (hasPermission <- requestPermissions audio ;;
     if negb hasPermission then
       emit (Alert_alert "Permission Denied"
               "Storage permission is required to select audio.")
     else
       picked <- await (DocumentPicker_pick "audio/*") ;;
       match picked with
       | [] => ret tt
       | result :: _ =>
           modify_app (setProcessingStatus ("Uploading audio: " ++ pick_name result)) ;;;
           uploadAudio (pick_uri result)
       end)
    (fun err =>
       emit (console_error "Error picking audio:" [LErr err]) ;;;
       emit (Alert_alert "Error" "Failed to pick audio.")).

End Screen.

End MediaAnalyzer.

(* ------------------------------------------------------------------ *)
(** ** src/unnamed/part_001: the timer-driven live camera              *)

Module LiveCamera.

Local Open Scope async_scope.

(** What a timer runs when it fires. *)
Inductive Callback : Type :=
| audioChunkTick      (* the interval callback of the audio timer *)
| processVideoFrameTick (* [processVideoFrame], the frame timer's callback *)
| stopAndUpload.      (* the [setTimeout] callback of an audio tick *)

Record Timer : Type :=
  { timer_id : positive; callback : Callback; delay_ms : Z }.

(** React state, the three refs, and the runtime's timer tables.
    [cameraRef] is [true] when [cameraRef.current] holds the mounted camera. *)
Record State : Type :=
  { hasPermission : bool;
    audioClassification : Js.Value;
    imageClassification : Js.Value;
    cameraRef : bool;
    audioChunkInterval : option positive;
    frameInterval : option positive;
    isRecording : bool;
    intervals : list Timer;
    timeouts : list Timer;
    nextTimer : positive }.

Definition initial : State :=
  {| hasPermission := false;
     audioClassification := Js.Str ""; imageClassification := Js.Str "";
     cameraRef := false; audioChunkInterval := None; frameInterval := None;
     isRecording := false; intervals := []; timeouts := []; nextTimer := 1 |}.

Definition setAudioClassification (v : Js.Value) (s : State) : State :=
  {| hasPermission := hasPermission s;
     audioClassification := v; imageClassification := imageClassification s;
     cameraRef := cameraRef s; audioChunkInterval := audioChunkInterval s;
     frameInterval := frameInterval s; isRecording := isRecording s;
     intervals := intervals s; timeouts := timeouts s; nextTimer := nextTimer s |}.

Definition setImageClassification (v : Js.Value) (s : State) : State :=
  {| hasPermission := hasPermission s;
     audioClassification := audioClassification s; imageClassification := v;
     cameraRef := cameraRef s; audioChunkInterval := audioChunkInterval s;
     frameInterval := frameInterval s; isRecording := isRecording s;
     intervals := intervals s; timeouts := timeouts s; nextTimer := nextTimer s |}.

Definition set_isRecording (v : bool) (s : State) : State :=
  {| hasPermission := hasPermission s;
     audioClassification := audioClassification s;
     imageClassification := imageClassification s;
     cameraRef := cameraRef s; audioChunkInterval := audioChunkInterval s;
     frameInterval := frameInterval s; isRecording := v;
     intervals := intervals s; timeouts := timeouts s; nextTimer := nextTimer s |}.

Definition set_audioChunkInterval (v : option positive) (s : State) : State :=
  {| hasPermission := hasPermission s;
     audioClassification := audioClassification s;
     imageClassification := imageClassification s;
     cameraRef := cameraRef s; audioChunkInterval := v;
     frameInterval := frameInterval s; isRecording := isRecording s;
     intervals := intervals s; timeouts := timeouts s; nextTimer := nextTimer s |}.

Definition set_frameInterval (v : option positive) (s : State) : State :=
  {| hasPermission := hasPermission s;
     audioClassification := audioClassification s;
     imageClassification := imageClassification s;
     cameraRef := cameraRef s; audioChunkInterval := audioChunkInterval s;
     frameInterval := v; isRecording := isRecording s;
     intervals := intervals s; timeouts := timeouts s; nextTimer := nextTimer s |}.

(** [setInterval(cb, ms)]: a fresh id, the timer joins the table. *)
Definition setInterval (cb : Callback) (ms : Z) (s : State) : State :=
  {| hasPermission := hasPermission s;
     audioClassification := audioClassification s;
     imageClassification := imageClassification s;
     cameraRef := cameraRef s; audioChunkInterval := audioChunkInterval s;
     frameInterval := frameInterval s; isRecording := isRecording s;
     intervals := intervals s ++ [{| timer_id := nextTimer s; callback := cb; delay_ms := ms |}];
     timeouts := timeouts s; nextTimer := Pos.succ (nextTimer s) |}.

Definition setTimeout (cb : Callback) (ms : Z) (s : State) : State :=
  {| hasPermission := hasPermission s;
     audioClassification := audioClassification s;
     imageClassification := imageClassification s;
     cameraRef := cameraRef s; audioChunkInterval := audioChunkInterval s;
     frameInterval := frameInterval s; isRecording := isRecording s;
     intervals := intervals s;
     timeouts := timeouts s ++ [{| timer_id := nextTimer s; callback := cb; delay_ms := ms |}];
     nextTimer := Pos.succ (nextTimer s) |}.

Definition without (id : positive) (ts : list Timer) : list Timer :=
  filter (fun t => negb (Pos.eqb (timer_id t) id)) ts.

Definition clearInterval (id : positive) (s : State) : State :=
  {| hasPermission := hasPermission s;
     audioClassification := audioClassification s;
     imageClassification := imageClassification s;
     cameraRef := cameraRef s; audioChunkInterval := audioChunkInterval s;
     frameInterval := frameInterval s; isRecording := isRecording s;
     intervals := without id (intervals s);
     timeouts := timeouts s; nextTimer := nextTimer s |}.

Definition expire (id : positive) (s : State) : State :=
  {| hasPermission := hasPermission s;
     audioClassification := audioClassification s;
     imageClassification := imageClassification s;
     cameraRef := cameraRef s; audioChunkInterval := audioChunkInterval s;
     frameInterval := frameInterval s; isRecording := isRecording s;
     intervals := intervals s;
     timeouts := without id (timeouts s); nextTimer := nextTimer s |}.

Definition System : Type := Sys State Callback.

Definition initAudioRecorder (s : System) : System :=
  log (Called (AudioRecord_init 16000 1 16 "audio_chunk.wav")) s.

Definition startRecording : M State unit :=
  try_catch
    (st <- get_app ;;
     if negb (isRecording st) then
       modify_app (set_isRecording true) ;;;
       _ <- await AudioRecord_start ;;
       ret tt
     else ret tt)
    (fun error => emit (console_error "Error starting recording:" [LErr error])).

(** Resolves to the recorded file, or to [null]. *)
Definition stopRecording : M State (option string) :=
  try_catch
    (st <- get_app ;;
     if isRecording st then
       audioFile <- await AudioRecord_stop ;;
       modify_app (set_isRecording false) ;;;
       ret (Some audioFile)
     else ret None)
    (fun error =>
       emit (console_error "Error stopping recording:" [LErr error]) ;;;
       ret None).

Definition processAudioChunk (audioData_uri : string) : M State unit :=
  try_catch
    (let formData := {| field := "audio_file"; file_uri := audioData_uri;
                        mime := "audio/wav"; filename := "audio_chunk.wav" |} in
     _ <- await (fetch_post "http://localhost:8001/predict" formData) ;;
     result <- await response_json ;;
     classification <- read_prop result "classification" ;;
     modify_app (setAudioClassification classification))
    (fun error => emit (console_error "Error processing audio:" [LErr error])).

Definition processVideoFrame : M State unit :=
  st <- get_app ;;
  if cameraRef st then
    try_catch
      (photo <- await camera_takePhoto ;;
       let formData := {| field := "image_file"; file_uri := "file://" ++ photo_path photo;
                          mime := "image/jpeg"; filename := "frame.jpg" |} in
       _ <- await (fetch_post "http://localhost:9001/predict_image" formData) ;;
       result <- await response_json ;;
       classification <- read_prop result "classification" ;;
       modify_app (setImageClassification classification))
      (fun error => emit (console_error "Error processing video frame:" [LErr error]))
  else ret tt.

(** The audio timer's callback: start, then arm the 2-second stop. *)
Definition audioChunkCallback : M State unit :=
  startRecording ;;;
  modify_app (setTimeout stopAndUpload 2000).

(** The [setTimeout] callback. *)
Definition stopAndUploadCallback : M State unit :=
  audioFile <- stopRecording ;;
  match audioFile with
  | Some f => if f =? "" then ret tt else processAudioChunk f
  | None => ret tt
  end.

Definition run_callback (cb : Callback) : M State unit :=
  match cb with
  | audioChunkTick => audioChunkCallback
  | processVideoFrameTick => processVideoFrame
  | stopAndUpload => stopAndUploadCallback
  end.

(** The body of the effect on [hasPermission]. *)
Definition timersEffect (s : System) : System :=
  if hasPermission (app (world s)) then
    let s1 := initAudioRecorder s in
    let id1 := nextTimer (app (world s1)) in
    let s2 := update (set_audioChunkInterval (Some id1))
                     (update (setInterval audioChunkTick 2500) s1) in
    let id2 := nextTimer (app (world s2)) in
    update (set_frameInterval (Some id2))
           (update (setInterval processVideoFrameTick 1000) s2)
  else s.

(** The cleanup the effect returns.  A timer id is a positive number, so
    the guards [if (ref.current)] test only that the ref was assigned. *)
Definition timersCleanup (s : System) : System :=
  let s1 := match audioChunkInterval (app (world s)) with
            | Some id => update (clearInterval id) s
            | None => s
            end in
  let s2 := match frameInterval (app (world s1)) with
            | Some id => update (clearInterval id) s1
            | None => s1
            end in
  log (Called AudioRecord_stop) s2.

Definition find_timer (id : positive) (ts : list Timer) : option Timer :=
  find (fun t => Pos.eqb (timer_id t) id) ts.

(** The runtime fires interval [id]: its callback is invoked, the timer
    stays armed. *)
Definition interval_fires (id : positive) (s : System) : System :=
  match find_timer id (intervals (app (world s))) with
  | Some t => spawn (callback t) (run_callback (callback t)) s
  | None => s
  end.

(** The runtime fires timeout [id], once. *)
Definition timeout_fires (id : positive) (s : System) : System :=
  match find_timer id (timeouts (app (world s))) with
  | Some t => spawn (callback t) (run_callback (callback t)) (update (expire id) s)
  | None => s
  end.

End LiveCamera.

(* ------------------------------------------------------------------ *)
(** ** src/unnamed/part_001: asking for camera and microphone, and the
       screen that is rendered                                          *)

Module LiveCameraScreen.

(** The React state the timers do not touch, around the state they do. *)
Record Screen : Type :=
  { core : LiveCamera.State;
    isLoading : bool;
    device : option string }.

Definition initial : Screen :=
  {| core := LiveCamera.initial; isLoading := true; device := None |}.

Definition setHasPermission (v : bool) (s : LiveCamera.State) : LiveCamera.State :=
  {| LiveCamera.hasPermission := v;
     LiveCamera.audioClassification := LiveCamera.audioClassification s;
     LiveCamera.imageClassification := LiveCamera.imageClassification s;
     LiveCamera.cameraRef := LiveCamera.cameraRef s;
     LiveCamera.audioChunkInterval := LiveCamera.audioChunkInterval s;
     LiveCamera.frameInterval := LiveCamera.frameInterval s;
     LiveCamera.isRecording := LiveCamera.isRecording s;
     LiveCamera.intervals := LiveCamera.intervals s;
     LiveCamera.timeouts := LiveCamera.timeouts s;
     LiveCamera.nextTimer := LiveCamera.nextTimer s |}.

(** What the collaborators of the mount effect answer: the Android
    permission dialog, the two permission requests of the camera library
    on the other platform, and [useCameraDevices()?.back]. *)
Record Replies : Type :=
  { requestMultiple_reply : Result (Permission -> PermissionStatus);
    requestCameraPermission_reply : Result string;
    requestMicrophonePermission_reply : Result string;
    useCameraDevices_back : Result (option string) }.

(** [v === s] for a string literal [s]. *)
Definition strict_eq_string (v : Js.Value) (s : string) : bool :=
  match v with
  | Js.Str s' => s' =? s
  | _ => false
  end.

(** The values of [cameraPermission] and [audioPermission] after the
    requests, or the rejection that ended the effect. *)
Definition requested (rt : Runtime) (env : Replies) : Err + Js.Value * Js.Value :=
  if is_android rt then
    match requestMultiple_reply env with
    | Rejected e => inl e
    | Resolved granted =>
        inr (Js.Bool (is_granted (granted CAMERA)),
             Js.Bool (is_granted (granted RECORD_AUDIO)))
    end
  else
    match requestCameraPermission_reply env with
    | Rejected e => inl e
    | Resolved cameraPermission =>
        match requestMicrophonePermission_reply env with
        | Rejected e => inl e
        | Resolved audioPermission =>
            inr (Js.Str cameraPermission, Js.Str audioPermission)
        end
    end.

(** The async body of the mount effect: the screen it leaves, and the
    rejection nobody handles when it has one. *)
Definition permissionEffect (rt : Runtime) (env : Replies) (sc : Screen)
    : Screen * option Err :=
  match requested rt env with
  | inl e => (sc, Some e)
  | inr (cameraPermission, audioPermission) =>
      if strict_eq_string cameraPermission "granted"
         && strict_eq_string audioPermission "granted"
      then
        let sc1 := {| core := setHasPermission true (core sc);
                      isLoading := isLoading sc; device := device sc |} in
        match useCameraDevices_back env with
        | Rejected e => (sc1, Some e)
        | Resolved back =>
            let sc2 := match back with
                       | Some d => {| core := core sc1; isLoading := isLoading sc1;
                                      device := Some d |}
                       | None => sc1
                       end in
            ({| core := core sc2; isLoading := false; device := device sc2 |}, None)
        end
      else
        ({| core := core sc; isLoading := false; device := device sc |}, None)
  end.

Inductive View : Type :=
| LoadingText                        (* "Loading camera..." *)
| Notice (text : string)
| CameraView (device : string) (audioLine imageLine : Js.Value).

Definition render (sc : Screen) : View :=
  if isLoading sc then LoadingText
  else
    match device sc with
    | None => Notice "No Camera Found"
    | Some d =>
        if negb (LiveCamera.hasPermission (core sc))
        then Notice "Permissions Required"
        else CameraView d (LiveCamera.audioClassification (core sc))
                          (LiveCamera.imageClassification (core sc))
    end.

End LiveCameraScreen.

(* ================================================================== *)
(** * Vocabulary of the statements                                     *)

(** [go o m w]: the async function [m], started on [w] and run to its end
    in the environment [o]; the final world and what it returned or threw. *)
Definition go {St A} (o : Oracle) (m : M St A) (w : World St)
    : World St * (Err + A) :=
  run o (m w).

(** ** What a trace shows *)

Definition is_error (e : Event) : bool :=
  match e with console_error _ _ => true | _ => false end.

(** The errors logged. *)
Definition errors (tr : list Event) : list Event := filter is_error tr.

(** The external calls issued, in order. *)
Definition calls (tr : list Event) : list Call :=
  flat_map (fun e => match e with Called c => [c] | _ => [] end) tr.

Definition is_upload (c : Call) : bool :=
  match c with fetch_post _ _ => true | _ => false end.

(** The upload requests sent. *)
Definition uploads (tr : list Event) : list Call := filter is_upload (calls tr).

Definition is_unlink (c : Call) : bool :=
  match c with FileSystem_unlink _ => true | _ => false end.

Definition unlinks (tr : list Event) : list Call := filter is_unlink (calls tr).

(** The commands handed to the transcoding engine. *)
Definition ffmpeg_commands (tr : list Event) : list string :=
  flat_map (fun c => match c with FFmpegKit_execute cmd => [cmd] | _ => [] end)
           (calls tr).

(** The upload did not produce a parsed body: [fetch] rejected, or
    [response.json()] did. *)
Definition upload_fails (o : Oracle) (request : Call) : Prop :=
  (exists e, o request = Rejected e) \/ (exists e, o response_json = Rejected e).

(** ** Names for what the video analyzer sends and writes *)

Definition frame_upload (rt : Runtime) (framePath : string) : Call :=
  fetch_post (VideoAnalyzer.BACKEND_URL rt ++ "/predict_image")
    {| field := "image_file"; file_uri := "file://" ++ framePath;
       mime := "image/jpeg"; filename := "frame.jpg" |}.

Definition chunk_upload (rt : Runtime) (audioPath : string) : Call :=
  fetch_post (VideoAnalyzer.BACKEND_URL rt ++ "/predict")
    {| field := "audio_file"; file_uri := "file://" ++ audioPath;
       mime := "audio/wav"; filename := "audio_chunk.wav" |}.

(** The scratch paths of the sample cut at [time]. *)
Definition framePath_at (rt : Runtime) (time : Q) : string :=
  VideoAnalyzer.framesDir rt ++ "/frame_"
  ++ Number_toString rt (Math_floor time) ++ ".jpg".

Definition audioChunkPath_at (rt : Runtime) (time : Q) : string :=
  VideoAnalyzer.audioDir rt ++ "/chunk_"
  ++ Number_toString rt (Math_floor time) ++ ".wav".

(** The engine contract, in the words of the specification: where to
    seek, what to read, the options, where to write. *)
Definition engine_command (seek input : string) (options : list string)
    (output : string) : string :=
  "-ss " ++ seek ++ " -i " ++ dquote ++ input ++ dquote ++ " "
  ++ String.concat " " options ++ " " ++ dquote ++ output ++ dquote.

Definition frame_contract (rt : Runtime) (uri : string) (t : Q) : string :=
  engine_command (Number_toString rt t) uri
    ["-vframes 1"; "-q:v 2"]
    (Dirs_CacheDir rt ++ "/video_processing/frames/frame_"
     ++ Number_toString rt (Math_floor t) ++ ".jpg").

Definition audio_contract (rt : Runtime) (uri : string) (t : Q) : string :=
  engine_command (Number_toString rt t) uri
    ["-t 2.5"; "-acodec pcm_s16le"; "-ar 16000"; "-ac 1"]
    (Dirs_CacheDir rt ++ "/video_processing/audio/chunk_"
     ++ Number_toString rt (Math_floor t) ++ ".wav").

(** The uri a picked file is played from: a [content://] uri is first
    copied into the cache. *)
Definition final_uri (rt : Runtime) (r : PickResult) : string :=
  if String.prefix "content://" (pick_uri r)
  then "file://" ++ Dirs_CacheDir rt ++ "/input_video_temp.mp4"
  else pick_uri r.

(** The state a pick leaves behind once [finalUri], named [name], is
    selected. *)
Definition source_selected (finalUri name : string)
    (st : VideoAnalyzer.State) : VideoAnalyzer.State :=
  {| VideoAnalyzer.videoUri := Some finalUri;
     VideoAnalyzer.processingStatus := "Video selected: " ++ name;
     VideoAnalyzer.audioClassification := Js.Str "";
     VideoAnalyzer.imageClassification := Js.Str "";
     VideoAnalyzer.lastFrameTime := 0;
     VideoAnalyzer.lastAudioTime := 0;
     VideoAnalyzer.isProcessing := VideoAnalyzer.isProcessing st |}.

(** ** Names for what the media analyzer sends *)

Definition image_upload (rt : Runtime) (uri : string) : Call :=
  fetch_post (MediaAnalyzer.BACKEND_URL rt ++ "/predict_image")
    {| field := "image_file"; file_uri := uri;
       mime := "image/jpeg"; filename := "uploaded_image.jpg" |}.

Definition audio_upload (rt : Runtime) (uri : string) : Call :=
  fetch_post (MediaAnalyzer.BACKEND_URL rt ++ "/predict")
    {| field := "audio_file"; file_uri := uri;
       mime := "audio/wav"; filename := "uploaded_audio.wav" |}.

(** ** Names for what the live camera sends *)

Definition live_frame_upload (photo : PhotoFile) : Call :=
  fetch_post "http://localhost:9001/predict_image"
    {| field := "image_file"; file_uri := "file://" ++ photo_path photo;
       mime := "image/jpeg"; filename := "frame.jpg" |}.

Definition live_chunk_upload (uri : string) : Call :=
  fetch_post "http://localhost:8001/predict"
    {| field := "audio_file"; file_uri := uri;
       mime := "audio/wav"; filename := "audio_chunk.wav" |}.

(** ** Permissions *)

(** The request each screen puts to the permission API on Android. *)
Definition video_permission_call (rt : Runtime) : Call :=
  if (33 <=? Platform_Version rt)%Z
  then PermissionsAndroid_request READ_MEDIA_VIDEO
  else PermissionsAndroid_requestMultiple
         [READ_EXTERNAL_STORAGE; WRITE_EXTERNAL_STORAGE].

Definition media_permission_call (rt : Runtime)
    (mediaType : MediaAnalyzer.MediaType) : Call :=
  if (33 <=? Platform_Version rt)%Z
  then PermissionsAndroid_request
         match mediaType with
         | MediaAnalyzer.image => READ_MEDIA_IMAGES
         | MediaAnalyzer.audio => READ_MEDIA_AUDIO
         end
  else PermissionsAndroid_request READ_EXTERNAL_STORAGE.

(** The outcome of a permission request is an explicit grant: it resolved,
    and with GRANTED for every permission asked. *)
Definition explicit_grant (c : Call) : Result (reply_type c) -> Prop :=
  match c with
  | PermissionsAndroid_request _ => fun r => r = Resolved GRANTED
  | PermissionsAndroid_requestMultiple ps =>
      fun r => exists f, r = Resolved f /\ forall p, In p ps -> f p = GRANTED
  | _ => fun _ => False
  end.

(** ** A concrete runtime, environments and worlds for the examples *)

Definition digits (z : Z) : string :=
  DecimalString.NilZero.string_of_int (Z.to_int z).

(** At most [n] decimals of [num / den], for [0 <= num < den]. *)
Fixpoint fraction_digits (n : nat) (num den : Z) : string :=
  match n with
  | O => ""
  | S n' =>
      if (num =? 0)%Z then ""
      else digits (num * 10 / den) ++ fraction_digits n' ((num * 10) mod den) den
  end.

(** A number as text: its integer part and up to six decimals. *)
Definition demo_toString (q : Q) : string :=
  let a := Qabs q in
  let whole := Qfloor a in
  let num := (Qnum a - whole * Zpos (Qden a))%Z in
  (if Qle_bool 0 q then "" else "-")
  ++ digits whole
  ++ (if (num =? 0)%Z then "" else "." ++ fraction_digits 6 num (Zpos (Qden a))).

(** Exactly [d] decimals, rounding the last one half up. *)
Definition demo_toFixed (q : Q) (d : nat) : string :=
  let scale := (10 ^ Z.of_nat d)%Z in
  let scaled := Qfloor (q * inject_Z scale + (1 # 2)) in
  let pad := fix pad (n : nat) (r : Z) : string :=
    match n with
    | O => ""
    | S n' => pad n' (r / 10)%Z ++ digits (r mod 10)
    end in
  digits (scaled / scale)
  ++ match d with O => "" | _ => "." ++ pad d (scaled mod scale)%Z end.

Definition demo_runtime : Runtime :=
  {| Platform_OS := android; Platform_Version := 34;
     Dirs_CacheDir := "/data/cache";
     Number_toString := demo_toString; Number_toFixed := demo_toFixed |}.

(** The same device on the storage-permission API levels. *)
Definition legacy_runtime : Runtime :=
  {| Platform_OS := android; Platform_Version := 30;
     Dirs_CacheDir := "/data/cache";
     Number_toString := demo_toString; Number_toFixed := demo_toFixed |}.

(** Every collaborator succeeds; the backend answers 200 with a label. *)
Definition all_ok : Oracle :=
  fun c =>
    match c with
    | PermissionsAndroid_request _ => Resolved GRANTED
    | PermissionsAndroid_requestMultiple _ => Resolved (fun _ => GRANTED)
    | DocumentPicker_pick _ =>
        Resolved [{| pick_uri := "file:///sdcard/clip.mp4"; pick_name := "clip.mp4" |}]
    | fetch_get _ | fetch_post _ _ => Resolved {| http_status := 200 |}
    | response_blob => Resolved tt
    | FileReader_readAsDataURL => Resolved "data:video/mp4;base64,AAAA"
    | FileSystem_writeFile _ | FileSystem_mkdir _ | FileSystem_unlink _ => Resolved tt
    | FFmpegKit_execute _ => Resolved tt
    | session_getReturnCode => Resolved (Some 0%Z)
    | session_getLogsAsString => Resolved "frame=1"
    | response_json =>
        Resolved (Js.Object [("classification", Js.Str "cat");
                             ("predicted_class", Js.Str "cat");
                             ("emotion", Js.Str "calm")])
    | camera_takePhoto => Resolved {| photo_path := "/data/cache/photo.jpg" |}
    | AudioRecord_init _ _ _ _ => Resolved tt
    | AudioRecord_start => Resolved tt
    | AudioRecord_stop => Resolved "/data/files/audio_chunk.wav"
    end.

(** The network is down: every upload rejects. *)
Definition network_down : Oracle :=
  fun c =>
    match c with
    | fetch_post _ _ => Rejected NetworkError
    | c' => all_ok c'
    end.

(** The backend answers 500 with an HTML page. *)
Definition http_500_html : Oracle :=
  fun c =>
    match c with
    | fetch_post _ _ => Resolved {| http_status := 500 |}
    | response_json => Rejected SyntaxError
    | c' => all_ok c'
    end.

(** The backend answers 500 with a JSON error body. *)
Definition http_500_json : Oracle :=
  fun c =>
    match c with
    | fetch_post _ _ => Resolved {| http_status := 500 |}
    | response_json =>
        Resolved (Js.Object [("detail", Js.Str "Internal Server Error")])
    | c' => all_ok c'
    end.

(** The engine exits with 1. *)
Definition engine_fails : Oracle :=
  fun c =>
    match c with
    | session_getReturnCode => Resolved (Some 1%Z)
    | c' => all_ok c'
    end.

Definition permission_denied : Oracle :=
  fun c =>
    match c with
    | PermissionsAndroid_request _ => Resolved DENIED
    | PermissionsAndroid_requestMultiple _ =>
        Resolved (fun p => match p with
                           | WRITE_EXTERNAL_STORAGE => DENIED
                           | _ => GRANTED
                           end)
    | c' => all_ok c'
    end.

Definition permission_blocked : Oracle :=
  fun c =>
    match c with
    | PermissionsAndroid_request _ => Resolved NEVER_ASK_AGAIN
    | c' => all_ok c'
    end.

Definition permission_throws : Oracle :=
  fun c =>
    match c with
    | PermissionsAndroid_request _ => Rejected (NativeError "no activity")
    | PermissionsAndroid_requestMultiple _ => Rejected (NativeError "no activity")
    | c' => all_ok c'
    end.

(** A world with nothing logged and the given scratch files. *)
Definition world_of {St} (st : St) (fs : list string) : World St :=
  {| app := st; trace := []; files := fs |}.

(** A quiet event loop around a state. *)
Definition system_of {St Label} (st : St) : Sys St Label :=
  {| world := world_of st []; tasks := [] |}.

(** The video analyzer with a video picked and labels from earlier samples. *)
Definition playing : VideoAnalyzer.State :=
  {| VideoAnalyzer.videoUri := Some "file:///sdcard/clip.mp4";
     VideoAnalyzer.processingStatus := "Video selected: clip.mp4";
     VideoAnalyzer.audioClassification := Js.Str "speech";
     VideoAnalyzer.imageClassification := Js.Str "dog";
     VideoAnalyzer.lastFrameTime := 0;
     VideoAnalyzer.lastAudioTime := 0;
     VideoAnalyzer.isProcessing := false |}.

(** The live camera, permissions confirmed and the camera mounted. *)
Definition filming : LiveCamera.State :=
  {| LiveCamera.hasPermission := true;
     LiveCamera.audioClassification := Js.Str "";
     LiveCamera.imageClassification := Js.Str "";
     LiveCamera.cameraRef := true;
     LiveCamera.audioChunkInterval := None;
     LiveCamera.frameInterval := None;
     LiveCamera.isRecording := false;
     LiveCamera.intervals := [];
     LiveCamera.timeouts := [];
     LiveCamera.nextTimer := 1 |}.

(** ** Sequences of progress events, and what they started *)

(** The handler run on the events [ts], in order. *)
Definition progress_events (rt : Runtime) (ts : list Q)
    (s : VideoAnalyzer.System) : VideoAnalyzer.System :=
  fold_left (fun s t => VideoAnalyzer.onVideoProgress rt t s) ts s.

Definition frame_times (l : list VideoAnalyzer.Extraction) : list Q :=
  flat_map (fun x => match x with
                     | VideoAnalyzer.FrameAt t => [t]
                     | VideoAnalyzer.AudioAt _ => []
                     end) l.

Definition audio_times (l : list VideoAnalyzer.Extraction) : list Q :=
  flat_map (fun x => match x with
                     | VideoAnalyzer.FrameAt _ => []
                     | VideoAnalyzer.AudioAt t => [t]
                     end) l.

(** Every element is at least [gap] after all the elements before it. *)
Fixpoint spaced (gap : Q) (l : list Q) : Prop :=
  match l with
  | [] => True
  | x :: rest => (forall y, In y rest -> x + gap <= y)%Q /\ spaced gap rest
  end.

Fixpoint increasing (l : list Z) : Prop :=
  match l with
  | [] => True
  | x :: rest => (forall y, In y rest -> x < y)%Z /\ increasing rest
  end.

(** The alerts shown to the user. *)
Definition is_alert (e : Event) : bool :=
  match e with Alert_alert _ _ => true | _ => false end.

Definition alerts (tr : list Event) : list Event := filter is_alert tr.

(** What holds of a session playing [uri] between progress events: the
    samples started so far are spaced, and none is later than the time
    recorded for its kind. *)
Definition cadence (uri : string) (s : VideoAnalyzer.System) : Prop :=
  VideoAnalyzer.videoUri (app (world s)) = Some uri
  /\ spaced 1 (frame_times (in_flight s))
  /\ (forall x, In x (frame_times (in_flight s)) ->
        x <= VideoAnalyzer.lastFrameTime (app (world s)))%Q
  /\ spaced (5 # 2) (audio_times (in_flight s))
  /\ (forall x, In x (audio_times (in_flight s)) ->
        x <= VideoAnalyzer.lastAudioTime (app (world s)))%Q.

(** ** What the picking screens show *)

(** [{label || 'Not processed'}]. *)
Definition shown_label (label : Js.Value) : Js.Value :=
  Js.or label (Js.Str "Not processed").

(** ** Handlers that contain their failures *)

(** In the environment [o] the async function [m] returns, from every
    world: no rejection leaves it. *)
Definition never_throws {St A} (o : Oracle) (m : M St A) : Prop :=
  forall w, exists w' a, go o m w = (w', inr a).

(** The stop timer an audio tick arms. *)
Definition stop_timer (id : positive) : LiveCamera.Timer :=
  {| LiveCamera.timer_id := id;
     LiveCamera.callback := LiveCamera.stopAndUpload;
     LiveCamera.delay_ms := 2000 |}.

(** The recorder is out of order: it rejects both start and stop. *)
Definition recorder_broken : Oracle :=
  fun c =>
    match c with
    | AudioRecord_start => Rejected (NativeError "recorder busy")
    | AudioRecord_stop => Rejected (NativeError "recorder busy")
    | c' => all_ok c'
    end.

(** The camera cannot take a photo. *)
Definition camera_broken : Oracle :=
  fun c =>
    match c with
    | camera_takePhoto => Rejected (NativeError "camera closed")
    | c' => all_ok c'
    end.

(** The picker is dismissed: the library rejects. *)
Definition pick_cancelled : Oracle :=
  fun c =>
    match c with
    | DocumentPicker_pick _ => Rejected (NativeError "user canceled")
    | c' => all_ok c'
    end.

(** The picker hands back a [content://] uri and the copy cannot be
    written. *)
Definition copy_fails : Oracle :=
  fun c =>
    match c with
    | DocumentPicker_pick _ =>
        Resolved [{| pick_uri := "content://media/42"; pick_name := "clip.mp4" |}]
    | FileSystem_writeFile _ => Rejected (NativeError "disk full")
    | c' => all_ok c'
    end.

(** The picker hands back a [content://] uri, and all goes well. *)
Definition content_ok : Oracle :=
  fun c =>
    match c with
    | DocumentPicker_pick _ =>
        Resolved [{| pick_uri := "content://media/42"; pick_name := "clip.mp4" |}]
    | c' => all_ok c'
    end.

(** The user grants camera and microphone. *)
Definition all_granted : LiveCameraScreen.Replies :=
  {| LiveCameraScreen.requestMultiple_reply := Resolved (fun _ => GRANTED);
     LiveCameraScreen.requestCameraPermission_reply := Resolved "granted";
     LiveCameraScreen.requestMicrophonePermission_reply := Resolved "granted";
     LiveCameraScreen.useCameraDevices_back := Resolved (Some "back-camera") |}.

Definition ios_runtime : Runtime :=
  {| Platform_OS := ios; Platform_Version := 17;
     Dirs_CacheDir := "/var/cache";
     Number_toString := demo_toString; Number_toFixed := demo_toFixed |}.

(** ** Tactics *)

Create Rewrite HintDb go.
Create Rewrite HintDb trace.
Create HintDb contained.

(** Symbolic execution: unfold the run equations, then split on the next
    outcome the environment has to supply. *)
Ltac go_simpl :=
  autorewrite with go;
  cbn [settle_files say app trace files fst snd].

Ltac go_split :=
  match goal with
  | H : ?o ?c = _ |- context [match ?o ?c with Resolved _ => _ | Rejected _ => _ end] =>
      rewrite H
  | H : Js.get ?v ?k = _ |- context [match Js.get ?v ?k with inl _ => _ | inr _ => _ end] =>
      rewrite H
  | H : ?b = _ |- context [if ?b then _ else _] =>
      rewrite H
  | |- context [match ?o ?c with Resolved _ => _ | Rejected _ => _ end] =>
      let E := fresh "E" in destruct (o c) eqn:E
  | |- context [match Js.get ?v ?k with inl _ => _ | inr _ => _ end] =>
      let G := fresh "G" in destruct (Js.get v k) eqn:G
  | |- context [go _ (if ?b then _ else _) _] =>
      let B := fresh "B" in destruct b eqn:B
  end.

Ltac go_all := go_simpl; repeat (go_split; go_simpl).

(** Close a goal about the projections of a computed trace. *)
Ltac trace_done :=
  cbn [say trace app files fst snd];
  autorewrite with trace; cbn; rewrite ?app_nil_r; reflexivity.

(** Replace the run of an uploader by what a lemma [once] says about it. *)
Ltac upload_with once :=
  match goal with
  | |- context [go ?o (?uploader ?rt ?p) ?w] =>
      let H := fresh "Hup" in
      pose proof (once p w) as H; cbn zeta in H;
      unfold exec, eval in H; fold (go o (uploader rt p) w) in H;
      destruct (go o (uploader rt p) w) as [? ?];
      cbn [fst snd] in H; destruct H as (-> & ? & ? & ? & ?)
  end.

(** Step into an extractor whose guard on the selected video passes. *)
Ltac enter_extraction H Hne uri :=
  go_simpl; rewrite H;
  destruct (String.eqb_spec uri "") as [? | _]; [ contradiction | ];
  go_simpl.

Ltac split_status :=
  match goal with
  | a : reply_type (PermissionsAndroid_request _) |- _ => destruct a
  end.

(* ================================================================== *)
(** * Properties                                                       *)

(** ** Running a resumption, equation by equation *)

Unset Implicit Arguments.

Section RunEquations.

Variable St : Type.
Variable o : Oracle.

Lemma run_bindR A B (r : Res St A) (f : A -> M St B) :
  run o (bindR r f) =
  match run o r with
  | (w, inr a) => run o (f a w)
  | (w, inl e) => (w, inl e)
  end.
Proof. induction r as [w a | w e | w c k IH]; simpl; auto. Qed.

Lemma run_catchR A (r : Res St A) (h : Err -> M St A) :
  run o (catchR r h) =
  match run o r with
  | (w, inr a) => (w, inr a)
  | (w, inl e) => run o (h e w)
  end.
Proof. induction r as [w a | w e | w c k IH]; simpl; auto. Qed.

Lemma run_finallyR A (r : Res St A) (f : M St unit) :
  run o (finallyR r f) =
  match run o r with
  | (w, inr a) => match run o (f w) with
                  | (w', inr _) => (w', inr a)
                  | (w', inl e) => (w', inl e)
                  end
  | (w, inl e) => match run o (f w) with
                  | (w', inr _) => (w', inl e)
                  | (w', inl e') => (w', inl e')
                  end
  end.
Proof.
  induction r as [w a | w e | w c k IH]; simpl; auto.
  - rewrite run_bindR. destruct (run o (f w)) as [w' [e | []]]; reflexivity.
  - rewrite run_bindR. destruct (run o (f w)) as [w' [e' | []]]; reflexivity.
Qed.

Lemma run_among_finallyR A others (r : Res St A) (f : M St unit) :
  (forall w, exists w', f w = Done w' tt) ->
  forall w' res, run_among o others (finallyR r f) = (w', res) ->
  exists w0, f w0 = Done w' tt.
Proof.
  intros Hf. induction r as [w a | w e | w c k IH]; simpl; intros w' res Hrun.
  - destruct (Hf w) as [w1 H1]. rewrite H1 in Hrun. simpl in Hrun.
    injection Hrun as <- _. exists w. exact H1.
  - destruct (Hf w) as [w1 H1]. rewrite H1 in Hrun. simpl in Hrun.
    injection Hrun as <- _. exists w. exact H1.
  - exact (IH _ _ w' res Hrun).
Qed.

Lemma run_among_alone A (r : Res St A) : run_among o (fun w => w) r = run o r.
Proof. induction r as [w a | w e | w c k IH]; simpl; auto. Qed.

(** A handler spawned on a quiet event loop has run to its end after
    finitely many turns, and [run] is where it ends. *)
Lemma turns_run (Label : Type) (l : Label) (r : Res St unit) :
  exists n,
    turns o n (park l r []) = {| world := fst (run o r); tasks := [] |}.
Proof.
  induction r as [w a | w e | w c k IH].
  - exists 0%nat. reflexivity.
  - exists 0%nat. reflexivity.
  - destruct (IH (o c) w) as [n Hn]. exists (S n). exact Hn.
Qed.

Lemma go_ret A (a : A) (w : World St) : go o (ret a) w = (w, inr a).
Proof. reflexivity. Qed.

Lemma go_throw A e (w : World St) : go o (throw (A := A) e) w = (w, inl e).
Proof. reflexivity. Qed.

Lemma go_bind A B (m : M St A) (f : A -> M St B) w :
  go o (bind m f) w =
  match go o m w with
  | (w', inr a) => go o (f a) w'
  | (w', inl e) => (w', inl e)
  end.
Proof. apply run_bindR. Qed.

Lemma go_catch A (m : M St A) h w :
  go o (try_catch m h) w =
  match go o m w with
  | (w', inr a) => (w', inr a)
  | (w', inl e) => go o (h e) w'
  end.
Proof. apply run_catchR. Qed.

Lemma go_finally A (m : M St A) f w :
  go o (try_finally m f) w =
  match go o m w with
  | (w', inr a) => match go o f w' with
                   | (w'', inr _) => (w'', inr a)
                   | (w'', inl e) => (w'', inl e)
                   end
  | (w', inl e) => match go o f w' with
                   | (w'', inr _) => (w'', inl e)
                   | (w'', inl e') => (w'', inl e')
                   end
  end.
Proof. apply run_finallyR. Qed.

Lemma go_get (w : World St) : go o get_app w = (w, inr (app w)).
Proof. reflexivity. Qed.

Lemma go_modify f (w : World St) :
  go o (modify_app f) w =
  ({| app := f (app w); trace := trace w; files := files w |}, inr tt).
Proof. reflexivity. Qed.

Lemma go_emit e (w : World St) : go o (emit e) w = (say [e] w, inr tt).
Proof. reflexivity. Qed.

Lemma go_await c (w : World St) :
  go o (await c) w =
  match o c with
  | Resolved a =>
      ({| app := app w; trace := trace w ++ [Called c];
          files := settle_files c (Resolved a) (files w) |}, inr a)
  | Rejected e => (say [Called c] w, inl e)
  end.
Proof.
  unfold go, await, bind, await_result. simpl.
  destruct (o c) as [a | e]; simpl; try reflexivity.
  destruct c; reflexivity.
Qed.

Lemma go_read_prop v key (w : World St) :
  go o (read_prop v key) w =
  match Js.get v key with
  | inl e => (w, inl e)
  | inr x => (w, inr x)
  end.
Proof. unfold read_prop. destruct (Js.get v key); reflexivity. Qed.

End RunEquations.

Lemma exec_go St A (o : Oracle) (m : M St A) w : exec o m w = fst (go o m w).
Proof. reflexivity. Qed.

Lemma eval_go St A (o : Oracle) (m : M St A) w : eval o m w = snd (go o m w).
Proof. reflexivity. Qed.

#[global] Hint Rewrite go_ret go_throw go_bind go_catch go_finally go_get
  go_modify go_emit go_await go_read_prop exec_go eval_go : go.

Lemma errors_app tr1 tr2 : errors (tr1 ++ tr2) = (errors tr1 ++ errors tr2)%list.
Proof. apply filter_app. Qed.

Lemma calls_app tr1 tr2 : calls (tr1 ++ tr2) = (calls tr1 ++ calls tr2)%list.
Proof. apply flat_map_app. Qed.

Lemma uploads_app tr1 tr2 : uploads (tr1 ++ tr2) = (uploads tr1 ++ uploads tr2)%list.
Proof. unfold uploads. rewrite calls_app. apply filter_app. Qed.

Lemma unlinks_app tr1 tr2 : unlinks (tr1 ++ tr2) = (unlinks tr1 ++ unlinks tr2)%list.
Proof. unfold unlinks. rewrite calls_app. apply filter_app. Qed.

Lemma ffmpeg_commands_app tr1 tr2 :
  ffmpeg_commands (tr1 ++ tr2) = (ffmpeg_commands tr1 ++ ffmpeg_commands tr2)%list.
Proof. unfold ffmpeg_commands. rewrite calls_app. apply flat_map_app. Qed.

#[global] Hint Rewrite errors_app calls_app uploads_app unlinks_app
  ffmpeg_commands_app : trace.

(** ** Helper lemmas on the video analyzer *)

Section VideoAnalyzerFacts.

Import VideoAnalyzer.

Variable rt : Runtime.
Variable o : Oracle.

Lemma go_mkdir_quietly d (w : World State) :
  go o (mkdir_quietly d) w = (say [Called (FileSystem_mkdir d)] w, inr tt).
Proof. unfold mkdir_quietly. go_all; reflexivity. Qed.

Lemma go_createSubdirectories (w : World State) :
  go o (createSubdirectories rt) w =
  (say [Called (FileSystem_mkdir (videoProcessingDir rt));
        Called (FileSystem_mkdir (framesDir rt));
        Called (FileSystem_mkdir (audioDir rt))] w,
   inr (framesDir rt, audioDir rt)).
Proof.
  unfold createSubdirectories. go_simpl.
  rewrite !go_mkdir_quietly. go_simpl. rewrite !go_mkdir_quietly. go_simpl.
  rewrite !go_mkdir_quietly. go_simpl.
  unfold say; cbn [app trace files]. rewrite <- !app_assoc. reflexivity.
Qed.

(** An uploader never throws and sends exactly one request. *)
Lemma processVideoFrame_once framePath (w : World State) :
  let w' := exec o (processVideoFrame rt framePath) w in
  eval o (processVideoFrame rt framePath) w = inr tt
  /\ uploads (trace w') = (uploads (trace w) ++ [frame_upload rt framePath])%list
  /\ ffmpeg_commands (trace w') = ffmpeg_commands (trace w)
  /\ isProcessing (app w') = isProcessing (app w)
  /\ audioClassification (app w') = audioClassification (app w).
Proof.
  unfold processVideoFrame, frame_upload. go_all;
    repeat split; try reflexivity; trace_done.
Qed.

Lemma processAudioChunk_once audioPath (w : World State) :
  let w' := exec o (processAudioChunk rt audioPath) w in
  eval o (processAudioChunk rt audioPath) w = inr tt
  /\ uploads (trace w') = (uploads (trace w) ++ [chunk_upload rt audioPath])%list
  /\ ffmpeg_commands (trace w') = ffmpeg_commands (trace w)
  /\ isProcessing (app w') = isProcessing (app w)
  /\ imageClassification (app w') = imageClassification (app w).
Proof.
  unfold processAudioChunk, chunk_upload. go_all;
    repeat split; try reflexivity; trace_done.
Qed.

(** A failed upload: the state is untouched, one error is logged, the
    sample is neither unlinked nor removed. *)
Lemma processVideoFrame_failure framePath (w : World State) :
  upload_fails o (frame_upload rt framePath) ->
  let w' := exec o (processVideoFrame rt framePath) w in
  app w' = app w
  /\ (exists e, errors (trace w') =
        (errors (trace w) ++ [console_error "Error processing video frame:" [LErr e]])%list)
  /\ unlinks (trace w') = unlinks (trace w)
  /\ files w' = files w.
Proof.
  unfold upload_fails, frame_upload, processVideoFrame.
  intros [[e He] | [e He]]; go_all;
    (repeat split; try reflexivity; [ eexists; trace_done | trace_done ]).
Qed.

Lemma processAudioChunk_failure audioPath (w : World State) :
  upload_fails o (chunk_upload rt audioPath) ->
  let w' := exec o (processAudioChunk rt audioPath) w in
  app w' = app w
  /\ (exists e, errors (trace w') =
        (errors (trace w) ++ [console_error "Error processing audio:" [LErr e]])%list)
  /\ unlinks (trace w') = unlinks (trace w)
  /\ files w' = files w.
Proof.
  unfold upload_fails, chunk_upload, processAudioChunk.
  intros [[e He] | [e He]]; go_all;
    (repeat split; try reflexivity; [ eexists; trace_done | trace_done ]).
Qed.

Lemma remove_file_gone p fs : ~ In p (remove_file p fs).
Proof.
  unfold remove_file. rewrite filter_In. intros [_ H].
  rewrite String.eqb_refl in H. discriminate.
Qed.

(** An upload that came back with a body that parses and is not [null]:
    the label is overwritten and the sample is unlinked, whatever the
    HTTP status was. *)
Lemma processVideoFrame_parsed framePath (w : World State) r v c :
  o (frame_upload rt framePath) = Resolved r ->
  o response_json = Resolved v ->
  Js.get v "classification" = inr c ->
  let w' := exec o (processVideoFrame rt framePath) w in
  imageClassification (app w') = Js.or c (Js.Str "No classification")
  /\ errors (trace w') =
     (errors (trace w) ++
      match o (FileSystem_unlink framePath) with
      | Resolved _ => []
      | Rejected e => [console_error "Error processing video frame:" [LErr e]]
      end)%list
  /\ unlinks (trace w') = (unlinks (trace w) ++ [FileSystem_unlink framePath])%list
  /\ files w' = match o (FileSystem_unlink framePath) with
                | Resolved _ => remove_file framePath (files w)
                | Rejected _ => files w
                end.
Proof.
  unfold frame_upload, processVideoFrame. intros Hr Hv Hc.
  go_all; repeat split; try reflexivity; trace_done.
Qed.

Lemma processAudioChunk_parsed audioPath (w : World State) r v c :
  o (chunk_upload rt audioPath) = Resolved r ->
  o response_json = Resolved v ->
  Js.get v "classification" = inr c ->
  let w' := exec o (processAudioChunk rt audioPath) w in
  audioClassification (app w') = Js.or c (Js.Str "No classification")
  /\ errors (trace w') =
     (errors (trace w) ++
      match o (FileSystem_unlink audioPath) with
      | Resolved _ => []
      | Rejected e => [console_error "Error processing audio:" [LErr e]]
      end)%list
  /\ unlinks (trace w') = (unlinks (trace w) ++ [FileSystem_unlink audioPath])%list
  /\ files w' = match o (FileSystem_unlink audioPath) with
                | Resolved _ => remove_file audioPath (files w)
                | Rejected _ => files w
                end.
Proof.
  unfold chunk_upload, processAudioChunk. intros Hr Hv Hc.
  go_all; repeat split; try reflexivity; trace_done.
Qed.

(** *** Extraction *)

(** The guaranteed cleanup of both extractors. *)
Lemma finally_clears A (m : M State A) (w : World State) :
  isProcessing (app (fst (go o (try_finally m (modify_app (setIsProcessing false))) w)))
  = false.
Proof.
  rewrite go_finally. destruct (go o m w) as [w' [e | a]];
    rewrite go_modify; reflexivity.
Qed.

Lemma captureFrame_clears uri time (w : World State) :
  videoUri (app w) = Some uri -> uri <> "" ->
  isProcessing (app (exec o (captureFrame rt time) w)) = false.
Proof.
  intros H Hne. unfold captureFrame. rewrite exec_go, go_bind, go_get.
  cbn [app]. rewrite H.
  destruct (String.eqb_spec uri "") as [E | _]; [ contradiction | ].
  apply finally_clears.
Qed.

Lemma processAudioAtTime_clears uri time (w : World State) :
  videoUri (app w) = Some uri -> uri <> "" ->
  isProcessing (app (exec o (processAudioAtTime rt time) w)) = false.
Proof.
  intros H Hne. unfold processAudioAtTime. rewrite exec_go, go_bind, go_get.
  cbn [app]. rewrite H.
  destruct (String.eqb_spec uri "") as [E | _]; [ contradiction | ].
  apply finally_clears.
Qed.

(** The cleanup is the last step also when other handlers run between
    the awaits of the extraction. *)
Lemma captureFrame_clears_among others uri time (w : World State) :
  videoUri (app w) = Some uri -> uri <> "" ->
  isProcessing (app (fst (run_among o others (captureFrame rt time w)))) = false.
Proof.
  intros H Hne. unfold captureFrame, bind, get_app. cbn [bindR]. rewrite H.
  destruct (String.eqb_spec uri "") as [E | _]; [ contradiction | ].
  unfold try_finally.
  match goal with
  | |- context [run_among o others ?r] =>
      destruct (run_among o others r) as [w' res] eqn:Hrun
  end.
  apply run_among_finallyR in Hrun.
  - destruct Hrun as [w0 H0]. injection H0 as <-. reflexivity.
  - intros w1. eexists. reflexivity.
Qed.

Lemma processAudioAtTime_clears_among others uri time (w : World State) :
  videoUri (app w) = Some uri -> uri <> "" ->
  isProcessing (app (fst (run_among o others (processAudioAtTime rt time w)))) = false.
Proof.
  intros H Hne. unfold processAudioAtTime, bind, get_app. cbn [bindR]. rewrite H.
  destruct (String.eqb_spec uri "") as [E | _]; [ contradiction | ].
  unfold try_finally.
  match goal with
  | |- context [run_among o others ?r] =>
      destruct (run_among o others r) as [w' res] eqn:Hrun
  end.
  apply run_among_finallyR in Hrun.
  - destruct Hrun as [w0 H0]. injection H0 as <-. reflexivity.
  - intros w1. eexists. reflexivity.
Qed.

(** Every extraction hands exactly one command to the engine. *)
Lemma captureFrame_commands uri time (w : World State) :
  videoUri (app w) = Some uri -> uri <> "" ->
  let w' := exec o (captureFrame rt time) w in
  ffmpeg_commands (trace w') =
  (ffmpeg_commands (trace w) ++ [frame_command rt uri time (framePath_at rt time)])%list.
Proof.
  intros H Hne. unfold captureFrame, framePath_at. enter_extraction H Hne uri.
  rewrite go_createSubdirectories.
  go_all; try upload_with processVideoFrame_once; go_simpl;
    repeat match goal with H : ffmpeg_commands _ = _ |- _ => rewrite H end;
    trace_done.
Qed.

Lemma processAudioAtTime_commands uri time (w : World State) :
  videoUri (app w) = Some uri -> uri <> "" ->
  let w' := exec o (processAudioAtTime rt time) w in
  ffmpeg_commands (trace w') =
  (ffmpeg_commands (trace w) ++ [audio_command rt uri time (audioChunkPath_at rt time)])%list.
Proof.
  intros H Hne. unfold processAudioAtTime, audioChunkPath_at. enter_extraction H Hne uri.
  rewrite go_createSubdirectories.
  go_all; try upload_with processAudioChunk_once; go_simpl;
    repeat match goal with H : ffmpeg_commands _ = _ |- _ => rewrite H end;
    trace_done.
Qed.

(** The engine answered with a return code that is not a success. *)
Lemma captureFrame_engine_failure uri time (w : World State) rc :
  videoUri (app w) = Some uri -> uri <> "" ->
  o session_getReturnCode = Resolved rc -> ReturnCode_isSuccess rc = false ->
  let w' := exec o (captureFrame rt time) w in
  (exists e, errors (trace w') = (errors (trace w) ++ [e])%list)
  /\ uploads (trace w') = uploads (trace w)
  /\ imageClassification (app w') = imageClassification (app w)
  /\ audioClassification (app w') = audioClassification (app w).
Proof.
  intros H Hne Hrc Hfail. unfold captureFrame. enter_extraction H Hne uri.
  rewrite go_createSubdirectories.
  go_all; (repeat split; try reflexivity; [ eexists; trace_done | trace_done ]).
Qed.

Lemma processAudioAtTime_engine_failure uri time (w : World State) rc :
  videoUri (app w) = Some uri -> uri <> "" ->
  o session_getReturnCode = Resolved rc -> ReturnCode_isSuccess rc = false ->
  let w' := exec o (processAudioAtTime rt time) w in
  (exists e, errors (trace w') = (errors (trace w) ++ [e])%list)
  /\ uploads (trace w') = uploads (trace w)
  /\ imageClassification (app w') = imageClassification (app w)
  /\ audioClassification (app w') = audioClassification (app w).
Proof.
  intros H Hne Hrc Hfail. unfold processAudioAtTime. enter_extraction H Hne uri.
  rewrite go_createSubdirectories.
  go_all; (repeat split; try reflexivity; [ eexists; trace_done | trace_done ]).
Qed.

(** When the engine itself answered, the error logged is the extractor's
    own failure message. *)
Lemma captureFrame_engine_failure_logged uri time (w : World State) r rc logs :
  videoUri (app w) = Some uri -> uri <> "" ->
  o (FFmpegKit_execute (frame_command rt uri time (framePath_at rt time))) = Resolved r ->
  o session_getReturnCode = Resolved rc -> ReturnCode_isSuccess rc = false ->
  o session_getLogsAsString = Resolved logs ->
  errors (trace (exec o (captureFrame rt time) w)) =
  (errors (trace w) ++ [console_error "Failed to extract frame at time" [LNum time]])%list.
Proof.
  intros H Hne Hx Hrc Hfail Hlogs. unfold captureFrame. unfold framePath_at in Hx.
  enter_extraction H Hne uri. rewrite go_createSubdirectories.
  go_all. trace_done.
Qed.

Lemma processAudioAtTime_engine_failure_logged uri time (w : World State) r rc logs :
  videoUri (app w) = Some uri -> uri <> "" ->
  o (FFmpegKit_execute (audio_command rt uri time (audioChunkPath_at rt time))) = Resolved r ->
  o session_getReturnCode = Resolved rc -> ReturnCode_isSuccess rc = false ->
  o session_getLogsAsString = Resolved logs ->
  errors (trace (exec o (processAudioAtTime rt time) w)) =
  (errors (trace w) ++ [console_error "Failed to extract audio chunk at time" [LNum time]])%list.
Proof.
  intros H Hne Hx Hrc Hfail Hlogs. unfold processAudioAtTime. unfold audioChunkPath_at in Hx.
  enter_extraction H Hne uri. rewrite go_createSubdirectories.
  go_all. trace_done.
Qed.

End VideoAnalyzerFacts.

(** ** Helper lemmas on the media analyzer *)

Section MediaAnalyzerFacts.

Import MediaAnalyzer.

Variable rt : Runtime.
Variable o : Oracle.

Lemma uploadImage_failure uri (w : World State) :
  upload_fails o (image_upload rt uri) ->
  let w' := exec o (uploadImage rt uri) w in
  imageClassification (app w') = imageClassification (app w)
  /\ audioClassification (app w') = audioClassification (app w)
  /\ (exists e, errors (trace w') =
        (errors (trace w) ++ [console_error "Error uploading image:" [LErr e]])%list)
  /\ uploads (trace w') = (uploads (trace w) ++ [image_upload rt uri])%list.
Proof.
  unfold upload_fails, image_upload, uploadImage.
  intros [[e He] | [e He]]; go_all;
    (repeat split; try reflexivity; [ eexists; trace_done | trace_done ]).
Qed.

Lemma uploadAudio_failure uri (w : World State) :
  upload_fails o (audio_upload rt uri) ->
  let w' := exec o (uploadAudio rt uri) w in
  imageClassification (app w') = imageClassification (app w)
  /\ audioClassification (app w') = audioClassification (app w)
  /\ (exists e, errors (trace w') =
        (errors (trace w) ++ [console_error "Error uploading audio:" [LErr e]])%list)
  /\ uploads (trace w') = (uploads (trace w) ++ [audio_upload rt uri])%list.
Proof.
  unfold upload_fails, audio_upload, uploadAudio.
  intros [[e He] | [e He]]; go_all;
    (repeat split; try reflexivity; [ eexists; trace_done | trace_done ]).
Qed.

Lemma uploadImage_parsed uri (w : World State) r v c :
  o (image_upload rt uri) = Resolved r ->
  o response_json = Resolved v ->
  Js.get v "predicted_class" = inr c ->
  let w' := exec o (uploadImage rt uri) w in
  imageClassification (app w') = Js.or c (Js.Str "No classification")
  /\ errors (trace w') = errors (trace w).
Proof.
  unfold image_upload, uploadImage. intros Hr Hv Hc.
  go_all; split; [ reflexivity | trace_done ].
Qed.

Lemma uploadAudio_parsed uri (w : World State) r v c :
  o (audio_upload rt uri) = Resolved r ->
  o response_json = Resolved v ->
  Js.get v "emotion" = inr c ->
  let w' := exec o (uploadAudio rt uri) w in
  audioClassification (app w') = Js.or c (Js.Str "No classification")
  /\ errors (trace w') = errors (trace w).
Proof.
  unfold audio_upload, uploadAudio. intros Hr Hv Hc.
  go_all; split; [ reflexivity | trace_done ].
Qed.

End MediaAnalyzerFacts.

(** ** Helper lemmas on the live camera *)

Section LiveCameraFacts.

Import LiveCamera.

Variable o : Oracle.

Lemma live_processAudioChunk_failure uri (w : World State) :
  upload_fails o (live_chunk_upload uri) ->
  let w' := exec o (processAudioChunk uri) w in
  app w' = app w
  /\ (exists e, errors (trace w') =
        (errors (trace w) ++ [console_error "Error processing audio:" [LErr e]])%list)
  /\ uploads (trace w') = (uploads (trace w) ++ [live_chunk_upload uri])%list.
Proof.
  unfold upload_fails, live_chunk_upload, processAudioChunk.
  intros [[e He] | [e He]]; go_all;
    (repeat split; try reflexivity; [ eexists; trace_done | trace_done ]).
Qed.

Lemma live_processVideoFrame_failure photo (w : World State) :
  cameraRef (app w) = true ->
  o camera_takePhoto = Resolved photo ->
  upload_fails o (live_frame_upload photo) ->
  let w' := exec o processVideoFrame w in
  app w' = app w
  /\ (exists e, errors (trace w') =
        (errors (trace w) ++ [console_error "Error processing video frame:" [LErr e]])%list)
  /\ uploads (trace w') = (uploads (trace w) ++ [live_frame_upload photo])%list.
Proof.
  unfold upload_fails, live_frame_upload, processVideoFrame.
  intros Hcam Hphoto [[e He] | [e He]]; go_simpl; rewrite Hcam; go_all;
    (repeat split; try reflexivity; [ eexists; trace_done | trace_done ]).
Qed.

End LiveCameraFacts.

(** ** Strings *)

Lemma append_assoc (a b c : string) : ((a ++ b) ++ c = a ++ (b ++ c))%string.
Proof. induction a as [| x a IH]; simpl; [ reflexivity | now rewrite IH ]. Qed.

Section CommandFacts.

Import VideoAnalyzer.

Variable rt : Runtime.

(** The command each extractor builds is the contract's. *)
Lemma frame_command_contract uri t :
  frame_command rt uri t (framePath_at rt t) = frame_contract rt uri t.
Proof.
  unfold frame_command, frame_contract, engine_command, framePath_at,
    framesDir, videoProcessingDir.
  cbn [String.concat]. rewrite !append_assoc. reflexivity.
Qed.

Lemma audio_command_contract uri t :
  audio_command rt uri t (audioChunkPath_at rt t) = audio_contract rt uri t.
Proof.
  unfold audio_command, audio_contract, engine_command, audioChunkPath_at,
    audioDir, videoProcessingDir.
  cbn [String.concat]. rewrite !append_assoc. reflexivity.
Qed.

End CommandFacts.

(** ** The model on concrete inputs *)

(** A frame answered with [{"classification": "cat"}]: the label is "cat"
    and the file is gone. *)
Example upload_cat :
  let framePath := "/data/cache/video_processing/frames/frame_1.jpg" in
  let w' := exec all_ok (VideoAnalyzer.processVideoFrame demo_runtime framePath)
              (world_of playing [framePath]) in
  VideoAnalyzer.imageClassification (app w') = Js.Str "cat"
  /\ files w' = [] /\ errors (trace w') = [].
Proof. repeat split. Qed.

(** A 500 whose body is an HTML page: [response.json()] rejects, the
    label stays and the error is logged. *)
Example upload_500_html :
  let framePath := "/data/cache/video_processing/frames/frame_1.jpg" in
  let w' := exec http_500_html (VideoAnalyzer.processVideoFrame demo_runtime framePath)
              (world_of playing [framePath]) in
  VideoAnalyzer.imageClassification (app w') = Js.Str "dog"
  /\ errors (trace w') = [console_error "Error processing video frame:" [LErr SyntaxError]]
  /\ files w' = [framePath].
Proof. repeat split. Qed.

(** Progress events at 0, 1, 1.9 and 2 seconds start frames at 1 and 2. *)
Example progress_0_1_19_2 :
  let s := VideoAnalyzer.onVideoProgress demo_runtime 2
             (VideoAnalyzer.onVideoProgress demo_runtime (19 # 10)
                (VideoAnalyzer.onVideoProgress demo_runtime 1
                   (VideoAnalyzer.onVideoProgress demo_runtime 0 (system_of playing)))) in
  in_flight s = [VideoAnalyzer.FrameAt 1; VideoAnalyzer.FrameAt 2]
  /\ VideoAnalyzer.lastFrameTime (app (world s)) = 2
  /\ VideoAnalyzer.lastAudioTime (app (world s)) = 0.
Proof. repeat split. Qed.

(** Storage permissions before Android 13: one of the two is denied. *)
Example legacy_denied :
  eval permission_denied (VideoAnalyzer.requestPermissions legacy_runtime)
    (world_of VideoAnalyzer.initial [])
  = inr false.
Proof. reflexivity. Qed.

(** The permission API rejects: logged, and the answer is false. *)
Example permission_rejected :
  let w := world_of MediaAnalyzer.initial [] in
  eval permission_throws (MediaAnalyzer.requestPermissions demo_runtime MediaAnalyzer.image) w
  = inr false
  /\ trace (exec permission_throws
              (MediaAnalyzer.requestPermissions demo_runtime MediaAnalyzer.image) w)
     = [Called (PermissionsAndroid_request READ_MEDIA_IMAGES);
        console_error "Permission error:" [LErr (NativeError "no activity")]].
Proof. repeat split. Qed.

(** One audio cycle of the live camera: the tick starts the recorder and
    arms the stop; the stop uploads the chunk and sets the label. *)
Example live_audio_cycle :
  let armed := LiveCamera.timersEffect (system_of filming : LiveCamera.System) in
  let s1 := turns all_ok 1 (LiveCamera.interval_fires 1 armed) in
  let s2 := turns all_ok 3 (LiveCamera.timeout_fires 3 s1) in
  LiveCamera.isRecording (app (world s1)) = true
  /\ LiveCamera.timeouts (app (world s1))
     = [{| LiveCamera.timer_id := 3%positive;
           LiveCamera.callback := LiveCamera.stopAndUpload;
           LiveCamera.delay_ms := 2000 |}]
  /\ in_flight s2 = []
  /\ LiveCamera.isRecording (app (world s2)) = false
  /\ LiveCamera.audioClassification (app (world s2)) = Js.Str "cat"
  /\ calls (trace (world s2))
     = [AudioRecord_init 16000 1 16 "audio_chunk.wav"; AudioRecord_start;
        AudioRecord_stop;
        live_chunk_upload "/data/files/audio_chunk.wav"; response_json].
Proof. repeat split. Qed.

(* ================================================================== *)
(** * The claims                                                       *)

(** ** Uploads *)

(** C1, as amended.  An upload that fails by a network error or a parse
    error ([fetch] rejects, or [response.json()] rejects) leaves both
    classification labels as they were, logs exactly one error and sends
    exactly one request: there is no retry.  This holds for the frame and
    chunk uploaders of the video analyzer, for the two manual uploaders and
    for the two uploaders of the live camera.  The HTTP status is never
    looked at: in the video analyzer and in the manual uploaders a
    response of any status whose body parses to a value other than [null]
    overwrites the label with the value under the response key, or with
    "No classification" when that value is missing or falsy. *)
Theorem C1_failed_upload_keeps_label (rt : Runtime) (o : Oracle) :
  (forall framePath w,
      upload_fails o (frame_upload rt framePath) ->
      let w' := exec o (VideoAnalyzer.processVideoFrame rt framePath) w in
      app w' = app w
      /\ (exists e, errors (trace w') =
            (errors (trace w)
             ++ [console_error "Error processing video frame:" [LErr e]])%list)
      /\ uploads (trace w') = (uploads (trace w) ++ [frame_upload rt framePath])%list)
  /\ (forall audioPath w,
      upload_fails o (chunk_upload rt audioPath) ->
      let w' := exec o (VideoAnalyzer.processAudioChunk rt audioPath) w in
      app w' = app w
      /\ (exists e, errors (trace w') =
            (errors (trace w)
             ++ [console_error "Error processing audio:" [LErr e]])%list)
      /\ uploads (trace w') = (uploads (trace w) ++ [chunk_upload rt audioPath])%list)
  /\ (forall uri w,
      upload_fails o (image_upload rt uri) ->
      let w' := exec o (MediaAnalyzer.uploadImage rt uri) w in
      MediaAnalyzer.imageClassification (app w') = MediaAnalyzer.imageClassification (app w)
      /\ MediaAnalyzer.audioClassification (app w') = MediaAnalyzer.audioClassification (app w)
      /\ (exists e, errors (trace w') =
            (errors (trace w)
             ++ [console_error "Error uploading image:" [LErr e]])%list)
      /\ uploads (trace w') = (uploads (trace w) ++ [image_upload rt uri])%list)
  /\ (forall uri w,
      upload_fails o (audio_upload rt uri) ->
      let w' := exec o (MediaAnalyzer.uploadAudio rt uri) w in
      MediaAnalyzer.imageClassification (app w') = MediaAnalyzer.imageClassification (app w)
      /\ MediaAnalyzer.audioClassification (app w') = MediaAnalyzer.audioClassification (app w)
      /\ (exists e, errors (trace w') =
            (errors (trace w)
             ++ [console_error "Error uploading audio:" [LErr e]])%list)
      /\ uploads (trace w') = (uploads (trace w) ++ [audio_upload rt uri])%list)
  /\ (forall photo w,
      LiveCamera.cameraRef (app w) = true ->
      o camera_takePhoto = Resolved photo ->
      upload_fails o (live_frame_upload photo) ->
      let w' := exec o LiveCamera.processVideoFrame w in
      app w' = app w
      /\ (exists e, errors (trace w') =
            (errors (trace w)
             ++ [console_error "Error processing video frame:" [LErr e]])%list)
      /\ uploads (trace w') = (uploads (trace w) ++ [live_frame_upload photo])%list)
  /\ (forall uri w,
      upload_fails o (live_chunk_upload uri) ->
      let w' := exec o (LiveCamera.processAudioChunk uri) w in
      app w' = app w
      /\ (exists e, errors (trace w') =
            (errors (trace w)
             ++ [console_error "Error processing audio:" [LErr e]])%list)
      /\ uploads (trace w') = (uploads (trace w) ++ [live_chunk_upload uri])%list)
  /\ (forall framePath w r v c,
      o (frame_upload rt framePath) = Resolved r ->
      o response_json = Resolved v ->
      Js.get v "classification" = inr c ->
      VideoAnalyzer.imageClassification
        (app (exec o (VideoAnalyzer.processVideoFrame rt framePath) w))
      = Js.or c (Js.Str "No classification"))
  /\ (forall audioPath w r v c,
      o (chunk_upload rt audioPath) = Resolved r ->
      o response_json = Resolved v ->
      Js.get v "classification" = inr c ->
      VideoAnalyzer.audioClassification
        (app (exec o (VideoAnalyzer.processAudioChunk rt audioPath) w))
      = Js.or c (Js.Str "No classification"))
  /\ (forall uri w r v c,
      o (image_upload rt uri) = Resolved r ->
      o response_json = Resolved v ->
      Js.get v "predicted_class" = inr c ->
      MediaAnalyzer.imageClassification
        (app (exec o (MediaAnalyzer.uploadImage rt uri) w))
      = Js.or c (Js.Str "No classification"))
  /\ (forall uri w r v c,
      o (audio_upload rt uri) = Resolved r ->
      o response_json = Resolved v ->
      Js.get v "emotion" = inr c ->
      MediaAnalyzer.audioClassification
        (app (exec o (MediaAnalyzer.uploadAudio rt uri) w))
      = Js.or c (Js.Str "No classification")).
Proof.
  repeat apply conj.
  - intros framePath w Hf.
    destruct (processVideoFrame_failure rt o framePath w Hf) as (Ha & He & _ & _).
    destruct (processVideoFrame_once rt o framePath w) as (_ & Hu & _).
    auto.
  - intros audioPath w Hf.
    destruct (processAudioChunk_failure rt o audioPath w Hf) as (Ha & He & _ & _).
    destruct (processAudioChunk_once rt o audioPath w) as (_ & Hu & _).
    auto.
  - intros uri w Hf. exact (uploadImage_failure rt o uri w Hf).
  - intros uri w Hf. exact (uploadAudio_failure rt o uri w Hf).
  - intros photo w Hcam Hphoto Hf.
    exact (live_processVideoFrame_failure o photo w Hcam Hphoto Hf).
  - intros uri w Hf. exact (live_processAudioChunk_failure o uri w Hf).
  - intros framePath w r v c Hr Hv Hc.
    exact (proj1 (processVideoFrame_parsed rt o framePath w r v c Hr Hv Hc)).
  - intros audioPath w r v c Hr Hv Hc.
    exact (proj1 (processAudioChunk_parsed rt o audioPath w r v c Hr Hv Hc)).
  - intros uri w r v c Hr Hv Hc.
    exact (proj1 (uploadImage_parsed rt o uri w r v c Hr Hv Hc)).
  - intros uri w r v c Hr Hv Hc.
    exact (proj1 (uploadAudio_parsed rt o uri w r v c Hr Hv Hc)).
Qed.

(** With the network down, the frame uploader keeps the label "dog". *)
Lemma C1_witness :
  let framePath := "/data/cache/video_processing/frames/frame_1.jpg" in
  let w := world_of playing [framePath] in
  let w' := exec network_down (VideoAnalyzer.processVideoFrame demo_runtime framePath) w in
  upload_fails network_down (frame_upload demo_runtime framePath)
  /\ VideoAnalyzer.imageClassification (app w') = Js.Str "dog"
  /\ (exists e, errors (trace w') =
        [console_error "Error processing video frame:" [LErr e]])
  /\ uploads (trace w') = [frame_upload demo_runtime framePath].
Proof.
  intros framePath w w'.
  assert (Hf : upload_fails network_down (frame_upload demo_runtime framePath))
    by (left; exists NetworkError; reflexivity).
  split; [ exact Hf | ].
  destruct (C1_failed_upload_keeps_label demo_runtime network_down) as (H & _).
  destruct (H framePath w Hf) as (Ha & He & Hu).
  split; [ | split ].
  - change (VideoAnalyzer.imageClassification (app w') =
            VideoAnalyzer.imageClassification (app w)).
    unfold w'. rewrite Ha. reflexivity.
  - exact He.
  - exact Hu.
Defined.

(** C1 as stated fails: the backend answers HTTP 500 with a JSON error
    body; the label "dog" is overwritten and no error is logged. *)
Lemma C1_http_500_overwrites_label :
  let framePath := "/data/cache/video_processing/frames/frame_1.jpg" in
  let w := world_of playing [framePath] in
  let w' := exec http_500_json (VideoAnalyzer.processVideoFrame demo_runtime framePath) w in
  http_500_json (frame_upload demo_runtime framePath) = Resolved {| http_status := 500 |}
  /\ VideoAnalyzer.imageClassification (app w) = Js.Str "dog"
  /\ VideoAnalyzer.imageClassification (app w') = Js.Str "No classification"
  /\ errors (trace w') = [].
Proof. repeat split. Qed.

(** C5, as amended.  The uploader of the video analyzer unlinks the
    sample's file once the upload came back with a body that parses to a
    value other than [null] (then the file is gone as soon as the unlink
    succeeds); when the upload fails by a network or parse error it
    issues no unlink and the file stays where it was. *)
Theorem C5_sample_deleted_after_parsed_upload (rt : Runtime) (o : Oracle) :
  (forall framePath w r v c,
      o (frame_upload rt framePath) = Resolved r ->
      o response_json = Resolved v ->
      Js.get v "classification" = inr c ->
      let w' := exec o (VideoAnalyzer.processVideoFrame rt framePath) w in
      unlinks (trace w') = (unlinks (trace w) ++ [FileSystem_unlink framePath])%list
      /\ (o (FileSystem_unlink framePath) = Resolved tt -> ~ In framePath (files w')))
  /\ (forall audioPath w r v c,
      o (chunk_upload rt audioPath) = Resolved r ->
      o response_json = Resolved v ->
      Js.get v "classification" = inr c ->
      let w' := exec o (VideoAnalyzer.processAudioChunk rt audioPath) w in
      unlinks (trace w') = (unlinks (trace w) ++ [FileSystem_unlink audioPath])%list
      /\ (o (FileSystem_unlink audioPath) = Resolved tt -> ~ In audioPath (files w')))
  /\ (forall framePath w,
      upload_fails o (frame_upload rt framePath) ->
      let w' := exec o (VideoAnalyzer.processVideoFrame rt framePath) w in
      unlinks (trace w') = unlinks (trace w) /\ files w' = files w)
  /\ (forall audioPath w,
      upload_fails o (chunk_upload rt audioPath) ->
      let w' := exec o (VideoAnalyzer.processAudioChunk rt audioPath) w in
      unlinks (trace w') = unlinks (trace w) /\ files w' = files w).
Proof.
  repeat apply conj.
  - intros framePath w r v c Hr Hv Hc.
    destruct (processVideoFrame_parsed rt o framePath w r v c Hr Hv Hc) as (_ & _ & Hu & Hfs).
    split; [ exact Hu | ].
    intros Hok. cbn zeta in Hfs. rewrite Hfs, Hok. apply remove_file_gone.
  - intros audioPath w r v c Hr Hv Hc.
    destruct (processAudioChunk_parsed rt o audioPath w r v c Hr Hv Hc) as (_ & _ & Hu & Hfs).
    split; [ exact Hu | ].
    intros Hok. cbn zeta in Hfs. rewrite Hfs, Hok. apply remove_file_gone.
  - intros framePath w Hf.
    destruct (processVideoFrame_failure rt o framePath w Hf) as (_ & _ & Hu & Hfs). auto.
  - intros audioPath w Hf.
    destruct (processAudioChunk_failure rt o audioPath w Hf) as (_ & _ & Hu & Hfs). auto.
Qed.

(** A frame uploaded and answered with a label is unlinked and gone. *)
Lemma C5_witness :
  let framePath := "/data/cache/video_processing/frames/frame_1.jpg" in
  let w := world_of playing [framePath] in
  let w' := exec all_ok (VideoAnalyzer.processVideoFrame demo_runtime framePath) w in
  all_ok (frame_upload demo_runtime framePath) = Resolved {| http_status := 200 |}
  /\ unlinks (trace w') = [FileSystem_unlink framePath]
  /\ ~ In framePath (files w').
Proof.
  intros framePath w w'. split; [ reflexivity | ].
  destruct (C5_sample_deleted_after_parsed_upload demo_runtime all_ok) as (H & _).
  destruct (H framePath w {| http_status := 200 |}
              (Js.Object [("classification", Js.Str "cat");
                          ("predicted_class", Js.Str "cat");
                          ("emotion", Js.Str "calm")])
              (Js.Str "cat") eq_refl eq_refl eq_refl) as (Hu & Hgone).
  split; [ exact Hu | exact (Hgone eq_refl) ].
Defined.

(** C5 as stated fails: with the network down the frame is handed to the
    uploader, the upload is attempted, and the file is still there
    afterwards; no unlink was issued. *)
Lemma C5_failed_upload_leaves_file :
  let framePath := "/data/cache/video_processing/frames/frame_1.jpg" in
  let w := world_of playing [framePath] in
  let w' := exec network_down (VideoAnalyzer.processVideoFrame demo_runtime framePath) w in
  uploads (trace w') = [frame_upload demo_runtime framePath]
  /\ unlinks (trace w') = []
  /\ In framePath (files w').
Proof. repeat split. left. reflexivity. Qed.

(** ** Extraction in the progress-driven variant *)

(** C7.  With a video selected, every frame extraction at time [t] hands
    the engine exactly one command, and it is the contract's: seek to [t],
    read the video, one frame ([-vframes 1]) at JPEG quality 2
    ([-q:v 2]), written to [frame_<floor t>.jpg] under
    [<cache>/video_processing/frames/]; every audio extraction hands it
    exactly one command too: seek to [t], a window of 2.5 seconds
    ([-t 2.5]) re-encoded as 16-bit PCM ([pcm_s16le]) at 16 kHz, mono,
    written to [chunk_<floor t>.wav] under [<cache>/video_processing/audio/].
    The number in the file name is the floor of [t]. *)
Theorem C7_engine_command_contract (rt : Runtime) (o : Oracle) (t : Q)
    (uri : string) (w : World VideoAnalyzer.State) :
  VideoAnalyzer.videoUri (app w) = Some uri ->
  uri <> "" ->
  ffmpeg_commands (trace (exec o (VideoAnalyzer.captureFrame rt t) w))
  = (ffmpeg_commands (trace w) ++ [frame_contract rt uri t])%list
  /\ ffmpeg_commands (trace (exec o (VideoAnalyzer.processAudioAtTime rt t) w))
     = (ffmpeg_commands (trace w) ++ [audio_contract rt uri t])%list
  /\ (Math_floor t <= t)%Q
  /\ (t < Math_floor t + 1)%Q.
Proof.
  intros H Hne. repeat apply conj.
  - rewrite <- frame_command_contract. apply captureFrame_commands; assumption.
  - rewrite <- audio_command_contract. apply processAudioAtTime_commands; assumption.
  - apply Qfloor_le.
  - unfold Math_floor. eapply Qlt_le_trans; [ apply Qlt_floor | ].
    rewrite inject_Z_plus. apply Qle_refl.
Qed.

(** The frame and the chunk cut at 2.5 s of the clip. *)
Lemma C7_witness :
  VideoAnalyzer.videoUri playing = Some "file:///sdcard/clip.mp4"
  /\ ffmpeg_commands
       (trace (exec all_ok (VideoAnalyzer.captureFrame demo_runtime (5 # 2))
                 (world_of playing [])))
     = [("-ss 2.5 -i " ++ dquote ++ "file:///sdcard/clip.mp4" ++ dquote
         ++ " -vframes 1 -q:v 2 "
         ++ dquote ++ "/data/cache/video_processing/frames/frame_2.jpg" ++ dquote)%string]
  /\ ffmpeg_commands
       (trace (exec all_ok (VideoAnalyzer.processAudioAtTime demo_runtime (5 # 2))
                 (world_of playing [])))
     = [("-ss 2.5 -i " ++ dquote ++ "file:///sdcard/clip.mp4" ++ dquote
         ++ " -t 2.5 -acodec pcm_s16le -ar 16000 -ac 1 "
         ++ dquote ++ "/data/cache/video_processing/audio/chunk_2.wav" ++ dquote)%string].
Proof.
  split; [ reflexivity | ].
  destruct (C7_engine_command_contract demo_runtime all_ok (5 # 2)
              "file:///sdcard/clip.mp4" (world_of playing []) eq_refl)
    as (Hf & Ha & _).
  - discriminate.
  - split; [ exact Hf | exact Ha ].
Defined.

(** C8.  With a video selected, both extractors clear [isProcessing] on
    every exit path: whatever the environment answers, the flag is false
    when the extraction has ended.  When the engine's return code is not a
    success, exactly one error is logged, no upload is sent, the engine was
    run exactly once (no retry) and the labels are untouched; when the
    engine calls themselves resolved, the error logged is the extractor's
    "Failed to extract ..." message.  The cleanup is the last step also
    when other handlers change the world between the awaits, and on the
    event loop the extraction has ended after finitely many turns. *)
Theorem C8_engine_failure_aborts_sample (rt : Runtime) (o : Oracle) (t : Q)
    (uri : string) (w : World VideoAnalyzer.State) :
  VideoAnalyzer.videoUri (app w) = Some uri ->
  uri <> "" ->
  let wf := exec o (VideoAnalyzer.captureFrame rt t) w in
  let wa := exec o (VideoAnalyzer.processAudioAtTime rt t) w in
  VideoAnalyzer.isProcessing (app wf) = false
  /\ VideoAnalyzer.isProcessing (app wa) = false
  /\ (forall rc,
        o session_getReturnCode = Resolved rc ->
        ReturnCode_isSuccess rc = false ->
        ((exists e, errors (trace wf) = (errors (trace w) ++ [e])%list)
         /\ uploads (trace wf) = uploads (trace w)
         /\ ffmpeg_commands (trace wf)
            = (ffmpeg_commands (trace w) ++ [frame_contract rt uri t])%list
         /\ VideoAnalyzer.imageClassification (app wf)
            = VideoAnalyzer.imageClassification (app w))
        /\ ((exists e, errors (trace wa) = (errors (trace w) ++ [e])%list)
            /\ uploads (trace wa) = uploads (trace w)
            /\ ffmpeg_commands (trace wa)
               = (ffmpeg_commands (trace w) ++ [audio_contract rt uri t])%list
            /\ VideoAnalyzer.audioClassification (app wa)
               = VideoAnalyzer.audioClassification (app w)))
  /\ (forall r rc logs,
        o (FFmpegKit_execute (frame_contract rt uri t)) = Resolved r ->
        o session_getReturnCode = Resolved rc ->
        ReturnCode_isSuccess rc = false ->
        o session_getLogsAsString = Resolved logs ->
        errors (trace wf)
        = (errors (trace w)
           ++ [console_error "Failed to extract frame at time" [LNum t]])%list)
  /\ (forall r rc logs,
        o (FFmpegKit_execute (audio_contract rt uri t)) = Resolved r ->
        o session_getReturnCode = Resolved rc ->
        ReturnCode_isSuccess rc = false ->
        o session_getLogsAsString = Resolved logs ->
        errors (trace wa)
        = (errors (trace w)
           ++ [console_error "Failed to extract audio chunk at time" [LNum t]])%list)
  /\ (forall others,
        VideoAnalyzer.isProcessing
          (app (fst (run_among o others (VideoAnalyzer.captureFrame rt t w)))) = false
        /\ VideoAnalyzer.isProcessing
             (app (fst (run_among o others (VideoAnalyzer.processAudioAtTime rt t w))))
           = false)
  /\ (exists n,
        turns o n (spawn (VideoAnalyzer.FrameAt t) (VideoAnalyzer.captureFrame rt t)
                     {| world := w; tasks := [] |})
        = {| world := wf; tasks := [] |})
  /\ (exists n,
        turns o n (spawn (VideoAnalyzer.AudioAt t) (VideoAnalyzer.processAudioAtTime rt t)
                     {| world := w; tasks := [] |})
        = {| world := wa; tasks := [] |}).
Proof.
  intros H Hne wf wa. repeat apply conj;
    [ | | | | | | exact (turns_run _ o _ (VideoAnalyzer.FrameAt t) _)
              | exact (turns_run _ o _ (VideoAnalyzer.AudioAt t) _) ].
  - exact (captureFrame_clears rt o uri t w H Hne).
  - exact (processAudioAtTime_clears rt o uri t w H Hne).
  - intros rc Hrc Hfail. split.
    + destruct (captureFrame_engine_failure rt o uri t w rc H Hne Hrc Hfail)
        as (He & Hu & Hi & _).
      repeat split; try assumption.
      rewrite <- frame_command_contract.
      exact (captureFrame_commands rt o uri t w H Hne).
    + destruct (processAudioAtTime_engine_failure rt o uri t w rc H Hne Hrc Hfail)
        as (He & Hu & _ & Ha).
      repeat split; try assumption.
      rewrite <- audio_command_contract.
      exact (processAudioAtTime_commands rt o uri t w H Hne).
  - intros r rc logs Hx Hrc Hfail Hlogs.
    rewrite <- frame_command_contract in Hx.
    exact (captureFrame_engine_failure_logged rt o uri t w r rc logs
             H Hne Hx Hrc Hfail Hlogs).
  - intros r rc logs Hx Hrc Hfail Hlogs.
    rewrite <- audio_command_contract in Hx.
    exact (processAudioAtTime_engine_failure_logged rt o uri t w r rc logs
             H Hne Hx Hrc Hfail Hlogs).
  - intros others. split.
    + exact (captureFrame_clears_among rt o others uri t w H Hne).
    + exact (processAudioAtTime_clears_among rt o others uri t w H Hne).
Qed.

(** The engine exits with 1 on the frame at 1 s: the failure is logged,
    nothing is uploaded, the flag is clear again. *)
Lemma C8_witness :
  let w := world_of (VideoAnalyzer.setIsProcessing true playing) [] in
  let wf := exec engine_fails (VideoAnalyzer.captureFrame demo_runtime 1) w in
  VideoAnalyzer.videoUri (app w) = Some "file:///sdcard/clip.mp4"
  /\ engine_fails session_getReturnCode = Resolved (Some 1%Z)
  /\ ReturnCode_isSuccess (Some 1%Z) = false
  /\ VideoAnalyzer.isProcessing (app wf) = false
  /\ errors (trace wf) = [console_error "Failed to extract frame at time" [LNum 1]]
  /\ uploads (trace wf) = [].
Proof.
  intros w wf.
  assert (Hne : "file:///sdcard/clip.mp4" <> "") by discriminate.
  destruct (C8_engine_failure_aborts_sample demo_runtime engine_fails 1
              "file:///sdcard/clip.mp4" w eq_refl Hne)
    as (Hclear & _ & Hfail & Hlogged & _).
  destruct (Hfail (Some 1%Z) eq_refl eq_refl) as ((_ & Hup & _) & _).
  split; [ reflexivity | ].
  split; [ reflexivity | ].
  split; [ reflexivity | ].
  split; [ exact Hclear | ].
  split; [ | exact Hup ].
  exact (Hlogged tt (Some 1%Z) "frame=1" eq_refl eq_refl eq_refl eq_refl).
Defined.

(** C10.  With no video selected, [captureFrame] and [processAudioAtTime]
    return at once for every time: they are done without awaiting
    anything, on the very world they were called on, so nothing was sent
    to the engine or to the backend and no state, log or scratch file
    changed. *)
Theorem C10_no_source_no_work (rt : Runtime) (t : Q)
    (w : World VideoAnalyzer.State) :
  VideoAnalyzer.videoUri (app w) = None ->
  VideoAnalyzer.captureFrame rt t w = Done w tt
  /\ VideoAnalyzer.processAudioAtTime rt t w = Done w tt
  /\ (forall s : VideoAnalyzer.System,
        world s = w ->
        spawn (VideoAnalyzer.FrameAt t) (VideoAnalyzer.captureFrame rt t) s = s
        /\ spawn (VideoAnalyzer.AudioAt t) (VideoAnalyzer.processAudioAtTime rt t) s = s).
Proof.
  intros H.
  assert (Hf : VideoAnalyzer.captureFrame rt t w = Done w tt).
  { unfold VideoAnalyzer.captureFrame, bind, get_app. cbn [bindR].
    rewrite H. reflexivity. }
  assert (Ha : VideoAnalyzer.processAudioAtTime rt t w = Done w tt).
  { unfold VideoAnalyzer.processAudioAtTime, bind, get_app. cbn [bindR].
    rewrite H. reflexivity. }
  repeat apply conj; try assumption.
  intros s <-. unfold spawn. rewrite Hf, Ha. destruct s; split; reflexivity.
Qed.

(** Before any video is picked. *)
Lemma C10_witness :
  VideoAnalyzer.videoUri (app (world_of VideoAnalyzer.initial [])) = None
  /\ VideoAnalyzer.captureFrame demo_runtime (5 # 2) (world_of VideoAnalyzer.initial [])
     = Done (world_of VideoAnalyzer.initial []) tt
  /\ VideoAnalyzer.processAudioAtTime demo_runtime (5 # 2) (world_of VideoAnalyzer.initial [])
     = Done (world_of VideoAnalyzer.initial []) tt.
Proof.
  split; [ reflexivity | ].
  destruct (C10_no_source_no_work demo_runtime (5 # 2)
              (world_of VideoAnalyzer.initial []) eq_refl) as (Hf & Ha & _).
  split; [ exact Hf | exact Ha ].
Defined.

(** ** The progress handler *)

Section ProgressFacts.

Import VideoAnalyzer.

Variable rt : Runtime.

(** With a video selected, an extractor sets the flag, asks for the first
    scratch directory and is suspended there. *)
Lemma captureFrame_suspends uri t (w : World State) :
  videoUri (app w) = Some uri -> uri <> "" ->
  exists k,
    captureFrame rt t w =
    Wait {| app := setIsProcessing true (app w);
            trace := trace w ++ [Called (FileSystem_mkdir (videoProcessingDir rt))];
            files := files w |}
         (FileSystem_mkdir (videoProcessingDir rt)) k.
Proof.
  intros H Hne. unfold captureFrame, bind, get_app. cbn [bindR]. rewrite H.
  destruct (String.eqb_spec uri "") as [E | _]; [ contradiction | ].
  eexists. reflexivity.
Qed.

Lemma processAudioAtTime_suspends uri t (w : World State) :
  videoUri (app w) = Some uri -> uri <> "" ->
  exists k,
    processAudioAtTime rt t w =
    Wait {| app := setIsProcessing true (app w);
            trace := trace w ++ [Called (FileSystem_mkdir (videoProcessingDir rt))];
            files := files w |}
         (FileSystem_mkdir (videoProcessingDir rt)) k.
Proof.
  intros H Hne. unfold processAudioAtTime, bind, get_app. cbn [bindR]. rewrite H.
  destruct (String.eqb_spec uri "") as [E | _]; [ contradiction | ].
  eexists. reflexivity.
Qed.

Lemma spawn_captureFrame uri t (s : System) :
  videoUri (app (world s)) = Some uri -> uri <> "" ->
  let s' := spawn (FrameAt t) (captureFrame rt t) s in
  in_flight s' = (in_flight s ++ [FrameAt t])%list
  /\ app (world s') = setIsProcessing true (app (world s)).
Proof.
  intros H Hne. destruct (captureFrame_suspends uri t (world s) H Hne) as [k Hk].
  unfold spawn. rewrite Hk. unfold park, in_flight. cbn [tasks world app].
  rewrite map_app. split; reflexivity.
Qed.

Lemma spawn_processAudioAtTime uri t (s : System) :
  videoUri (app (world s)) = Some uri -> uri <> "" ->
  let s' := spawn (AudioAt t) (processAudioAtTime rt t) s in
  in_flight s' = (in_flight s ++ [AudioAt t])%list
  /\ app (world s') = setIsProcessing true (app (world s)).
Proof.
  intros H Hne. destruct (processAudioAtTime_suspends uri t (world s) H Hne) as [k Hk].
  unfold spawn. rewrite Hk. unfold park, in_flight. cbn [tasks world app].
  rewrite map_app. split; reflexivity.
Qed.

(** What one progress event starts and writes. *)
Lemma onVideoProgress_effect uri t (s : System) :
  videoUri (app (world s)) = Some uri -> uri <> "" ->
  let st := app (world s) in
  let s' := onVideoProgress rt t s in
  let frame := due t (lastFrameTime st) 1 in
  let audio := due t (lastAudioTime st) (5 # 2) in
  in_flight s' =
    (in_flight s ++ (if frame then [FrameAt t] else [])
                 ++ (if audio then [AudioAt t] else []))%list
  /\ lastFrameTime (app (world s')) = (if frame then t else lastFrameTime st)
  /\ lastAudioTime (app (world s')) = (if audio then t else lastAudioTime st)
  /\ isProcessing (app (world s')) = (if frame || audio then true else isProcessing st)
  /\ videoUri (app (world s')) = videoUri st.
Proof.
  intros H Hne st s' frame audio. subst s'. unfold onVideoProgress.
  fold st. fold frame. fold audio.
  set (s0 := log _ s).
  assert (H0 : videoUri (app (world s0)) = Some uri) by exact H.
  assert (F0 : in_flight s0 = in_flight s) by reflexivity.
  assert (A0 : app (world s0) = st) by reflexivity.
  destruct frame, audio.
  - destruct (spawn_captureFrame uri t s0 H0 Hne) as (F1 & A1).
    set (s1 := update (setLastFrameTime t) (spawn (FrameAt t) (captureFrame rt t) s0)).
    assert (H1 : videoUri (app (world s1)) = Some uri).
    { unfold s1, update. cbn [world app]. rewrite A1. exact H. }
    destruct (spawn_processAudioAtTime uri t s1 H1 Hne) as (F2 & A2).
    unfold in_flight, update in *. cbn [tasks world app] in *.
    rewrite F2. unfold s1 at 1. cbn [tasks]. rewrite F1, F0, A2.
    unfold s1. cbn [world app]. rewrite A1, A0, <- app_assoc.
    repeat split.
  - destruct (spawn_captureFrame uri t s0 H0 Hne) as (F1 & A1).
    unfold in_flight, update in *. cbn [tasks world app] in *.
    rewrite F1, F0, A1, A0, app_nil_r. repeat split.
  - destruct (spawn_processAudioAtTime uri t s0 H0 Hne) as (F2 & A2).
    unfold in_flight, update in *. cbn [tasks world app] in *.
    rewrite F2, F0, A2, A0. repeat split.
  - rewrite F0, A0, !app_nil_r. repeat split.
Qed.

End ProgressFacts.

Lemma due_iff (t last threshold : Q) :
  VideoAnalyzer.due t last threshold = true <-> (threshold <= t - last)%Q.
Proof. unfold VideoAnalyzer.due. apply Qle_bool_iff. Qed.

Lemma due_false_iff (t last threshold : Q) :
  VideoAnalyzer.due t last threshold = false <-> ~ (threshold <= t - last)%Q.
Proof.
  rewrite <- due_iff. destruct (VideoAnalyzer.due t last threshold); split;
    congruence.
Qed.

(** ** Scheduling in the progress-driven variant *)

(** C3.  With a video playing, a progress event at time [t] starts a
    frame extraction if and only if [t - lastFrameTime >= 1] and an audio
    extraction if and only if [t - lastAudioTime >= 2.5], and nothing else.
    When one starts, its last-sampled time is [t] as soon as the handler
    returns, while the extraction is still in flight.  From
    [lastFrameTime = 0] an event at 0 starts no frame and an event at 1
    starts one.  If the last frame was started at or after [t1], with
    [t1 < t] and [t - t1 < 1], no frame starts at [t]; in particular no
    frame starts at [t2] right after one started at [t] when
    [t < t2 < t + 1]. *)
Theorem C3_threshold_schedule (rt : Runtime) (t : Q) (s : VideoAnalyzer.System)
    (uri : string) :
  VideoAnalyzer.videoUri (app (world s)) = Some uri ->
  uri <> "" ->
  let st := app (world s) in
  let s' := VideoAnalyzer.onVideoProgress rt t s in
  exists started,
    in_flight s' = (in_flight s ++ started)%list
    /\ (In (VideoAnalyzer.FrameAt t) started
        <-> (1 <= t - VideoAnalyzer.lastFrameTime st)%Q)
    /\ (In (VideoAnalyzer.AudioAt t) started
        <-> (5 # 2 <= t - VideoAnalyzer.lastAudioTime st)%Q)
    /\ (forall x, In x started ->
          x = VideoAnalyzer.FrameAt t \/ x = VideoAnalyzer.AudioAt t)
    /\ ((1 <= t - VideoAnalyzer.lastFrameTime st)%Q ->
          VideoAnalyzer.lastFrameTime (app (world s')) = t
          /\ In (VideoAnalyzer.FrameAt t) (in_flight s'))
    /\ (~ (1 <= t - VideoAnalyzer.lastFrameTime st)%Q ->
          VideoAnalyzer.lastFrameTime (app (world s')) = VideoAnalyzer.lastFrameTime st)
    /\ ((5 # 2 <= t - VideoAnalyzer.lastAudioTime st)%Q ->
          VideoAnalyzer.lastAudioTime (app (world s')) = t
          /\ In (VideoAnalyzer.AudioAt t) (in_flight s'))
    /\ (~ (5 # 2 <= t - VideoAnalyzer.lastAudioTime st)%Q ->
          VideoAnalyzer.lastAudioTime (app (world s')) = VideoAnalyzer.lastAudioTime st)
    /\ (VideoAnalyzer.lastFrameTime st == 0 -> t == 0 ->
          ~ In (VideoAnalyzer.FrameAt t) started)%Q
    /\ (VideoAnalyzer.lastFrameTime st == 0 -> t == 1 ->
          In (VideoAnalyzer.FrameAt t) started)%Q
    /\ (forall t1, t1 < t -> t - t1 < 1 -> t1 <= VideoAnalyzer.lastFrameTime st ->
          ~ In (VideoAnalyzer.FrameAt t) started)%Q
    /\ (forall t2, (1 <= t - VideoAnalyzer.lastFrameTime st)%Q ->
          (t < t2)%Q -> (t2 - t < 1)%Q ->
          exists started2,
            in_flight (VideoAnalyzer.onVideoProgress rt t2 s')
            = (in_flight s' ++ started2)%list
            /\ ~ In (VideoAnalyzer.FrameAt t2) started2).
Proof.
  intros H Hne st s'.
  destruct (onVideoProgress_effect rt uri t s H Hne) as (Hin & Hlf & Hla & _ & Huri).
  fold st in Hin, Hlf, Hla, Huri. fold s' in Hin, Hlf, Hla, Huri.
  set (frame := VideoAnalyzer.due t (VideoAnalyzer.lastFrameTime st) 1) in *.
  set (audio := VideoAnalyzer.due t (VideoAnalyzer.lastAudioTime st) (5 # 2)) in *.
  pose proof (due_iff t (VideoAnalyzer.lastFrameTime st) 1) as Df. fold frame in Df.
  pose proof (due_iff t (VideoAnalyzer.lastAudioTime st) (5 # 2)) as Da. fold audio in Da.
  assert (Hframe : In (VideoAnalyzer.FrameAt t)
                     ((if frame then [VideoAnalyzer.FrameAt t] else [])
                      ++ (if audio then [VideoAnalyzer.AudioAt t] else []))%list
                   <-> (1 <= t - VideoAnalyzer.lastFrameTime st)%Q).
  { rewrite <- Df, in_app_iff. destruct frame, audio; simpl; split; intro X;
      try reflexivity; try tauto; try discriminate;
      destruct X as [X | X]; try destruct X as [X | X]; try tauto; discriminate. }
  exists ((if frame then [VideoAnalyzer.FrameAt t] else [])
          ++ (if audio then [VideoAnalyzer.AudioAt t] else []))%list.
  split; [ exact Hin | ].
  split; [ exact Hframe | ].
  split.
  { rewrite <- Da, in_app_iff. destruct frame, audio; simpl; split; intro X;
      try reflexivity; try tauto; try discriminate;
      destruct X as [X | X]; try destruct X as [X | X]; try tauto; discriminate. }
  split.
  { intros x Hx. apply in_app_iff in Hx.
    destruct frame, audio; simpl in Hx; intuition auto. }
  split.
  { intros Hd. apply Df in Hd. split.
    - rewrite Hlf, Hd. reflexivity.
    - rewrite Hin, Hd, in_app_iff. right. left. reflexivity. }
  split.
  { intros Hd. rewrite Hlf. destruct frame; [ | reflexivity ].
    exfalso. apply Hd, Df. reflexivity. }
  split.
  { intros Hd. apply Da in Hd. split.
    - rewrite Hla, Hd. reflexivity.
    - rewrite Hin, Hd, !in_app_iff. right. right. left. reflexivity. }
  split.
  { intros Hd. rewrite Hla. destruct audio; [ | reflexivity ].
    exfalso. apply Hd, Da. reflexivity. }
  split.
  { intros H0 Ht X. apply Hframe in X. rewrite H0, Ht in X. lra. }
  split.
  { intros H0 Ht. apply Hframe. rewrite H0, Ht. lra. }
  split.
  { intros t1 Hlt Hgap Hlast X. apply Hframe in X. lra. }
  intros t2 Hd Hlt Hgap.
  assert (H' : VideoAnalyzer.videoUri (app (world s')) = Some uri)
    by (rewrite Huri; exact H).
  destruct (onVideoProgress_effect rt uri t2 s' H' Hne) as (Hin2 & _).
  eexists. split; [ exact Hin2 | ].
  assert (Hf2 : VideoAnalyzer.due t2 (VideoAnalyzer.lastFrameTime (app (world s'))) 1
                = false).
  { apply due_false_iff. rewrite Hlf. apply Df in Hd. rewrite Hd. lra. }
  rewrite Hf2. cbn [List.app].
  destruct (VideoAnalyzer.due t2 _ (5 # 2)); simpl; intros X;
    [ destruct X as [X | []]; discriminate | exact X ].
Qed.

(** The clip starts: the event at 1 s starts a frame and stamps it. *)
Lemma C3_witness :
  let s := system_of playing : VideoAnalyzer.System in
  let s' := VideoAnalyzer.onVideoProgress demo_runtime 1 s in
  VideoAnalyzer.videoUri (app (world s)) = Some "file:///sdcard/clip.mp4"
  /\ (1 <= 1 - VideoAnalyzer.lastFrameTime (app (world s)))%Q
  /\ VideoAnalyzer.lastFrameTime (app (world s')) = 1
  /\ In (VideoAnalyzer.FrameAt 1) (in_flight s').
Proof.
  intros s s'.
  assert (Hne : "file:///sdcard/clip.mp4" <> "") by discriminate.
  assert (Hd : (1 <= 1 - VideoAnalyzer.lastFrameTime (app (world s)))%Q)
    by (vm_compute; discriminate).
  destruct (C3_threshold_schedule demo_runtime 1 s "file:///sdcard/clip.mp4"
              eq_refl Hne)
    as (started & _ & _ & _ & _ & Hfire & _).
  split; [ reflexivity | ].
  split; [ exact Hd | ].
  exact (Hfire Hd).
Defined.

(** C2, as amended.  No progress trigger consults [isProcessing]: with a
    video playing and the flag at any value [b], an event at [t] starts a
    frame extraction exactly when the frame threshold has passed and an
    audio extraction exactly when the audio threshold has passed.  When
    both have passed, both are started on that event, the frame
    extraction first and the audio extraction second; the audio
    extraction is not skipped.  Each extraction that starts sets the
    flag. *)
Theorem C2_progress_triggers_not_gated (rt : Runtime) (t : Q)
    (s : VideoAnalyzer.System) (uri : string) (b : bool) :
  VideoAnalyzer.videoUri (app (world s)) = Some uri ->
  uri <> "" ->
  let st := app (world s) in
  let frame := Qle_bool 1 (t - VideoAnalyzer.lastFrameTime st) in
  let audio := Qle_bool (5 # 2) (t - VideoAnalyzer.lastAudioTime st) in
  let s' := VideoAnalyzer.onVideoProgress rt t
              (update (VideoAnalyzer.setIsProcessing b) s) in
  in_flight s' =
    (in_flight s ++ (if frame then [VideoAnalyzer.FrameAt t] else [])
                 ++ (if audio then [VideoAnalyzer.AudioAt t] else []))%list
  /\ (frame = true -> audio = true ->
        in_flight s' =
          (in_flight s ++ [VideoAnalyzer.FrameAt t; VideoAnalyzer.AudioAt t])%list)
  /\ VideoAnalyzer.isProcessing (app (world s'))
     = (if frame || audio then true else b).
Proof.
  intros H Hne st frame audio s'.
  destruct (onVideoProgress_effect rt uri t
              (update (VideoAnalyzer.setIsProcessing b) s) H Hne)
    as (Hin & _ & _ & Hp & _).
  fold s' in Hin, Hp. cbn [update world app tasks] in Hin, Hp.
  unfold VideoAnalyzer.due in Hin, Hp.
  change (VideoAnalyzer.lastFrameTime (VideoAnalyzer.setIsProcessing b (app (world s))))
    with (VideoAnalyzer.lastFrameTime st) in *.
  change (VideoAnalyzer.lastAudioTime (VideoAnalyzer.setIsProcessing b (app (world s))))
    with (VideoAnalyzer.lastAudioTime st) in *.
  fold frame in Hin, Hp. fold audio in Hin, Hp.
  split; [ exact Hin | ]. split; [ | exact Hp ].
  intros Hf Ha. rewrite Hin, Hf, Ha. reflexivity.
Qed.

(** While the flag is set, the event at 2.5 s starts a frame and a chunk. *)
Lemma C2_witness :
  let s := system_of playing : VideoAnalyzer.System in
  let s' := VideoAnalyzer.onVideoProgress demo_runtime (5 # 2)
              (update (VideoAnalyzer.setIsProcessing true) s) in
  VideoAnalyzer.videoUri (app (world s)) = Some "file:///sdcard/clip.mp4"
  /\ in_flight s' = [VideoAnalyzer.FrameAt (5 # 2); VideoAnalyzer.AudioAt (5 # 2)].
Proof.
  intros s s'.
  assert (Hne : "file:///sdcard/clip.mp4" <> "") by discriminate.
  destruct (C2_progress_triggers_not_gated demo_runtime (5 # 2) s
              "file:///sdcard/clip.mp4" true eq_refl Hne)
    as (_ & Hboth & _).
  split; [ reflexivity | ].
  exact (Hboth eq_refl eq_refl).
Defined.

(** C2 as stated fails, twice.  The event at 1 s starts a frame extraction
    and sets [isProcessing]; with that extraction still in flight and the
    flag still set, the event at 2 s starts another one.  And the event at
    2.5 s on a fresh clip starts both a frame and an audio extraction: the
    frame extraction has set the flag when the audio check runs, and the
    audio extraction is started all the same.  Six turns of the event
    loop later the engine has been handed both commands; after seventeen
    the frame extraction has ended and cleared the flag while the audio
    extraction is still in flight. *)
Lemma C2_extraction_starts_while_processing :
  let s0 := system_of playing : VideoAnalyzer.System in
  let s1 := VideoAnalyzer.onVideoProgress demo_runtime 1 s0 in
  let s2 := VideoAnalyzer.onVideoProgress demo_runtime 2 s1 in
  let half := spawn (VideoAnalyzer.FrameAt (5 # 2))
                (VideoAnalyzer.captureFrame demo_runtime (5 # 2)) s0 in
  let s3 := VideoAnalyzer.onVideoProgress demo_runtime (5 # 2) s0 in
  (in_flight s1 = [VideoAnalyzer.FrameAt 1]
   /\ VideoAnalyzer.isProcessing (app (world s1)) = true
   /\ in_flight s2 = [VideoAnalyzer.FrameAt 1; VideoAnalyzer.FrameAt 2])
  /\ (VideoAnalyzer.isProcessing (app (world half)) = true
      /\ in_flight s3 = [VideoAnalyzer.FrameAt (5 # 2); VideoAnalyzer.AudioAt (5 # 2)]
      /\ calls (trace (world s3))
         = [FileSystem_mkdir "/data/cache/video_processing";
            FileSystem_mkdir "/data/cache/video_processing"])
  /\ (let s4 := turns all_ok 6 s3 in
      in_flight s4 = [VideoAnalyzer.FrameAt (5 # 2); VideoAnalyzer.AudioAt (5 # 2)]
      /\ ffmpeg_commands (trace (world s4))
         = [frame_contract demo_runtime "file:///sdcard/clip.mp4" (5 # 2);
            audio_contract demo_runtime "file:///sdcard/clip.mp4" (5 # 2)])
  /\ (let s5 := turns all_ok 17 s3 in
      in_flight s5 = [VideoAnalyzer.AudioAt (5 # 2)]
      /\ VideoAnalyzer.isProcessing (app (world s5)) = false).
Proof. repeat split. Qed.

(** ** Permissions and picking *)

Lemma android_is_android rt : Platform_OS rt = android -> is_android rt = true.
Proof. unfold is_android. intros ->. reflexivity. Qed.

Lemma ios_is_not_android rt : Platform_OS rt = ios -> is_android rt = false.
Proof. unfold is_android. intros ->. reflexivity. Qed.

Section VideoPermissionFacts.

Import VideoAnalyzer.

Variable rt : Runtime.
Variable o : Oracle.

(** The permission step never throws and touches neither state nor files. *)
Lemma requestPermissions_quiet (w : World State) :
  app (exec o (requestPermissions rt) w) = app w
  /\ files (exec o (requestPermissions rt) w) = files w
  /\ exists b, eval o (requestPermissions rt) w = inr b.
Proof.
  unfold requestPermissions, openAppSettings.
  destruct (is_android rt); cbn [negb]; [ | go_all; repeat split; eexists; reflexivity ].
  destruct (33 <=? Platform_Version rt)%Z; go_all; try split_status; go_all;
    repeat split; eexists; reflexivity.
Qed.

Lemma requestPermissions_refused (w : World State) :
  Platform_OS rt = android ->
  ~ explicit_grant (video_permission_call rt) (o (video_permission_call rt)) ->
  eval o (requestPermissions rt) w = inr false
  /\ calls (trace (exec o (requestPermissions rt) w))
     = (calls (trace w) ++ [video_permission_call rt])%list.
Proof.
  intros Hos Hng. unfold requestPermissions, openAppSettings.
  rewrite (android_is_android rt Hos). cbn [negb].
  unfold video_permission_call in *.
  destruct (33 <=? Platform_Version rt)%Z.
  - go_simpl.
    destruct (o (PermissionsAndroid_request READ_MEDIA_VIDEO)) as [a | e] eqn:E;
      [ destruct a | ]; go_simpl;
      try (split; [ reflexivity | trace_done ]).
    exfalso. apply Hng. reflexivity.
  - go_simpl.
    destruct (o (PermissionsAndroid_requestMultiple
                   [READ_EXTERNAL_STORAGE; WRITE_EXTERNAL_STORAGE])) as [f | e] eqn:E;
      go_simpl; [ | split; [ reflexivity | trace_done ] ].
    split; [ | trace_done ].
    unfold Object_values. cbn [map forallb].
    destruct (f READ_EXTERNAL_STORAGE) eqn:Er; cbn [is_granted andb]; try reflexivity.
    destruct (f WRITE_EXTERNAL_STORAGE) eqn:Ew; cbn [is_granted andb]; try reflexivity.
    exfalso. apply Hng. exists f. split; [ reflexivity | ].
    intros p [<- | [<- | []]]; assumption.
Qed.

Lemma requestPermissions_throws (w : World State) e :
  Platform_OS rt = android ->
  o (video_permission_call rt) = Rejected e ->
  errors (trace (exec o (requestPermissions rt) w))
  = (errors (trace w) ++ [console_error "Permission error:" [LErr e]])%list.
Proof.
  intros Hos He. unfold requestPermissions.
  rewrite (android_is_android rt Hos). cbn [negb].
  unfold video_permission_call in *.
  destruct (33 <=? Platform_Version rt)%Z; go_all; trace_done.
Qed.

Lemma requestPermissions_ios (w : World State) :
  Platform_OS rt = ios ->
  requestPermissions rt w = Done w true.
Proof.
  intros Hos. unfold requestPermissions.
  rewrite (ios_is_not_android rt Hos). reflexivity.
Qed.

(** A refusal ends [pickVideo] at the alert. *)
Lemma pickVideo_refused (w : World State) :
  eval o (requestPermissions rt) w = inr false ->
  go o (pickVideo rt) w =
  (say [Alert_alert "Permission Denied"
          "Storage permission is required to select videos."]
       (exec o (requestPermissions rt) w), inr tt).
Proof.
  rewrite eval_go, exec_go. intros Hf. unfold pickVideo.
  rewrite go_catch, go_bind.
  destruct (go o (requestPermissions rt) w) as [w1 [e | b]];
    cbn [fst snd] in *; [ discriminate | ].
  injection Hf as ->. cbn [negb]. go_simpl. reflexivity.
Qed.

End VideoPermissionFacts.

Section MediaPermissionFacts.

Import MediaAnalyzer.

Variable rt : Runtime.
Variable o : Oracle.

Lemma media_requestPermissions_refused mediaType (w : World State) :
  Platform_OS rt = android ->
  ~ explicit_grant (media_permission_call rt mediaType)
      (o (media_permission_call rt mediaType)) ->
  eval o (requestPermissions rt mediaType) w = inr false
  /\ calls (trace (exec o (requestPermissions rt mediaType) w))
     = (calls (trace w) ++ [media_permission_call rt mediaType])%list
  /\ app (exec o (requestPermissions rt mediaType) w) = app w.
Proof.
  intros Hos Hng. unfold requestPermissions, openAppSettings.
  rewrite (android_is_android rt Hos). cbn [negb].
  unfold media_permission_call in *.
  destruct (33 <=? Platform_Version rt)%Z.
  - go_simpl.
    destruct (o (PermissionsAndroid_request _)) as [a | e] eqn:E;
      [ destruct a | ]; go_simpl;
      try (split; [ reflexivity | split; [ trace_done | reflexivity ] ]).
    exfalso. apply Hng. reflexivity.
  - go_simpl.
    destruct (o (PermissionsAndroid_request READ_EXTERNAL_STORAGE)) as [a | e] eqn:E;
      [ destruct a | ]; go_simpl;
      try (split; [ reflexivity | split; [ trace_done | reflexivity ] ]).
    exfalso. apply Hng. reflexivity.
Qed.

Lemma media_requestPermissions_throws mediaType (w : World State) e :
  Platform_OS rt = android ->
  o (media_permission_call rt mediaType) = Rejected e ->
  errors (trace (exec o (requestPermissions rt mediaType) w))
  = (errors (trace w) ++ [console_error "Permission error:" [LErr e]])%list.
Proof.
  intros Hos He. unfold requestPermissions.
  rewrite (android_is_android rt Hos). cbn [negb].
  unfold media_permission_call in *.
  destruct (33 <=? Platform_Version rt)%Z; go_all; trace_done.
Qed.

Lemma pickImage_refused (w : World State) :
  eval o (requestPermissions rt image) w = inr false ->
  go o (pickImage rt) w =
  (say [Alert_alert "Permission Denied"
          "Storage permission is required to select images."]
       (exec o (requestPermissions rt image) w), inr tt).
Proof.
  rewrite eval_go, exec_go. intros Hf. unfold pickImage.
  rewrite go_catch, go_bind.
  destruct (go o (requestPermissions rt image) w) as [w1 [e | b]];
    cbn [fst snd] in *; [ discriminate | ].
  injection Hf as ->. cbn [negb]. go_simpl. reflexivity.
Qed.

Lemma pickAudio_refused (w : World State) :
  eval o (requestPermissions rt audio) w = inr false ->
  go o (pickAudio rt) w =
  (say [Alert_alert "Permission Denied"
          "Storage permission is required to select audio."]
       (exec o (requestPermissions rt audio) w), inr tt).
Proof.
  rewrite eval_go, exec_go. intros Hf. unfold pickAudio.
  rewrite go_catch, go_bind.
  destruct (go o (requestPermissions rt audio) w) as [w1 [e | b]];
    cbn [fst snd] in *; [ discriminate | ].
  injection Hf as ->. cbn [negb]. go_simpl. reflexivity.
Qed.

End MediaPermissionFacts.

(** C9.  On Android the permission step is fail-closed in both picking
    screens.  Whenever the outcome of the request put to the permission
    API is anything but an explicit grant (a denial, a permanent denial,
    or a rejection), [requestPermissions] returns false, and the pick
    handler that called it ends there: the permission request is the only
    external call it issued (no picker, no engine, no upload) and the
    screen's state is as before.  A rejection is logged as
    "Permission error:" and falls under the same case.  On the other
    platform no permission request is issued at all. *)
Theorem C9_permission_fail_closed (rt : Runtime) (o : Oracle) :
  (Platform_OS rt = android ->
   (forall w,
       ~ explicit_grant (video_permission_call rt) (o (video_permission_call rt)) ->
       eval o (VideoAnalyzer.requestPermissions rt) w = inr false
       /\ calls (trace (exec o (VideoAnalyzer.pickVideo rt) w))
          = (calls (trace w) ++ [video_permission_call rt])%list
       /\ app (exec o (VideoAnalyzer.pickVideo rt) w) = app w)
   /\ (forall w,
       ~ explicit_grant (media_permission_call rt MediaAnalyzer.image)
           (o (media_permission_call rt MediaAnalyzer.image)) ->
       eval o (MediaAnalyzer.requestPermissions rt MediaAnalyzer.image) w = inr false
       /\ calls (trace (exec o (MediaAnalyzer.pickImage rt) w))
          = (calls (trace w) ++ [media_permission_call rt MediaAnalyzer.image])%list
       /\ app (exec o (MediaAnalyzer.pickImage rt) w) = app w)
   /\ (forall w,
       ~ explicit_grant (media_permission_call rt MediaAnalyzer.audio)
           (o (media_permission_call rt MediaAnalyzer.audio)) ->
       eval o (MediaAnalyzer.requestPermissions rt MediaAnalyzer.audio) w = inr false
       /\ calls (trace (exec o (MediaAnalyzer.pickAudio rt) w))
          = (calls (trace w) ++ [media_permission_call rt MediaAnalyzer.audio])%list
       /\ app (exec o (MediaAnalyzer.pickAudio rt) w) = app w)
   /\ (forall w e,
       o (video_permission_call rt) = Rejected e ->
       eval o (VideoAnalyzer.requestPermissions rt) w = inr false
       /\ errors (trace (exec o (VideoAnalyzer.requestPermissions rt) w))
          = (errors (trace w) ++ [console_error "Permission error:" [LErr e]])%list)
   /\ (forall mediaType w e,
       o (media_permission_call rt mediaType) = Rejected e ->
       eval o (MediaAnalyzer.requestPermissions rt mediaType) w = inr false
       /\ errors (trace (exec o (MediaAnalyzer.requestPermissions rt mediaType) w))
          = (errors (trace w) ++ [console_error "Permission error:" [LErr e]])%list))
  /\ (Platform_OS rt = ios ->
      forall w, calls (trace (exec o (VideoAnalyzer.requestPermissions rt) w))
                = calls (trace w)).
Proof.
  assert (Hrej : forall c e, o c = Rejected e -> ~ explicit_grant c (o c)).
  { intros c e He. rewrite He. destruct c; cbn; try tauto.
    - discriminate.
    - intros (f & Hf & _). discriminate. }
  split.
  - intros Hos. repeat apply conj.
    + intros w Hng.
      destruct (requestPermissions_refused rt o w Hos Hng) as (Hf & Hc).
      destruct (requestPermissions_quiet rt o w) as (Ha & _).
      split; [ exact Hf | ].
      rewrite exec_go, (pickVideo_refused rt o w Hf). cbn [fst say trace app].
      split; [ | exact Ha ].
      autorewrite with trace. cbn [calls flat_map].
      rewrite app_nil_r. exact Hc.
    + intros w Hng.
      destruct (media_requestPermissions_refused rt o MediaAnalyzer.image w Hos Hng)
        as (Hf & Hc & Ha).
      split; [ exact Hf | ].
      rewrite exec_go, (pickImage_refused rt o w Hf). cbn [fst say trace app].
      split; [ | exact Ha ].
      autorewrite with trace. cbn [calls flat_map].
      rewrite app_nil_r. exact Hc.
    + intros w Hng.
      destruct (media_requestPermissions_refused rt o MediaAnalyzer.audio w Hos Hng)
        as (Hf & Hc & Ha).
      split; [ exact Hf | ].
      rewrite exec_go, (pickAudio_refused rt o w Hf). cbn [fst say trace app].
      split; [ | exact Ha ].
      autorewrite with trace. cbn [calls flat_map].
      rewrite app_nil_r. exact Hc.
    + intros w e He. split.
      * exact (proj1 (requestPermissions_refused rt o w Hos (Hrej _ e He))).
      * exact (requestPermissions_throws rt o w e Hos He).
    + intros mediaType w e He. split.
      * exact (proj1 (media_requestPermissions_refused rt o mediaType w Hos
                        (Hrej _ e He))).
      * exact (media_requestPermissions_throws rt o mediaType w e Hos He).
  - intros Hos w. unfold exec.
    rewrite (requestPermissions_ios rt w Hos). reflexivity.
Qed.

(** The user ticks "never ask again" on Android 14: the video picker is
    never opened. *)
Lemma C9_witness :
  let w := world_of VideoAnalyzer.initial [] in
  Platform_OS demo_runtime = android
  /\ ~ explicit_grant (video_permission_call demo_runtime)
         (permission_blocked (video_permission_call demo_runtime))
  /\ eval permission_blocked (VideoAnalyzer.requestPermissions demo_runtime) w = inr false
  /\ calls (trace (exec permission_blocked (VideoAnalyzer.pickVideo demo_runtime) w))
     = [PermissionsAndroid_request READ_MEDIA_VIDEO]
  /\ app (exec permission_blocked (VideoAnalyzer.pickVideo demo_runtime) w)
     = VideoAnalyzer.initial.
Proof.
  intros w.
  assert (Hng : ~ explicit_grant (video_permission_call demo_runtime)
                    (permission_blocked (video_permission_call demo_runtime)))
    by (cbn; discriminate).
  split; [ reflexivity | ]. split; [ exact Hng | ].
  destruct (C9_permission_fail_closed demo_runtime permission_blocked) as (H & _).
  destruct (H eq_refl) as (Hv & _).
  exact (Hv w Hng).
Defined.

(** ** Selecting a source *)

Section PickFacts.

Import VideoAnalyzer.

Variable rt : Runtime.
Variable o : Oracle.

Lemma copyContentUriToLocal_result originalUri (w : World State) :
  app (exec o (copyContentUriToLocal rt originalUri) w) = app w
  /\ forall u, eval o (copyContentUriToLocal rt originalUri) w = inr u ->
               u = "file://" ++ Dirs_CacheDir rt ++ "/input_video_temp.mp4".
Proof.
  rewrite exec_go. setoid_rewrite eval_go.
  remember (go o (copyContentUriToLocal rt originalUri) w) as p eqn:Hp.
  revert Hp. unfold copyContentUriToLocal. go_all; intros ->; cbn [fst snd];
    (split; [ reflexivity | intros u Hu; congruence ]).
Qed.

Lemma pickVideo_selects r rest (w : World State) :
  (forall w0, eval o (requestPermissions rt) w0 = inr true) ->
  o (DocumentPicker_pick "video/*") = Resolved (r :: rest) ->
  (String.prefix "content://" (pick_uri r) = true ->
   forall w0, exists u, eval o (copyContentUriToLocal rt (pick_uri r)) w0 = inr u) ->
  app (exec o (pickVideo rt) w)
  = source_selected (final_uri rt r) (pick_name r) (app w).
Proof.
  intros Hperm Hpick Hcopy. unfold pickVideo, final_uri.
  rewrite exec_go, go_catch, go_bind.
  pose proof (Hperm w) as Hp. rewrite eval_go in Hp.
  destruct (requestPermissions_quiet rt o w) as (Ha & _). rewrite exec_go in Ha.
  destruct (go o (requestPermissions rt) w) as [w1 [e | b]];
    cbn [fst snd] in *; [ discriminate | ].
  injection Hp as ->. cbn [negb]. go_simpl. rewrite Hpick. go_simpl.
  destruct (String.prefix "content://" (pick_uri r)) eqn:P.
  - match goal with
    | |- context [go o (copyContentUriToLocal rt ?x) ?w2] =>
        destruct (Hcopy eq_refl w2) as [u Hu];
        destruct (copyContentUriToLocal_result x w2) as (Hc & Hres);
        specialize (Hres u Hu); rewrite eval_go in Hu; rewrite exec_go in Hc;
        destruct (go o (copyContentUriToLocal rt x) w2) as [w3 [e | u']];
        cbn [fst snd] in *; [ discriminate | ]
    end.
    injection Hu as ->. go_simpl. rewrite Hc, Ha, Hres. reflexivity.
  - go_simpl. rewrite Ha. reflexivity.
Qed.

End PickFacts.

(** C6.  When a pick goes through (permission confirmed, the picker
    returns a file and, for a [content://] uri, the copy into the cache
    succeeds), [pickVideo] leaves [lastFrameTime] and [lastAudioTime] at 0
    and both classification labels empty, whatever the state was before;
    picking again from that state leaves the state as it is. *)
Theorem C6_new_source_resets_pipeline (rt : Runtime) (o : Oracle)
    (r : PickResult) (rest : list PickResult) (w : World VideoAnalyzer.State) :
  (forall w0, eval o (VideoAnalyzer.requestPermissions rt) w0 = inr true) ->
  o (DocumentPicker_pick "video/*") = Resolved (r :: rest) ->
  (String.prefix "content://" (pick_uri r) = true ->
   forall w0, exists u,
     eval o (VideoAnalyzer.copyContentUriToLocal rt (pick_uri r)) w0 = inr u) ->
  let w' := exec o (VideoAnalyzer.pickVideo rt) w in
  VideoAnalyzer.lastFrameTime (app w') = 0
  /\ VideoAnalyzer.lastAudioTime (app w') = 0
  /\ VideoAnalyzer.audioClassification (app w') = Js.Str ""
  /\ VideoAnalyzer.imageClassification (app w') = Js.Str ""
  /\ (exists finalUri, VideoAnalyzer.videoUri (app w') = Some finalUri)
  /\ app (exec o (VideoAnalyzer.pickVideo rt) w') = app w'.
Proof.
  intros Hperm Hpick Hcopy w'.
  pose proof (pickVideo_selects rt o r rest w Hperm Hpick Hcopy) as H1.
  pose proof (pickVideo_selects rt o r rest w' Hperm Hpick Hcopy) as H2.
  fold w' in H1. rewrite H2, H1.
  repeat split. eexists. reflexivity.
Qed.

(** A second clip is picked while labels and times of the first are set. *)
Lemma C6_witness :
  let before :=
    VideoAnalyzer.setLastAudioTime (15 # 2)
      (VideoAnalyzer.setLastFrameTime 9 playing) in
  let w' := exec all_ok (VideoAnalyzer.pickVideo demo_runtime) (world_of before []) in
  all_ok (DocumentPicker_pick "video/*")
  = Resolved [{| pick_uri := "file:///sdcard/clip.mp4"; pick_name := "clip.mp4" |}]
  /\ VideoAnalyzer.lastFrameTime (app w') = 0
  /\ VideoAnalyzer.lastAudioTime (app w') = 0
  /\ VideoAnalyzer.audioClassification (app w') = Js.Str ""
  /\ VideoAnalyzer.imageClassification (app w') = Js.Str ""
  /\ app (exec all_ok (VideoAnalyzer.pickVideo demo_runtime) w') = app w'.
Proof.
  intros before w'. split; [ reflexivity | ].
  destruct (C6_new_source_resets_pipeline demo_runtime all_ok
              {| pick_uri := "file:///sdcard/clip.mp4"; pick_name := "clip.mp4" |}
              [] (world_of before []))
    as (Hf & Ha & Hla & Hli & _ & Hidem).
  - intros w0. reflexivity.
  - reflexivity.
  - intros Hprefix. discriminate Hprefix.
  - repeat split; assumption.
Defined.

(** ** The timers of the live camera *)

Section TimerFacts.

Import LiveCamera.

Lemma find_timer_without id ts : find_timer id (without id ts) = None.
Proof.
  unfold find_timer, without. induction ts as [| t ts IH]; simpl; [ reflexivity | ].
  destruct (Pos.eqb (timer_id t) id) eqn:E; simpl; [ exact IH | ].
  rewrite E. exact IH.
Qed.

Lemma find_timer_without_other id id' ts :
  find_timer id ts = None -> find_timer id (without id' ts) = None.
Proof.
  unfold find_timer, without. induction ts as [| t ts IH]; simpl; [ reflexivity | ].
  destruct (Pos.eqb (timer_id t) id) eqn:E; [ discriminate | ].
  intros H. destruct (Pos.eqb (timer_id t) id'); simpl; [ auto | ].
  rewrite E. auto.
Qed.

(** The effect, with permissions confirmed, arms two intervals. *)
Lemma timersEffect_arms (s : System) :
  hasPermission (app (world s)) = true ->
  let id1 := nextTimer (app (world s)) in
  let id2 := Pos.succ id1 in
  let s' := timersEffect s in
  intervals (app (world s')) =
    (intervals (app (world s))
     ++ [{| timer_id := id1; callback := audioChunkTick; delay_ms := 2500 |};
         {| timer_id := id2; callback := processVideoFrameTick; delay_ms := 1000 |}])%list
  /\ audioChunkInterval (app (world s')) = Some id1
  /\ frameInterval (app (world s')) = Some id2
  /\ tasks s' = tasks s.
Proof.
  intros H. unfold timersEffect. rewrite H.
  unfold initAudioRecorder, update, log. cbn. rewrite <- app_assoc.
  repeat split.
Qed.

(** The cleanup disarms both. *)
Lemma timersCleanup_disarms (s : System) id1 id2 :
  audioChunkInterval (app (world s)) = Some id1 ->
  frameInterval (app (world s)) = Some id2 ->
  let s' := timersCleanup s in
  find_timer id1 (intervals (app (world s'))) = None
  /\ find_timer id2 (intervals (app (world s'))) = None
  /\ calls (trace (world s')) = (calls (trace (world s)) ++ [AudioRecord_stop])%list.
Proof.
  intros H1 H2. unfold timersCleanup. rewrite H1.
  unfold update, log. cbn [world app clearInterval frameInterval]. rewrite H2.
  cbn [world app clearInterval intervals trace]. repeat split.
  - apply find_timer_without_other, find_timer_without.
  - apply find_timer_without.
  - trace_done.
Qed.

Variable o : Oracle.

(** The recorder is not started again while a recording is on. *)
Lemma startRecording_guarded (w : World State) :
  isRecording (app w) = true ->
  go o startRecording w = (w, inr tt).
Proof.
  intros H. unfold startRecording. go_simpl. rewrite H. cbn [negb]. go_simpl.
  reflexivity.
Qed.

Lemma startRecording_starts (w : World State) :
  isRecording (app w) = false ->
  calls (trace (exec o startRecording w)) = (calls (trace w) ++ [AudioRecord_start])%list
  /\ isRecording (app (exec o startRecording w)) = true.
Proof.
  intros H. unfold startRecording. go_simpl. rewrite H. cbn [negb].
  go_all; split; try reflexivity; trace_done.
Qed.

(** A frame tick with the camera mounted takes a photo, whatever else is
    in flight. *)
Lemma frame_tick_starts id t (s : System) :
  find_timer id (intervals (app (world s))) = Some t ->
  callback t = processVideoFrameTick ->
  cameraRef (app (world s)) = true ->
  let s' := interval_fires id s in
  in_flight s' = (in_flight s ++ [processVideoFrameTick])%list
  /\ calls (trace (world s')) = (calls (trace (world s)) ++ [camera_takePhoto])%list
  /\ app (world s') = app (world s).
Proof.
  intros Hfind Hcb Hcam. unfold interval_fires. rewrite Hfind, Hcb.
  unfold spawn, run_callback, processVideoFrame, bind, get_app. cbn [bindR].
  rewrite Hcam. unfold park, in_flight. cbn. rewrite map_app.
  repeat split. trace_done.
Qed.

End TimerFacts.

(** C4, as amended.  Once permissions are confirmed the effect arms two
    independent intervals, the audio callback every 2500 ms and the frame
    callback every 1000 ms, and its cleanup disarms both: a tick of either
    timer after the cleanup does nothing.  Only the audio callback has a
    guard: while [isRecording] is set the recorder is not started again.
    The frame callback has no in-flight guard: every tick with the camera
    mounted takes a photo, also while earlier captures are still in
    flight.  Without permissions no timer is armed. *)
Theorem C4_timers_and_guards (o : Oracle) (s : LiveCamera.System) :
  let id1 := LiveCamera.nextTimer (app (world s)) in
  let id2 := Pos.succ id1 in
  let armed := LiveCamera.timersEffect s in
  let torn := LiveCamera.timersCleanup armed in
  (LiveCamera.hasPermission (app (world s)) = true ->
     LiveCamera.intervals (app (world armed)) =
       (LiveCamera.intervals (app (world s))
        ++ [{| LiveCamera.timer_id := id1;
               LiveCamera.callback := LiveCamera.audioChunkTick;
               LiveCamera.delay_ms := 2500 |};
            {| LiveCamera.timer_id := id2;
               LiveCamera.callback := LiveCamera.processVideoFrameTick;
               LiveCamera.delay_ms := 1000 |}])%list
     /\ LiveCamera.interval_fires id1 torn = torn
     /\ LiveCamera.interval_fires id2 torn = torn)
  /\ (LiveCamera.hasPermission (app (world s)) = false -> armed = s)
  /\ (forall w, LiveCamera.isRecording (app w) = true ->
        go o LiveCamera.startRecording w = (w, inr tt))
  /\ (forall w, LiveCamera.isRecording (app w) = false ->
        calls (trace (exec o LiveCamera.startRecording w))
        = (calls (trace w) ++ [AudioRecord_start])%list
        /\ LiveCamera.isRecording (app (exec o LiveCamera.startRecording w)) = true)
  /\ (forall id t,
        LiveCamera.find_timer id (LiveCamera.intervals (app (world s))) = Some t ->
        LiveCamera.callback t = LiveCamera.processVideoFrameTick ->
        LiveCamera.cameraRef (app (world s)) = true ->
        in_flight (LiveCamera.interval_fires id s)
        = (in_flight s ++ [LiveCamera.processVideoFrameTick])%list
        /\ calls (trace (world (LiveCamera.interval_fires id s)))
           = (calls (trace (world s)) ++ [camera_takePhoto])%list).
Proof.
  intros id1 id2 armed torn. repeat apply conj.
  - intros H.
    destruct (timersEffect_arms s H) as (Hi & Ha & Hf & _).
    fold id1 id2 armed in Hi, Ha, Hf.
    destruct (timersCleanup_disarms armed id1 id2 Ha Hf) as (H1 & H2 & _).
    fold torn in H1, H2.
    split; [ exact Hi | ].
    unfold LiveCamera.interval_fires. rewrite H1, H2. split; reflexivity.
  - intros H. unfold armed, LiveCamera.timersEffect. rewrite H. reflexivity.
  - exact (startRecording_guarded o).
  - exact (startRecording_starts o).
  - intros id t Hfind Hcb Hcam.
    destruct (frame_tick_starts id t s Hfind Hcb Hcam) as (H1 & H2 & _).
    split; assumption.
Qed.

(** The camera screen with permissions: the timers 1 and 2 are armed with
    2500 ms and 1000 ms, and a tick after the cleanup does nothing. *)
Lemma C4_witness :
  let s := system_of filming : LiveCamera.System in
  let armed := LiveCamera.timersEffect s in
  let torn := LiveCamera.timersCleanup armed in
  LiveCamera.hasPermission (app (world s)) = true
  /\ LiveCamera.intervals (app (world armed)) =
       [{| LiveCamera.timer_id := 1%positive;
           LiveCamera.callback := LiveCamera.audioChunkTick;
           LiveCamera.delay_ms := 2500 |};
        {| LiveCamera.timer_id := 2%positive;
           LiveCamera.callback := LiveCamera.processVideoFrameTick;
           LiveCamera.delay_ms := 1000 |}]
  /\ LiveCamera.interval_fires 1 torn = torn
  /\ LiveCamera.interval_fires 2 torn = torn.
Proof.
  intros s armed torn. split; [ reflexivity | ].
  destruct (C4_timers_and_guards all_ok s) as (H & _).
  exact (H eq_refl).
Defined.

(** C4 as stated fails for frames: the frame timer (id 2) ticks twice
    before the first capture has come back; both ticks take a photo and
    two frame captures are in flight together. *)
Lemma C4_frame_captures_overlap :
  let armed := LiveCamera.timersEffect (system_of filming : LiveCamera.System) in
  let s1 := LiveCamera.interval_fires 2 armed in
  let s2 := LiveCamera.interval_fires 2 s1 in
  in_flight s1 = [LiveCamera.processVideoFrameTick]
  /\ in_flight s2 = [LiveCamera.processVideoFrameTick; LiveCamera.processVideoFrameTick]
  /\ calls (trace (world s2))
     = [AudioRecord_init 16000 1 16 "audio_chunk.wav";
        camera_takePhoto; camera_takePhoto].
Proof. repeat split. Qed.

(* ================================================================== *)
(** * Further properties of the three screens                          *)

(** ** Failures stay inside the handlers *)

Section Containment.

Variable St : Type.
Variable o : Oracle.

Lemma never_throws_ret A (a : A) : never_throws o (ret a : M St A).
Proof. intros w. exists w, a. reflexivity. Qed.

Lemma never_throws_emit e : never_throws o (emit e : M St unit).
Proof. intros w. eexists _, tt. reflexivity. Qed.

Lemma never_throws_modify f : never_throws o (modify_app f : M St unit).
Proof. intros w. eexists _, tt. reflexivity. Qed.

Lemma never_throws_get : never_throws o (get_app : M St St).
Proof. intros w. eexists _, _. reflexivity. Qed.

Lemma never_throws_bind A B (m : M St A) (f : A -> M St B) :
  never_throws o m -> (forall a, never_throws o (f a)) ->
  never_throws o (bind m f).
Proof.
  intros Hm Hf w. rewrite go_bind.
  destruct (Hm w) as (w1 & a & ->). apply Hf.
Qed.

(** A [try] whose [catch] block cannot throw contains every failure. *)
Lemma never_throws_catch A (m : M St A) (h : Err -> M St A) :
  (forall e, never_throws o (h e)) -> never_throws o (try_catch m h).
Proof.
  intros Hh w. rewrite go_catch.
  destruct (go o m w) as [w1 [e | a]]; [ apply Hh | eexists _, _; reflexivity ].
Qed.

Lemma never_throws_finally A (m : M St A) (f : M St unit) :
  never_throws o m -> never_throws o f -> never_throws o (try_finally m f).
Proof.
  intros Hm Hf w. rewrite go_finally.
  destruct (Hm w) as (w1 & a & ->).
  destruct (Hf w1) as (w2 & [] & ->). eexists _, _. reflexivity.
Qed.

Lemma never_throws_eval (m : M St unit) w :
  never_throws o m -> eval o m w = inr tt.
Proof.
  intros H. rewrite eval_go. destruct (H w) as (w' & [] & ->). reflexivity.
Qed.

End Containment.

#[global] Hint Resolve never_throws_catch never_throws_finally never_throws_bind
  never_throws_emit never_throws_modify never_throws_get never_throws_ret
  : contained.

(** X1.  No handler of the three screens lets a rejection escape: in
    every environment and from every state, picking, both extractors, all
    uploaders, the recorder helpers and the timer callbacks return
    normally, so a failing collaborator never leaves an unhandled
    rejection behind. *)
Theorem X1_handlers_contain_failures (rt : Runtime) (o : Oracle) :
  (forall w t,
      eval o (VideoAnalyzer.pickVideo rt) w = inr tt
      /\ eval o (VideoAnalyzer.captureFrame rt t) w = inr tt
      /\ eval o (VideoAnalyzer.processAudioAtTime rt t) w = inr tt)
  /\ (forall w p,
      eval o (VideoAnalyzer.processVideoFrame rt p) w = inr tt
      /\ eval o (VideoAnalyzer.processAudioChunk rt p) w = inr tt)
  /\ (forall w uri,
      eval o (MediaAnalyzer.pickImage rt) w = inr tt
      /\ eval o (MediaAnalyzer.pickAudio rt) w = inr tt
      /\ eval o (MediaAnalyzer.uploadImage rt uri) w = inr tt
      /\ eval o (MediaAnalyzer.uploadAudio rt uri) w = inr tt)
  /\ (forall w uri,
      eval o LiveCamera.processVideoFrame w = inr tt
      /\ eval o (LiveCamera.processAudioChunk uri) w = inr tt
      /\ eval o LiveCamera.startRecording w = inr tt
      /\ eval o LiveCamera.audioChunkCallback w = inr tt
      /\ eval o LiveCamera.stopAndUploadCallback w = inr tt).
Proof.
  assert (Hframe : forall p, never_throws o (VideoAnalyzer.processVideoFrame rt p))
    by (intros p; unfold VideoAnalyzer.processVideoFrame; auto 20 with contained).
  assert (Hchunk : forall p, never_throws o (VideoAnalyzer.processAudioChunk rt p))
    by (intros p; unfold VideoAnalyzer.processAudioChunk; auto 20 with contained).
  assert (Himg : forall u, never_throws o (MediaAnalyzer.uploadImage rt u))
    by (intros u; unfold MediaAnalyzer.uploadImage; auto 20 with contained).
  assert (Haud : forall u, never_throws o (MediaAnalyzer.uploadAudio rt u))
    by (intros u; unfold MediaAnalyzer.uploadAudio; auto 20 with contained).
  assert (Hlive : forall u, never_throws o (LiveCamera.processAudioChunk u))
    by (intros u; unfold LiveCamera.processAudioChunk; auto 20 with contained).
  assert (Hstart : never_throws o LiveCamera.startRecording)
    by (unfold LiveCamera.startRecording; auto 20 with contained).
  assert (Hstop : never_throws o LiveCamera.stopRecording).
  { unfold LiveCamera.stopRecording. apply never_throws_catch. intros e.
    apply never_throws_bind; [ apply never_throws_emit | intros ? ].
    apply never_throws_ret. }
  repeat apply conj.
  - intros w t. repeat apply conj; apply never_throws_eval.
    + unfold VideoAnalyzer.pickVideo. auto 20 with contained.
    + unfold VideoAnalyzer.captureFrame.
      apply never_throws_bind; [ apply never_throws_get | intros st ].
      destruct (VideoAnalyzer.videoUri st) as [uri |]; [ | apply never_throws_ret ].
      destruct (uri =? ""); [ apply never_throws_ret | ].
      apply never_throws_finally; [ apply never_throws_catch; intros e | ]; auto 20 with contained.
    + unfold VideoAnalyzer.processAudioAtTime.
      apply never_throws_bind; [ apply never_throws_get | intros st ].
      destruct (VideoAnalyzer.videoUri st) as [uri |]; [ | apply never_throws_ret ].
      destruct (uri =? ""); [ apply never_throws_ret | ].
      apply never_throws_finally; [ apply never_throws_catch; intros e | ]; auto 20 with contained.
  - intros w p. split; apply never_throws_eval; auto.
  - intros w uri. repeat apply conj; apply never_throws_eval; auto.
    + unfold MediaAnalyzer.pickImage. auto 20 with contained.
    + unfold MediaAnalyzer.pickAudio. auto 20 with contained.
  - intros w uri. repeat apply conj; apply never_throws_eval; auto.
    + unfold LiveCamera.processVideoFrame.
      apply never_throws_bind; [ apply never_throws_get | intros st ].
      destruct (LiveCamera.cameraRef st); auto 20 with contained.
    + unfold LiveCamera.audioChunkCallback.
      apply never_throws_bind; [ exact Hstart | intros ? ]. apply never_throws_modify.
    + unfold LiveCamera.stopAndUploadCallback.
      apply never_throws_bind; [ exact Hstop | intros [f |] ];
        [ destruct (f =? ""); [ apply never_throws_ret | apply Hlive ]
        | apply never_throws_ret ].
Qed.

Lemma alerts_app tr1 tr2 : alerts (tr1 ++ tr2) = (alerts tr1 ++ alerts tr2)%list.
Proof. apply filter_app. Qed.

#[global] Hint Rewrite alerts_app : trace.

(** ** Scratch directories and the cache copy *)

(** X2.  Creating the scratch directories is tolerant and quiet: whatever
    each of the three [mkdir] calls answers (an "already exists" error as
    well as any other rejection), [createSubdirectories] returns the same
    two directories under [<cache>/video_processing], asks for the three
    directories in the same order, logs nothing and changes no state. *)
Theorem X2_createSubdirectories_tolerant (rt : Runtime) (o : Oracle)
    (w : World VideoAnalyzer.State) :
  let w' := exec o (VideoAnalyzer.createSubdirectories rt) w in
  eval o (VideoAnalyzer.createSubdirectories rt) w
  = inr ((Dirs_CacheDir rt ++ "/video_processing") ++ "/frames",
         (Dirs_CacheDir rt ++ "/video_processing") ++ "/audio")
  /\ calls (trace w')
     = (calls (trace w)
        ++ [FileSystem_mkdir (Dirs_CacheDir rt ++ "/video_processing");
            FileSystem_mkdir ((Dirs_CacheDir rt ++ "/video_processing") ++ "/frames");
            FileSystem_mkdir ((Dirs_CacheDir rt ++ "/video_processing") ++ "/audio")])%list
  /\ errors (trace w') = errors (trace w)
  /\ app w' = app w
  /\ files w' = files w.
Proof.
  cbn zeta. rewrite exec_go, eval_go, go_createSubdirectories.
  cbn [fst snd]. repeat split. all: trace_done.
Qed.

(** X3.  The cache copy is strictly sequential and all-or-nothing: it
    fetches the picked uri, reads the blob, reads it as a data URL and
    writes [<cache>/input_video_temp.mp4]; the first step that rejects
    ends it with that error and none of the later calls is issued.  When
    all four succeed the result is ["file://<cache>/input_video_temp.mp4"],
    whatever the picked uri was.  The screen's state is never touched. *)
Theorem X3_copy_sequential (rt : Runtime) (o : Oracle) (originalUri : string)
    (w : World VideoAnalyzer.State) :
  let localPath := Dirs_CacheDir rt ++ "/input_video_temp.mp4" in
  let w' := exec o (VideoAnalyzer.copyContentUriToLocal rt originalUri) w in
  let result := eval o (VideoAnalyzer.copyContentUriToLocal rt originalUri) w in
  let issued := skipn (length (calls (trace w))) (calls (trace w')) in
  app w' = app w
  /\ (forall e, o (fetch_get originalUri) = Rejected e ->
        result = inl e /\ issued = [fetch_get originalUri])
  /\ (forall r e, o (fetch_get originalUri) = Resolved r ->
        o response_blob = Rejected e ->
        result = inl e /\ issued = [fetch_get originalUri; response_blob])
  /\ (forall r b e, o (fetch_get originalUri) = Resolved r ->
        o response_blob = Resolved b ->
        o FileReader_readAsDataURL = Rejected e ->
        result = inl e
        /\ issued = [fetch_get originalUri; response_blob; FileReader_readAsDataURL])
  /\ (forall r b d e, o (fetch_get originalUri) = Resolved r ->
        o response_blob = Resolved b ->
        o FileReader_readAsDataURL = Resolved d ->
        o (FileSystem_writeFile localPath) = Rejected e ->
        result = inl e
        /\ issued = [fetch_get originalUri; response_blob; FileReader_readAsDataURL;
                     FileSystem_writeFile localPath])
  /\ (forall r b d u, o (fetch_get originalUri) = Resolved r ->
        o response_blob = Resolved b ->
        o FileReader_readAsDataURL = Resolved d ->
        o (FileSystem_writeFile localPath) = Resolved u ->
        result = inr ("file://" ++ localPath)
        /\ issued = [fetch_get originalUri; response_blob; FileReader_readAsDataURL;
                     FileSystem_writeFile localPath]).
Proof.
  assert (Hskip : forall (l l' : list Call), skipn (length l) (l ++ l') = l').
  { intros l l'. induction l; simpl; auto. }
  cbn zeta. split.
  - exact (proj1 (copyContentUriToLocal_result rt o originalUri w)).
  - unfold VideoAnalyzer.copyContentUriToLocal.
    repeat apply conj; intros; go_all; cbn [fst snd trace];
      (split; [ reflexivity | ]);
      autorewrite with trace; cbn [calls flat_map List.app];
      rewrite ?app_nil_r, <- ?app_assoc; cbn [List.app]; apply Hskip.
Qed.

(** With the disk full, the copy stops at the write. *)
Lemma X3_witness :
  copy_fails (FileSystem_writeFile (Dirs_CacheDir demo_runtime ++ "/input_video_temp.mp4"))
  = Rejected (NativeError "disk full")
  /\ eval copy_fails
       (VideoAnalyzer.copyContentUriToLocal demo_runtime "content://media/42")
       (world_of VideoAnalyzer.initial [])
     = inl (NativeError "disk full").
Proof.
  split; [ reflexivity | ].
  destruct (X3_copy_sequential demo_runtime copy_fails "content://media/42"
              (world_of VideoAnalyzer.initial []))
    as (_ & _ & _ & _ & H & _).
  exact (proj1 (H {| http_status := 200 |} tt "data:video/mp4;base64,AAAA"
                  (NativeError "disk full") eq_refl eq_refl eq_refl eq_refl)).
Defined.

(** ** Picking a video *)

(** A confirmed permission was obtained silently. *)
Lemma requestPermissions_true_quiet (rt : Runtime) (o : Oracle)
    (w : World VideoAnalyzer.State) :
  eval o (VideoAnalyzer.requestPermissions rt) w = inr true ->
  errors (trace (exec o (VideoAnalyzer.requestPermissions rt) w)) = errors (trace w)
  /\ alerts (trace (exec o (VideoAnalyzer.requestPermissions rt) w)) = alerts (trace w).
Proof.
  rewrite eval_go, exec_go.
  unfold VideoAnalyzer.requestPermissions, VideoAnalyzer.openAppSettings.
  destruct (is_android rt); cbn [negb]; [ | go_all; intros _; split; reflexivity ].
  destruct (33 <=? Platform_Version rt)%Z; go_all; try split_status; go_all;
    cbn [fst snd]; intros Ht; try discriminate; split; trace_done.
Qed.

Lemma copyContentUriToLocal_silent (rt : Runtime) (o : Oracle) originalUri
    (w : World VideoAnalyzer.State) :
  errors (trace (exec o (VideoAnalyzer.copyContentUriToLocal rt originalUri) w))
  = errors (trace w)
  /\ alerts (trace (exec o (VideoAnalyzer.copyContentUriToLocal rt originalUri) w))
     = alerts (trace w).
Proof.
  rewrite exec_go. unfold VideoAnalyzer.copyContentUriToLocal.
  go_all; split; trace_done.
Qed.

(** X4.  A pick that does not go through leaves the session as it was.
    With permission confirmed: when the picker returns no file, nothing is
    logged and no alert is shown; when the picker rejects (the user
    dismisses it), or the copy of a [content://] uri fails, the error is
    logged, the alert "Failed to pick video." is shown, and in all three
    cases the state (selected video, labels, last-sampled times) is
    unchanged. *)
Theorem X4_failed_pick_keeps_session (rt : Runtime) (o : Oracle)
    (w : World VideoAnalyzer.State) :
  eval o (VideoAnalyzer.requestPermissions rt) w = inr true ->
  let w' := exec o (VideoAnalyzer.pickVideo rt) w in
  (o (DocumentPicker_pick "video/*") = Resolved [] ->
     app w' = app w
     /\ errors (trace w') = errors (trace w)
     /\ alerts (trace w') = alerts (trace w))
  /\ (forall e,
        o (DocumentPicker_pick "video/*") = Rejected e ->
        app w' = app w
        /\ errors (trace w')
           = (errors (trace w) ++ [console_error "Error picking video:" [LErr e]])%list
        /\ alerts (trace w')
           = (alerts (trace w) ++ [Alert_alert "Error" "Failed to pick video."])%list)
  /\ (forall r rest e,
        o (DocumentPicker_pick "video/*") = Resolved (r :: rest) ->
        String.prefix "content://" (pick_uri r) = true ->
        (forall w0,
            eval o (VideoAnalyzer.copyContentUriToLocal rt (pick_uri r)) w0 = inl e) ->
        app w' = app w
        /\ errors (trace w')
           = (errors (trace w) ++ [console_error "Error picking video:" [LErr e]])%list
        /\ alerts (trace w')
           = (alerts (trace w) ++ [Alert_alert "Error" "Failed to pick video."])%list).
Proof.
  intros Hp w'. subst w'.
  destruct (requestPermissions_true_quiet rt o w Hp) as (He & Hal).
  destruct (requestPermissions_quiet rt o w) as (Ha & _).
  rewrite eval_go in Hp. rewrite exec_go in He, Hal, Ha.
  rewrite exec_go. unfold VideoAnalyzer.pickVideo. rewrite go_catch, go_bind.
  destruct (go o (VideoAnalyzer.requestPermissions rt) w) as [w1 [e0 | b]];
    cbn [fst snd] in *; [ discriminate | ].
  injection Hp as ->. cbn [negb].
  repeat apply conj.
  - intros Hpick. go_all. rewrite Ha. repeat split;
      autorewrite with trace; cbn; rewrite ?app_nil_r, ?He, ?Hal; reflexivity.
  - intros e Hpick. go_all. rewrite Ha. repeat split;
      autorewrite with trace; cbn; rewrite ?app_nil_r, ?He, ?Hal; reflexivity.
  - intros r rest e Hpick Hprefix Hcopy. go_simpl. rewrite Hpick. go_simpl.
    rewrite Hprefix.
    match goal with
    | |- context [go o (VideoAnalyzer.copyContentUriToLocal rt ?x) ?w2] =>
        pose proof (Hcopy w2) as Hu;
        destruct (copyContentUriToLocal_result rt o x w2) as (Hc & _);
        destruct (copyContentUriToLocal_silent rt o x w2) as (Hce & Hca);
        rewrite eval_go in Hu; rewrite exec_go in Hc, Hce, Hca;
        destruct (go o (VideoAnalyzer.copyContentUriToLocal rt x) w2) as [w3 [e' | u']];
        cbn [fst snd] in *; [ | discriminate ]
    end.
    injection Hu as ->. go_simpl. rewrite Hc, Ha. cbn [app trace] in *.
    repeat split; autorewrite with trace; cbn;
      rewrite ?Hce, ?Hca; autorewrite with trace; cbn;
      rewrite ?app_nil_r, ?He, ?Hal; reflexivity.
Qed.

(** The picker is dismissed while a clip is playing. *)
Lemma X4_witness :
  let w := world_of playing [] in
  let w' := exec pick_cancelled (VideoAnalyzer.pickVideo demo_runtime) w in
  eval pick_cancelled (VideoAnalyzer.requestPermissions demo_runtime) w = inr true
  /\ app w' = playing
  /\ alerts (trace w') = [Alert_alert "Error" "Failed to pick video."].
Proof.
  intros w w'. split; [ reflexivity | ].
  destruct (X4_failed_pick_keeps_session demo_runtime pick_cancelled w eq_refl)
    as (_ & H & _).
  destruct (H (NativeError "user canceled") eq_refl) as (Ha & _ & Hal).
  split; [ exact Ha | exact Hal ].
Defined.

(** X5.  A pick that goes through selects the picked uri as it is, unless
    it is a [content://] uri: then the video is played from the copy,
    ["file://<cache>/input_video_temp.mp4"].  The status line names the
    picked file, and [isProcessing] is not part of the reset: it keeps
    the value it had. *)
Theorem X5_selected_source (rt : Runtime) (o : Oracle)
    (r : PickResult) (rest : list PickResult) (w : World VideoAnalyzer.State) :
  (forall w0, eval o (VideoAnalyzer.requestPermissions rt) w0 = inr true) ->
  o (DocumentPicker_pick "video/*") = Resolved (r :: rest) ->
  (String.prefix "content://" (pick_uri r) = true ->
   forall w0, exists u,
     eval o (VideoAnalyzer.copyContentUriToLocal rt (pick_uri r)) w0 = inr u) ->
  let st' := app (exec o (VideoAnalyzer.pickVideo rt) w) in
  VideoAnalyzer.videoUri st'
  = Some (if String.prefix "content://" (pick_uri r)
          then "file://" ++ Dirs_CacheDir rt ++ "/input_video_temp.mp4"
          else pick_uri r)
  /\ VideoAnalyzer.processingStatus st' = "Video selected: " ++ pick_name r
  /\ VideoAnalyzer.isProcessing st' = VideoAnalyzer.isProcessing (app w)
  /\ shown_label (VideoAnalyzer.audioClassification st') = Js.Str "Not processed"
  /\ shown_label (VideoAnalyzer.imageClassification st') = Js.Str "Not processed".
Proof.
  intros Hperm Hpick Hcopy st'. subst st'.
  rewrite (pickVideo_selects rt o r rest w Hperm Hpick Hcopy).
  repeat split.
Qed.

(** A [content://] uri from the photo picker is played from the cache. *)
Lemma X5_witness :
  let st' := app (exec content_ok (VideoAnalyzer.pickVideo demo_runtime)
                    (world_of VideoAnalyzer.initial [])) in
  content_ok (DocumentPicker_pick "video/*")
  = Resolved [{| pick_uri := "content://media/42"; pick_name := "clip.mp4" |}]
  /\ VideoAnalyzer.videoUri st' = Some "file:///data/cache/input_video_temp.mp4"
  /\ VideoAnalyzer.processingStatus st' = "Video selected: clip.mp4".
Proof.
  intros st'. split; [ reflexivity | ].
  destruct (X5_selected_source demo_runtime content_ok
              {| pick_uri := "content://media/42"; pick_name := "clip.mp4" |} []
              (world_of VideoAnalyzer.initial []))
    as (Hu & Hs & _).
  - intros w0. reflexivity.
  - reflexivity.
  - intros _ w0. eexists. reflexivity.
  - split; [ exact Hu | exact Hs ].
Defined.

(** ** What an extraction leaves behind *)

Lemma processVideoFrame_footprint (rt : Runtime) (o : Oracle) p
    (w : World VideoAnalyzer.State) :
  exists w2 v,
    go o (VideoAnalyzer.processVideoFrame rt p) w = (w2, inr tt)
    /\ (app w2 = app w \/ app w2 = VideoAnalyzer.setImageClassification v (app w)).
Proof.
  unfold VideoAnalyzer.processVideoFrame.
  go_all; eexists _, _; (split; [ reflexivity | ]);
    first [ left; reflexivity | right; reflexivity ].
  Unshelve. all: exact Js.Undefined.
Qed.

Lemma processAudioChunk_footprint (rt : Runtime) (o : Oracle) p
    (w : World VideoAnalyzer.State) :
  exists w2 v,
    go o (VideoAnalyzer.processAudioChunk rt p) w = (w2, inr tt)
    /\ (app w2 = app w \/ app w2 = VideoAnalyzer.setAudioClassification v (app w)).
Proof.
  unfold VideoAnalyzer.processAudioChunk.
  go_all; eexists _, _; (split; [ reflexivity | ]);
    first [ left; reflexivity | right; reflexivity ].
  Unshelve. all: exact Js.Undefined.
Qed.

(** X6.  An extraction touches nothing but its own label, the status line
    and the flag.  With a video selected and in every environment, a frame
    extraction leaves the selected video, both last-sampled times and the
    audio label as they were; an audio extraction leaves the image label
    as it was.  The flag is false at the end, and the status line is left
    at "Extracting ... at <t>s...": it is not cleared when the extraction
    ends, even when it succeeded. *)
Theorem X6_extraction_footprint (rt : Runtime) (o : Oracle) (t : Q)
    (uri : string) (w : World VideoAnalyzer.State) :
  VideoAnalyzer.videoUri (app w) = Some uri ->
  uri <> "" ->
  let sf := app (exec o (VideoAnalyzer.captureFrame rt t) w) in
  let sa := app (exec o (VideoAnalyzer.processAudioAtTime rt t) w) in
  (VideoAnalyzer.videoUri sf = Some uri
   /\ VideoAnalyzer.lastFrameTime sf = VideoAnalyzer.lastFrameTime (app w)
   /\ VideoAnalyzer.lastAudioTime sf = VideoAnalyzer.lastAudioTime (app w)
   /\ VideoAnalyzer.audioClassification sf = VideoAnalyzer.audioClassification (app w)
   /\ VideoAnalyzer.processingStatus sf
      = "Extracting frame at " ++ Number_toFixed rt t 1 ++ "s..."
   /\ VideoAnalyzer.isProcessing sf = false)
  /\ (VideoAnalyzer.videoUri sa = Some uri
      /\ VideoAnalyzer.lastFrameTime sa = VideoAnalyzer.lastFrameTime (app w)
      /\ VideoAnalyzer.lastAudioTime sa = VideoAnalyzer.lastAudioTime (app w)
      /\ VideoAnalyzer.imageClassification sa = VideoAnalyzer.imageClassification (app w)
      /\ VideoAnalyzer.processingStatus sa
         = "Extracting audio chunk at " ++ Number_toFixed rt t 1 ++ "s..."
      /\ VideoAnalyzer.isProcessing sa = false).
Proof.
  intros H Hne sf sa. subst sf sa. split.
  - unfold VideoAnalyzer.captureFrame. enter_extraction H Hne uri.
    rewrite go_createSubdirectories.
    go_all;
      try (match goal with
           | |- context [go o (VideoAnalyzer.processVideoFrame rt ?p) ?w1] =>
               destruct (processVideoFrame_footprint rt o p w1)
                 as (w2 & v & -> & [Hs | Hs])
           end; go_simpl; rewrite Hs);
      cbn; rewrite ?H; repeat split.
  - unfold VideoAnalyzer.processAudioAtTime. enter_extraction H Hne uri.
    rewrite go_createSubdirectories.
    go_all;
      try (match goal with
           | |- context [go o (VideoAnalyzer.processAudioChunk rt ?p) ?w1] =>
               destruct (processAudioChunk_footprint rt o p w1)
                 as (w2 & v & -> & [Hs | Hs])
           end; go_simpl; rewrite Hs);
      cbn; rewrite ?H; repeat split.
Qed.

(** A frame is cut and uploaded at 2.5 s: the status line still says
    "Extracting". *)
Lemma X6_witness :
  let sf := app (exec all_ok (VideoAnalyzer.captureFrame demo_runtime (5 # 2))
                   (world_of playing [])) in
  VideoAnalyzer.videoUri (app (world_of playing [])) = Some "file:///sdcard/clip.mp4"
  /\ VideoAnalyzer.processingStatus sf = "Extracting frame at 2.5s..."
  /\ VideoAnalyzer.audioClassification sf = Js.Str "speech"
  /\ VideoAnalyzer.isProcessing sf = false.
Proof.
  intros sf. split; [ reflexivity | ].
  assert (Hne : "file:///sdcard/clip.mp4" <> "") by discriminate.
  destruct (X6_extraction_footprint demo_runtime all_ok (5 # 2)
              "file:///sdcard/clip.mp4" (world_of playing []) eq_refl Hne)
    as ((_ & _ & _ & Ha & Hs & Hp) & _).
  split; [ exact Hs | ]. split; [ exact Ha | exact Hp ].
Defined.

(** ** Sequences of progress events *)

Lemma frame_times_app l1 l2 :
  frame_times (l1 ++ l2) = (frame_times l1 ++ frame_times l2)%list.
Proof. apply flat_map_app. Qed.

Lemma audio_times_app l1 l2 :
  audio_times (l1 ++ l2) = (audio_times l1 ++ audio_times l2)%list.
Proof. apply flat_map_app. Qed.

Lemma spaced_snoc gap l t :
  spaced gap l -> (forall x, In x l -> x + gap <= t)%Q -> spaced gap (l ++ [t]).
Proof.
  induction l as [| x l IH]; simpl; intros Hs Hall.
  - split; [ intros y [] | exact I ].
  - destruct Hs as (Hx & Hl). split.
    + intros y Hy. apply in_app_iff in Hy. destruct Hy as [Hy | [<- | []]].
      * apply Hx, Hy.
      * apply Hall. left. reflexivity.
    + apply IH; [ exact Hl | ]. intros z Hz. apply Hall. right. exact Hz.
Qed.

Lemma spaced_floor l : spaced 1 l -> increasing (map Qfloor l).
Proof.
  induction l as [| x l IH]; simpl; [ trivial | ].
  intros (Hx & Hl). split; [ | exact (IH Hl) ].
  intros y Hy. apply in_map_iff in Hy. destruct Hy as (q & <- & Hq).
  specialize (Hx q Hq).
  assert (H1 : (inject_Z (Qfloor x + 1) <= q)%Q).
  { rewrite inject_Z_plus. pose proof (Qfloor_le x) as Hf.
    change (inject_Z 1) with 1%Q. lra. }
  apply Qfloor_resp_le in H1. rewrite Qfloor_Z in H1. lia.
Qed.

Section Cadence.

Import VideoAnalyzer.

Variable rt : Runtime.
Variable uri : string.
Hypothesis uri_selected : uri <> "".

Lemma cadence_step t (s : System) :
  cadence uri s ->
  cadence uri (onVideoProgress rt t s)
  /\ (lastFrameTime (app (world s)) <= lastFrameTime (app (world (onVideoProgress rt t s))))%Q
  /\ (lastAudioTime (app (world s)) <= lastAudioTime (app (world (onVideoProgress rt t s))))%Q.
Proof.
  intros (Hu & Hsf & Hbf & Hsa & Hba).
  destruct (onVideoProgress_effect rt uri t s Hu uri_selected)
    as (Hin & Hlf & Hla & _ & Huri).
  cbn zeta in *.
  pose proof (due_iff t (lastFrameTime (app (world s))) 1) as Df.
  pose proof (due_iff t (lastAudioTime (app (world s))) (5 # 2)) as Da.
  unfold cadence. rewrite Hin, Hlf, Hla, Huri.
  rewrite !frame_times_app, !audio_times_app.
  destruct (due t (lastFrameTime (app (world s))) 1) eqn:Ef;
    destruct (due t (lastAudioTime (app (world s))) (5 # 2)) eqn:Ea;
    cbn [frame_times audio_times flat_map List.app]; rewrite ?app_nil_r;
    try (assert (Hf : (1 <= t - lastFrameTime (app (world s)))%Q)
           by (apply Df; reflexivity));
    try (assert (Ha : (5 # 2 <= t - lastAudioTime (app (world s)))%Q)
           by (apply Da; reflexivity));
    repeat apply conj; try assumption; try apply Qle_refl; try lra;
    try (apply spaced_snoc; [ assumption | ]; intros x Hx;
         first [ specialize (Hbf x Hx) | specialize (Hba x Hx) ]; lra);
    try (intros x Hx; apply in_app_iff in Hx; destruct Hx as [Hx | [<- | []]];
         [ first [ specialize (Hbf x Hx); lra | specialize (Hba x Hx); lra ]
         | apply Qle_refl ]).
Qed.

Lemma cadence_events ts : forall s : System,
  cadence uri s ->
  cadence uri (progress_events rt ts s)
  /\ (lastFrameTime (app (world s)) <= lastFrameTime (app (world (progress_events rt ts s))))%Q
  /\ (lastAudioTime (app (world s)) <= lastAudioTime (app (world (progress_events rt ts s))))%Q.
Proof.
  induction ts as [| t ts IH]; intros s Hc; simpl.
  - repeat split; try apply Qle_refl; apply Hc.
  - destruct (cadence_step t s Hc) as (Hc1 & Hf1 & Ha1).
    destruct (IH _ Hc1) as (Hc2 & Hf2 & Ha2).
    unfold progress_events in *. split; [ exact Hc2 | split; lra ].
Qed.

End Cadence.

(** X7.  Whatever progress events a playing session receives, in whatever
    order (playback, pauses, seeks forward or back), the frame extractions
    it starts are at least 1 second of media time apart and the audio
    extractions at least 2.5 seconds apart, and [lastFrameTime] and
    [lastAudioTime] never decrease.  After a seek backwards nothing is
    sampled until playback has passed the last sample again. *)
Theorem X7_samples_are_spaced (rt : Runtime) (uri : string) (ts : list Q)
    (s : VideoAnalyzer.System) :
  VideoAnalyzer.videoUri (app (world s)) = Some uri ->
  uri <> "" ->
  in_flight s = [] ->
  let s' := progress_events rt ts s in
  spaced 1 (frame_times (in_flight s'))
  /\ spaced (5 # 2) (audio_times (in_flight s'))
  /\ (VideoAnalyzer.lastFrameTime (app (world s))
      <= VideoAnalyzer.lastFrameTime (app (world s')))%Q
  /\ (VideoAnalyzer.lastAudioTime (app (world s))
      <= VideoAnalyzer.lastAudioTime (app (world s')))%Q
  /\ (forall x, In x (frame_times (in_flight s')) ->
        x <= VideoAnalyzer.lastFrameTime (app (world s')))%Q
  /\ (forall t, (t < VideoAnalyzer.lastFrameTime (app (world s')) + 1)%Q ->
        frame_times (in_flight (VideoAnalyzer.onVideoProgress rt t s'))
        = frame_times (in_flight s')).
Proof.
  intros Hu Hne Hnone s'.
  assert (Hc : cadence uri s).
  { unfold cadence. rewrite Hnone. cbn. repeat split; try assumption; intros x []. }
  destruct (cadence_events rt uri Hne ts s Hc) as ((Hu' & Hsf & Hbf & Hsa & _) & Hf & Ha).
  fold s' in Hu', Hsf, Hbf, Hsa, Hf, Ha.
  repeat apply conj; try assumption.
  intros t Ht.
  destruct (onVideoProgress_effect rt uri t s' Hu' Hne) as (Hin & _).
  cbn zeta in Hin. rewrite Hin, !frame_times_app.
  assert (Hd : VideoAnalyzer.due t (VideoAnalyzer.lastFrameTime (app (world s'))) 1 = false)
    by (apply due_false_iff; lra).
  rewrite Hd. destruct (VideoAnalyzer.due t _ (5 # 2)); cbn; rewrite app_nil_r; reflexivity.
Qed.

(** Playback to 3.2 s, a seek back to 1 s, and on: frames at 1, 2.1, 3.2
    and, once playback is past 4.2 again, at 4.3. *)
Lemma X7_witness :
  let s' := progress_events demo_runtime
              [1; 21 # 10; 32 # 10; 1; 2; 3; 41 # 10; 43 # 10]
              (system_of playing) in
  VideoAnalyzer.videoUri (app (world (system_of playing : VideoAnalyzer.System)))
  = Some "file:///sdcard/clip.mp4"
  /\ frame_times (in_flight s') = [1; 21 # 10; 32 # 10; 43 # 10]
  /\ spaced 1 (frame_times (in_flight s')).
Proof.
  intros s'. split; [ reflexivity | ]. split; [ reflexivity | ].
  assert (Hne : "file:///sdcard/clip.mp4" <> "") by discriminate.
  exact (proj1 (X7_samples_are_spaced demo_runtime "file:///sdcard/clip.mp4"
                  [1; 21 # 10; 32 # 10; 1; 2; 3; 41 # 10; 43 # 10]
                  (system_of playing) eq_refl Hne eq_refl)).
Defined.

(** X8.  The scratch files of a session's frames never collide: the
    numbers [Math.floor(t)] that name the frames started by any sequence
    of progress events are strictly increasing, hence pairwise distinct,
    and so are the numbers that name its audio chunks. *)
Theorem X8_frame_numbers_distinct (rt : Runtime) (uri : string) (ts : list Q)
    (s : VideoAnalyzer.System) :
  VideoAnalyzer.videoUri (app (world s)) = Some uri ->
  uri <> "" ->
  in_flight s = [] ->
  let started := in_flight (progress_events rt ts s) in
  increasing (map Qfloor (frame_times started))
  /\ increasing (map Qfloor (audio_times started))
  /\ NoDup (map Math_floor (frame_times started))
  /\ NoDup (map Math_floor (audio_times started)).
Proof.
  intros Hu Hne Hnone started.
  assert (Hc : cadence uri s).
  { unfold cadence. rewrite Hnone. cbn. repeat split; try assumption; intros x []. }
  destruct (cadence_events rt uri Hne ts s Hc) as ((_ & Hsf & _ & Hsa & _) & _).
  fold started in Hsf, Hsa.
  assert (Hweak : forall l, spaced (5 # 2) l -> spaced 1 l).
  { induction l as [| x l IH]; simpl; [ trivial | ].
    intros (Hx & Hl). split; [ | exact (IH Hl) ].
    intros y Hy. specialize (Hx y Hy). lra. }
  assert (Hnd : forall l, increasing (map Qfloor l) -> NoDup (map Math_floor l)).
  { induction l as [| x l IH]; simpl; [ constructor | ].
    intros (Hx & Hl). constructor; [ | exact (IH Hl) ].
    intros Hin. apply in_map_iff in Hin. destruct Hin as (y & Hy & Hyl).
    unfold Math_floor in Hy. injection Hy as Hy.
    specialize (Hx (Qfloor y) (in_map Qfloor l y Hyl)). lia. }
  pose proof (spaced_floor _ Hsf) as Hf.
  pose proof (spaced_floor _ (Hweak _ Hsa)) as Ha.
  repeat apply conj; auto.
Qed.

(** The frames at 1, 2.1, 3.2 and 4.3 s are numbered 1, 2, 3 and 4. *)
Lemma X8_witness :
  let started := in_flight (progress_events demo_runtime
                              [1; 21 # 10; 32 # 10; 1; 2; 3; 41 # 10; 43 # 10]
                              (system_of playing)) in
  in_flight (system_of playing : VideoAnalyzer.System) = []
  /\ map Qfloor (frame_times started) = [1; 2; 3; 4]%Z
  /\ increasing (map Qfloor (frame_times started)).
Proof.
  intros started. split; [ reflexivity | ]. split; [ reflexivity | ].
  assert (Hne : "file:///sdcard/clip.mp4" <> "") by discriminate.
  exact (proj1 (X8_frame_numbers_distinct demo_runtime "file:///sdcard/clip.mp4"
                  [1; 21 # 10; 32 # 10; 1; 2; 3; 41 # 10; 43 # 10]
                  (system_of playing) eq_refl Hne eq_refl)).
Defined.

(** ** Labels *)

Lemma or_fallback_truthy c :
  Js.truthy (Js.or c (Js.Str "No classification")) = true.
Proof. unfold Js.or. destruct (Js.truthy c) eqn:E; [ exact E | reflexivity ]. Qed.

Lemma get_of_value v key :
  v <> Js.Null -> v <> Js.Undefined ->
  exists c, Js.get v key = inr c
            /\ ((forall fields, v <> Js.Object fields) -> c = Js.Undefined)
            /\ (forall fields, v = Js.Object fields -> c = Js.lookup key fields).
Proof.
  intros Hn Hu. destruct v; try contradiction; eexists; (split; [ reflexivity | ]);
    split; try reflexivity; try (intros fs Hfs; discriminate Hfs).
  - intros H. exfalso. exact (H fields eq_refl).
  - intros fs Hfs. injection Hfs as <-. reflexivity.
Qed.

(** X9.  In the video analyzer and the manual uploaders a label is never
    left empty by an answered upload.  When the response body parses to a
    value other than null, the new label is truthy, so the screen shows it
    and not the placeholder "Not processed"; it is "No classification"
    whenever the body is not an object (an array, a number, a string, a
    boolean) or is an object without the expected key ([classification],
    [predicted_class], [emotion]). *)
Theorem X9_answered_upload_sets_a_label (rt : Runtime) (o : Oracle)
    (r : Response) (v : Js.Value) :
  o response_json = Resolved v ->
  v <> Js.Null ->
  v <> Js.Undefined ->
  let missing key :=
    (forall fields, v <> Js.Object fields)
    \/ (exists fields, v = Js.Object fields /\ Js.lookup key fields = Js.Undefined) in
  (forall p w,
      o (frame_upload rt p) = Resolved r ->
      let l := VideoAnalyzer.imageClassification
                 (app (exec o (VideoAnalyzer.processVideoFrame rt p) w)) in
      Js.truthy l = true /\ shown_label l = l
      /\ (missing "classification" -> l = Js.Str "No classification"))
  /\ (forall p w,
      o (chunk_upload rt p) = Resolved r ->
      let l := VideoAnalyzer.audioClassification
                 (app (exec o (VideoAnalyzer.processAudioChunk rt p) w)) in
      Js.truthy l = true /\ shown_label l = l
      /\ (missing "classification" -> l = Js.Str "No classification"))
  /\ (forall uri w,
      o (image_upload rt uri) = Resolved r ->
      let l := MediaAnalyzer.imageClassification
                 (app (exec o (MediaAnalyzer.uploadImage rt uri) w)) in
      Js.truthy l = true /\ shown_label l = l
      /\ (missing "predicted_class" -> l = Js.Str "No classification"))
  /\ (forall uri w,
      o (audio_upload rt uri) = Resolved r ->
      let l := MediaAnalyzer.audioClassification
                 (app (exec o (MediaAnalyzer.uploadAudio rt uri) w)) in
      Js.truthy l = true /\ shown_label l = l
      /\ (missing "emotion" -> l = Js.Str "No classification")).
Proof.
  intros Hv Hn Hu missing.
  assert (Hlabel : forall key c,
             Js.get v key = inr c ->
             let l := Js.or c (Js.Str "No classification") in
             Js.truthy l = true /\ shown_label l = l
             /\ (missing key -> l = Js.Str "No classification")).
  { intros key c Hc l. pose proof (or_fallback_truthy c) as Ht. fold l in Ht.
    split; [ exact Ht | ]. split.
    - unfold shown_label, Js.or at 1. rewrite Ht. reflexivity.
    - destruct (get_of_value v key Hn Hu) as (c' & Hc' & Hno & Hobj).
      rewrite Hc in Hc'. injection Hc' as <-.
      intros [Hm | (fields & Hf & Hl)].
      + unfold l. rewrite (Hno Hm). reflexivity.
      + unfold l. rewrite (Hobj fields Hf), Hl. reflexivity. }
  repeat apply conj.
  - intros p w Hr. destruct (get_of_value v "classification" Hn Hu) as (c & Hc & _).
    cbn zeta. rewrite (proj1 (processVideoFrame_parsed rt o p w r v c Hr Hv Hc)).
    exact (Hlabel _ c Hc).
  - intros p w Hr. destruct (get_of_value v "classification" Hn Hu) as (c & Hc & _).
    cbn zeta. rewrite (proj1 (processAudioChunk_parsed rt o p w r v c Hr Hv Hc)).
    exact (Hlabel _ c Hc).
  - intros uri w Hr. destruct (get_of_value v "predicted_class" Hn Hu) as (c & Hc & _).
    cbn zeta. rewrite (proj1 (uploadImage_parsed rt o uri w r v c Hr Hv Hc)).
    exact (Hlabel _ c Hc).
  - intros uri w Hr. destruct (get_of_value v "emotion" Hn Hu) as (c & Hc & _).
    cbn zeta. rewrite (proj1 (uploadAudio_parsed rt o uri w r v c Hr Hv Hc)).
    exact (Hlabel _ c Hc).
Qed.

(** The backend answers a frame with an error object: the screen shows
    "No classification". *)
Lemma X9_witness :
  let l := VideoAnalyzer.imageClassification
             (app (exec http_500_json
                     (VideoAnalyzer.processVideoFrame demo_runtime "/f.jpg")
                     (world_of playing []))) in
  http_500_json response_json
  = Resolved (Js.Object [("detail", Js.Str "Internal Server Error")])
  /\ Js.truthy l = true
  /\ l = Js.Str "No classification".
Proof.
  intros l. split; [ reflexivity | ].
  destruct (X9_answered_upload_sets_a_label demo_runtime http_500_json
              {| http_status := 500 |}
              (Js.Object [("detail", Js.Str "Internal Server Error")]) eq_refl)
    as (H & _); try discriminate.
  destruct (H "/f.jpg" (world_of playing []) eq_refl) as (Ht & _ & Hm).
  split; [ exact Ht | ].
  apply Hm. right. eexists. split; reflexivity.
Defined.

(** ** The manual uploaders *)

Lemma uploadImage_footprint (rt : Runtime) (o : Oracle) uri
    (w : World MediaAnalyzer.State) :
  let w' := exec o (MediaAnalyzer.uploadImage rt uri) w in
  eval o (MediaAnalyzer.uploadImage rt uri) w = inr tt
  /\ MediaAnalyzer.isProcessing (app w') = false
  /\ MediaAnalyzer.audioClassification (app w') = MediaAnalyzer.audioClassification (app w)
  /\ uploads (trace w') = (uploads (trace w) ++ [image_upload rt uri])%list
  /\ ((MediaAnalyzer.processingStatus (app w') = "Image classification complete."
       /\ alerts (trace w') = alerts (trace w))
      \/ (MediaAnalyzer.processingStatus (app w') = MediaAnalyzer.processingStatus (app w)
          /\ MediaAnalyzer.imageClassification (app w')
             = MediaAnalyzer.imageClassification (app w)
          /\ alerts (trace w')
             = (alerts (trace w) ++ [Alert_alert "Error" "Failed to upload image."])%list)).
Proof.
  unfold MediaAnalyzer.uploadImage, image_upload.
  go_all; (split; [ reflexivity | ]); (split; [ reflexivity | ]);
    (split; [ reflexivity | ]); (split; [ trace_done | ]);
    first [ left; split; [ reflexivity | trace_done ]
          | right; split; [ reflexivity | split; [ reflexivity | trace_done ] ] ].
Qed.

Lemma uploadAudio_footprint (rt : Runtime) (o : Oracle) uri
    (w : World MediaAnalyzer.State) :
  let w' := exec o (MediaAnalyzer.uploadAudio rt uri) w in
  eval o (MediaAnalyzer.uploadAudio rt uri) w = inr tt
  /\ MediaAnalyzer.isProcessing (app w') = false
  /\ MediaAnalyzer.imageClassification (app w') = MediaAnalyzer.imageClassification (app w)
  /\ uploads (trace w') = (uploads (trace w) ++ [audio_upload rt uri])%list
  /\ ((MediaAnalyzer.processingStatus (app w') = "Audio classification complete."
       /\ alerts (trace w') = alerts (trace w))
      \/ (MediaAnalyzer.processingStatus (app w') = MediaAnalyzer.processingStatus (app w)
          /\ MediaAnalyzer.audioClassification (app w')
             = MediaAnalyzer.audioClassification (app w)
          /\ alerts (trace w')
             = (alerts (trace w) ++ [Alert_alert "Error" "Failed to upload audio."])%list)).
Proof.
  unfold MediaAnalyzer.uploadAudio, audio_upload.
  go_all; (split; [ reflexivity | ]); (split; [ reflexivity | ]);
    (split; [ reflexivity | ]); (split; [ trace_done | ]);
    first [ left; split; [ reflexivity | trace_done ]
          | right; split; [ reflexivity | split; [ reflexivity | trace_done ] ] ].
Qed.

(** X10.  A manual upload always ends with the buttons enabled again and
    never touches the other modality: in every environment [uploadImage]
    sends exactly one request, leaves [isProcessing] false and the audio
    label as it was, and either completes (status "Image classification
    complete.", no alert) or fails (status and image label unchanged, one
    alert "Failed to upload image."); likewise [uploadAudio] with the
    roles of the labels exchanged.  The flag is cleared also when other
    handlers run between the awaits. *)
Theorem X10_manual_upload_footprint (rt : Runtime) (o : Oracle) (uri : string)
    (w : World MediaAnalyzer.State) :
  let wi := exec o (MediaAnalyzer.uploadImage rt uri) w in
  let wa := exec o (MediaAnalyzer.uploadAudio rt uri) w in
  (MediaAnalyzer.isProcessing (app wi) = false
   /\ MediaAnalyzer.audioClassification (app wi) = MediaAnalyzer.audioClassification (app w)
   /\ uploads (trace wi) = (uploads (trace w) ++ [image_upload rt uri])%list
   /\ ((MediaAnalyzer.processingStatus (app wi) = "Image classification complete."
        /\ alerts (trace wi) = alerts (trace w))
       \/ (MediaAnalyzer.processingStatus (app wi) = MediaAnalyzer.processingStatus (app w)
           /\ MediaAnalyzer.imageClassification (app wi)
              = MediaAnalyzer.imageClassification (app w)
           /\ alerts (trace wi)
              = (alerts (trace w) ++ [Alert_alert "Error" "Failed to upload image."])%list)))
  /\ (MediaAnalyzer.isProcessing (app wa) = false
      /\ MediaAnalyzer.imageClassification (app wa)
         = MediaAnalyzer.imageClassification (app w)
      /\ uploads (trace wa) = (uploads (trace w) ++ [audio_upload rt uri])%list
      /\ ((MediaAnalyzer.processingStatus (app wa) = "Audio classification complete."
           /\ alerts (trace wa) = alerts (trace w))
          \/ (MediaAnalyzer.processingStatus (app wa) = MediaAnalyzer.processingStatus (app w)
              /\ MediaAnalyzer.audioClassification (app wa)
                 = MediaAnalyzer.audioClassification (app w)
              /\ alerts (trace wa)
                 = (alerts (trace w) ++ [Alert_alert "Error" "Failed to upload audio."])%list)))
  /\ (forall others,
        MediaAnalyzer.isProcessing
          (app (fst (run_among o others (MediaAnalyzer.uploadImage rt uri w)))) = false
        /\ MediaAnalyzer.isProcessing
             (app (fst (run_among o others (MediaAnalyzer.uploadAudio rt uri w)))) = false).
Proof.
  cbn zeta. split; [ | split ].
  - exact (proj2 (uploadImage_footprint rt o uri w)).
  - exact (proj2 (uploadAudio_footprint rt o uri w)).
  - intros others. split.
    + unfold MediaAnalyzer.uploadImage, try_finally.
      match goal with
      | |- context [run_among o others ?r] =>
          destruct (run_among o others r) as [w' res] eqn:Hrun
      end.
      apply run_among_finallyR in Hrun.
      * destruct Hrun as [w0 H0]. injection H0 as <-. reflexivity.
      * intros w1. eexists. reflexivity.
    + unfold MediaAnalyzer.uploadAudio, try_finally.
      match goal with
      | |- context [run_among o others ?r] =>
          destruct (run_among o others r) as [w' res] eqn:Hrun
      end.
      apply run_among_finallyR in Hrun.
      * destruct Hrun as [w0 H0]. injection H0 as <-. reflexivity.
      * intros w1. eexists. reflexivity.
Qed.

Lemma media_requestPermissions_true_quiet (rt : Runtime) (o : Oracle) mediaType
    (w : World MediaAnalyzer.State) :
  eval o (MediaAnalyzer.requestPermissions rt mediaType) w = inr true ->
  let w1 := exec o (MediaAnalyzer.requestPermissions rt mediaType) w in
  app w1 = app w
  /\ alerts (trace w1) = alerts (trace w)
  /\ uploads (trace w1) = uploads (trace w).
Proof.
  cbn zeta. rewrite eval_go, exec_go.
  unfold MediaAnalyzer.requestPermissions, MediaAnalyzer.openAppSettings.
  destruct (is_android rt); cbn [negb]; [ | go_all; intros _; repeat split ].
  destruct (33 <=? Platform_Version rt)%Z; go_all; try split_status; go_all;
    cbn [fst snd is_granted]; intros Ht; try discriminate;
    (split; [ reflexivity | split; trace_done ]).
Qed.

(** X11.  Picking an image by hand, with permission confirmed.  When the
    picker returns no file nothing happens; when it rejects, the alert
    "Failed to pick image." is shown and nothing is uploaded.  When it
    returns a file, exactly that file's uri is uploaded, once, and the
    buttons are enabled again at the end; a failing upload shows the one
    alert "Failed to upload image." (not the picking alert), keeps the
    image label and leaves the status line at "Uploading image: <name>".
    The audio label is never touched. *)
Theorem X11_manual_image_pick (rt : Runtime) (o : Oracle)
    (w : World MediaAnalyzer.State) :
  eval o (MediaAnalyzer.requestPermissions rt MediaAnalyzer.image) w = inr true ->
  let w' := exec o (MediaAnalyzer.pickImage rt) w in
  (o (DocumentPicker_pick "image/*") = Resolved [] ->
     app w' = app w
     /\ alerts (trace w') = alerts (trace w)
     /\ uploads (trace w') = uploads (trace w))
  /\ (forall e,
        o (DocumentPicker_pick "image/*") = Rejected e ->
        app w' = app w
        /\ alerts (trace w')
           = (alerts (trace w) ++ [Alert_alert "Error" "Failed to pick image."])%list
        /\ uploads (trace w') = uploads (trace w))
  /\ (forall r rest,
        o (DocumentPicker_pick "image/*") = Resolved (r :: rest) ->
        uploads (trace w') = (uploads (trace w) ++ [image_upload rt (pick_uri r)])%list
        /\ MediaAnalyzer.isProcessing (app w') = false
        /\ MediaAnalyzer.audioClassification (app w')
           = MediaAnalyzer.audioClassification (app w)
        /\ ((MediaAnalyzer.processingStatus (app w') = "Image classification complete."
             /\ alerts (trace w') = alerts (trace w))
            \/ (MediaAnalyzer.processingStatus (app w') = "Uploading image: " ++ pick_name r
                /\ MediaAnalyzer.imageClassification (app w')
                   = MediaAnalyzer.imageClassification (app w)
                /\ alerts (trace w')
                   = (alerts (trace w)
                      ++ [Alert_alert "Error" "Failed to upload image."])%list))).
Proof.
  intros Hp w'. subst w'.
  destruct (media_requestPermissions_true_quiet rt o MediaAnalyzer.image w Hp)
    as (Ha & Hal & Hup).
  rewrite eval_go in Hp. rewrite exec_go in Ha, Hal, Hup.
  rewrite exec_go. unfold MediaAnalyzer.pickImage. rewrite go_catch, go_bind.
  destruct (go o (MediaAnalyzer.requestPermissions rt MediaAnalyzer.image) w)
    as [w1 [e0 | b]]; cbn [fst snd] in *; [ discriminate | ].
  injection Hp as ->. cbn [negb].
  repeat apply conj.
  - intros Hpick. go_all. rewrite Ha. repeat split;
      autorewrite with trace; cbn; rewrite ?app_nil_r, ?Hal, ?Hup; reflexivity.
  - intros e Hpick. go_all. rewrite Ha. repeat split;
      autorewrite with trace; cbn; rewrite ?app_nil_r, ?Hal, ?Hup; reflexivity.
  - intros r rest Hpick. go_simpl. rewrite Hpick. go_simpl.
    match goal with
    | |- context [go o (MediaAnalyzer.uploadImage rt ?u) ?w2] =>
        pose proof (uploadImage_footprint rt o u w2) as Hfoot; cbn zeta in Hfoot;
        rewrite eval_go, exec_go in Hfoot;
        destruct (go o (MediaAnalyzer.uploadImage rt u) w2) as [w3 res];
        cbn [fst snd app trace] in Hfoot;
        destruct Hfoot as (-> & Hflag & Haud & Hu & Hcase)
    end.
    cbn [fst snd]. rewrite Hflag, Haud, Hu. cbn [app trace].
    autorewrite with trace in *. cbn in Hcase |- *.
    rewrite ?app_nil_r in *. rewrite Ha, Hup.
    repeat split.
    destruct Hcase as [(Hs & Hl) | (Hs & Hi & Hl)].
    + left. rewrite Hs, Hl, Hal. split; reflexivity.
    + right. rewrite Hs, Hi, Hl, Hal, Ha. repeat split.
Qed.

(** The backend is down when an image is picked. *)
Lemma X11_witness :
  let w := world_of MediaAnalyzer.initial [] in
  let w' := exec network_down (MediaAnalyzer.pickImage demo_runtime) w in
  eval network_down (MediaAnalyzer.requestPermissions demo_runtime MediaAnalyzer.image) w
  = inr true
  /\ uploads (trace w') = [image_upload demo_runtime "file:///sdcard/clip.mp4"]
  /\ alerts (trace w') = [Alert_alert "Error" "Failed to upload image."]
  /\ MediaAnalyzer.processingStatus (app w') = "Uploading image: clip.mp4".
Proof.
  intros w w'. split; [ reflexivity | ].
  destruct (X11_manual_image_pick demo_runtime network_down w eq_refl) as (_ & _ & H).
  destruct (H {| pick_uri := "file:///sdcard/clip.mp4"; pick_name := "clip.mp4" |} []
              eq_refl) as (Hu & _ & _ & _).
  split; [ exact Hu | ]. split; reflexivity.
Defined.

(** X12.  Picking an audio file by hand, with permission confirmed.  When the
    picker returns no file nothing happens; when it rejects, the alert
    "Failed to pick audio." is shown and nothing is uploaded.  When it
    returns a file, exactly that file's uri is uploaded, once, and the
    buttons are enabled again at the end; a failing upload shows the one
    alert "Failed to upload audio." (not the picking alert), keeps the
    audio label and leaves the status line at "Uploading audio: <name>".
    The image label is never touched. *)
Theorem X12_manual_audio_pick (rt : Runtime) (o : Oracle)
    (w : World MediaAnalyzer.State) :
  eval o (MediaAnalyzer.requestPermissions rt MediaAnalyzer.audio) w = inr true ->
  let w' := exec o (MediaAnalyzer.pickAudio rt) w in
  (o (DocumentPicker_pick "audio/*") = Resolved [] ->
     app w' = app w
     /\ alerts (trace w') = alerts (trace w)
     /\ uploads (trace w') = uploads (trace w))
  /\ (forall e,
        o (DocumentPicker_pick "audio/*") = Rejected e ->
        app w' = app w
        /\ alerts (trace w')
           = (alerts (trace w) ++ [Alert_alert "Error" "Failed to pick audio."])%list
        /\ uploads (trace w') = uploads (trace w))
  /\ (forall r rest,
        o (DocumentPicker_pick "audio/*") = Resolved (r :: rest) ->
        uploads (trace w') = (uploads (trace w) ++ [audio_upload rt (pick_uri r)])%list
        /\ MediaAnalyzer.isProcessing (app w') = false
        /\ MediaAnalyzer.imageClassification (app w')
           = MediaAnalyzer.imageClassification (app w)
        /\ ((MediaAnalyzer.processingStatus (app w') = "Audio classification complete."
             /\ alerts (trace w') = alerts (trace w))
            \/ (MediaAnalyzer.processingStatus (app w') = "Uploading audio: " ++ pick_name r
                /\ MediaAnalyzer.audioClassification (app w')
                   = MediaAnalyzer.audioClassification (app w)
                /\ alerts (trace w')
                   = (alerts (trace w)
                      ++ [Alert_alert "Error" "Failed to upload audio."])%list))).
Proof.
  intros Hp w'. subst w'.
  destruct (media_requestPermissions_true_quiet rt o MediaAnalyzer.audio w Hp)
    as (Ha & Hal & Hup).
  rewrite eval_go in Hp. rewrite exec_go in Ha, Hal, Hup.
  rewrite exec_go. unfold MediaAnalyzer.pickAudio. rewrite go_catch, go_bind.
  destruct (go o (MediaAnalyzer.requestPermissions rt MediaAnalyzer.audio) w)
    as [w1 [e0 | b]]; cbn [fst snd] in *; [ discriminate | ].
  injection Hp as ->. cbn [negb].
  repeat apply conj.
  - intros Hpick. go_all. rewrite Ha. repeat split;
      autorewrite with trace; cbn; rewrite ?app_nil_r, ?Hal, ?Hup; reflexivity.
  - intros e Hpick. go_all. rewrite Ha. repeat split;
      autorewrite with trace; cbn; rewrite ?app_nil_r, ?Hal, ?Hup; reflexivity.
  - intros r rest Hpick. go_simpl. rewrite Hpick. go_simpl.
    match goal with
    | |- context [go o (MediaAnalyzer.uploadAudio rt ?u) ?w2] =>
        pose proof (uploadAudio_footprint rt o u w2) as Hfoot; cbn zeta in Hfoot;
        rewrite eval_go, exec_go in Hfoot;
        destruct (go o (MediaAnalyzer.uploadAudio rt u) w2) as [w3 res];
        cbn [fst snd app trace] in Hfoot;
        destruct Hfoot as (-> & Hflag & Haud & Hu & Hcase)
    end.
    cbn [fst snd]. rewrite Hflag, Haud, Hu. cbn [app trace].
    autorewrite with trace in *. cbn in Hcase |- *.
    rewrite ?app_nil_r in *. rewrite Ha, Hup.
    repeat split.
    destruct Hcase as [(Hs & Hl) | (Hs & Hi & Hl)].
    + left. rewrite Hs, Hl, Hal. split; reflexivity.
    + right. rewrite Hs, Hi, Hl, Hal, Ha. repeat split.
Qed.

(** An audio file is picked and the backend names an emotion. *)
Lemma X12_witness :
  let w := world_of MediaAnalyzer.initial [] in
  let w' := exec all_ok (MediaAnalyzer.pickAudio demo_runtime) w in
  eval all_ok (MediaAnalyzer.requestPermissions demo_runtime MediaAnalyzer.audio) w
  = inr true
  /\ uploads (trace w') = [audio_upload demo_runtime "file:///sdcard/clip.mp4"]
  /\ MediaAnalyzer.isProcessing (app w') = false
  /\ MediaAnalyzer.audioClassification (app w') = Js.Str "calm".
Proof.
  intros w w'. split; [ reflexivity | ].
  destruct (X12_manual_audio_pick demo_runtime all_ok w eq_refl) as (_ & _ & H).
  destruct (H {| pick_uri := "file:///sdcard/clip.mp4"; pick_name := "clip.mp4" |} []
              eq_refl) as (Hu & Hf & _ & _).
  split; [ exact Hu | ]. split; [ exact Hf | reflexivity ].
Defined.

(** ** The recorder of the live camera *)

Section RecorderFacts.

Import LiveCamera.

Variable o : Oracle.

Lemma stopRecording_rejected e (w : World State) :
  isRecording (app w) = true -> o AudioRecord_stop = Rejected e ->
  go o stopRecording w =
  (say [Called AudioRecord_stop; console_error "Error stopping recording:" [LErr e]] w,
   inr None).
Proof.
  intros H He. unfold stopRecording. go_simpl. rewrite H. go_all.
  unfold say. cbn [app trace files]. rewrite <- app_assoc. reflexivity.
Qed.

Lemma stopRecording_resolved f (w : World State) :
  isRecording (app w) = true -> o AudioRecord_stop = Resolved f ->
  go o stopRecording w =
  ({| app := set_isRecording false (app w);
      trace := trace w ++ [Called AudioRecord_stop]; files := files w |},
   inr (Some f)).
Proof.
  intros H Hf. unfold stopRecording. go_simpl. rewrite H. go_all. reflexivity.
Qed.

Lemma startRecording_rejected e (w : World State) :
  isRecording (app w) = false -> o AudioRecord_start = Rejected e ->
  go o startRecording w =
  ({| app := set_isRecording true (app w);
      trace := trace w ++ [Called AudioRecord_start;
                           console_error "Error starting recording:" [LErr e]];
      files := files w |}, inr tt).
Proof.
  intros H He. unfold startRecording. go_simpl. rewrite H. cbn [negb]. go_all.
  unfold say. cbn [app trace files]. rewrite <- app_assoc. reflexivity.
Qed.

Lemma startRecording_resolved (w : World State) :
  isRecording (app w) = false -> o AudioRecord_start = Resolved tt ->
  go o startRecording w =
  ({| app := set_isRecording true (app w);
      trace := trace w ++ [Called AudioRecord_start]; files := files w |}, inr tt).
Proof.
  intros H He. unfold startRecording. go_simpl. rewrite H. cbn [negb]. go_all.
  reflexivity.
Qed.

Lemma live_processAudioChunk_footprint uri (w : World State) :
  exists w2,
    go o (processAudioChunk uri) w = (w2, inr tt)
    /\ uploads (trace w2) = (uploads (trace w) ++ [live_chunk_upload uri])%list
    /\ isRecording (app w2) = isRecording (app w)
    /\ imageClassification (app w2) = imageClassification (app w)
    /\ (forall r v c, o (live_chunk_upload uri) = Resolved r ->
          o response_json = Resolved v -> Js.get v "classification" = inr c ->
          audioClassification (app w2) = c).
Proof.
  unfold processAudioChunk, live_chunk_upload.
  go_all; eexists; (split; [ reflexivity | ]); (split; [ trace_done | ]);
    (split; [ reflexivity | ]); (split; [ reflexivity | ]);
    intros r' v' c' Hr' Hv' Hc'; try congruence.
  injection Hv' as <-. cbn. congruence.
Qed.

End RecorderFacts.

(** X13.  The recording flag survives the recorder's failures.  When
    [AudioRecord.start()] rejects, [isRecording] has already been set and
    stays set, so the next tick does not try to start the recorder again.
    When [AudioRecord.stop()] rejects, the flag stays set as well, the
    error is logged, [stopRecording] answers [null] and the timeout
    callback uploads nothing.  With no recording on, the timeout callback
    calls nothing and changes nothing. *)
Theorem X13_recorder_flag_after_failures (o : Oracle) (w : World LiveCamera.State) :
  (forall e,
      LiveCamera.isRecording (app w) = false ->
      o AudioRecord_start = Rejected e ->
      let w' := exec o LiveCamera.startRecording w in
      LiveCamera.isRecording (app w') = true
      /\ errors (trace w')
         = (errors (trace w) ++ [console_error "Error starting recording:" [LErr e]])%list
      /\ calls (trace (exec o LiveCamera.startRecording w')) = calls (trace w'))
  /\ (forall e,
      LiveCamera.isRecording (app w) = true ->
      o AudioRecord_stop = Rejected e ->
      let w' := exec o LiveCamera.stopAndUploadCallback w in
      eval o LiveCamera.stopRecording w = inr None
      /\ LiveCamera.isRecording (app w') = true
      /\ errors (trace w')
         = (errors (trace w) ++ [console_error "Error stopping recording:" [LErr e]])%list
      /\ uploads (trace w') = uploads (trace w))
  /\ (LiveCamera.isRecording (app w) = false ->
      LiveCamera.stopAndUploadCallback w = Done w tt).
Proof.
  repeat apply conj.
  - intros e H He. cbn zeta. rewrite !exec_go.
    rewrite (startRecording_rejected o e w H He). cbn [fst app trace].
    match goal with
    | |- context [go o LiveCamera.startRecording ?w1] =>
        rewrite (startRecording_guarded o w1 eq_refl)
    end.
    cbn [fst trace app]. repeat split. trace_done.
  - intros e H He. cbn zeta. rewrite eval_go, exec_go.
    unfold LiveCamera.stopAndUploadCallback. rewrite go_bind.
    rewrite !(stopRecording_rejected o e w H He). go_simpl.
    split; [ reflexivity | ]. split; [ exact H | ].
    split; trace_done.
  - intros H. unfold LiveCamera.stopAndUploadCallback, LiveCamera.stopRecording,
      bind, try_catch, get_app. cbn [bindR catchR]. rewrite H. reflexivity.
Qed.

(** The recorder is busy at the first tick. *)
Lemma X13_witness :
  let w := world_of filming [] in
  let w' := exec recorder_broken LiveCamera.startRecording w in
  LiveCamera.isRecording (app w) = false
  /\ recorder_broken AudioRecord_start = Rejected (NativeError "recorder busy")
  /\ LiveCamera.isRecording (app w') = true
  /\ calls (trace (exec recorder_broken LiveCamera.startRecording w')) = calls (trace w').
Proof.
  intros w w'. split; [ reflexivity | ]. split; [ reflexivity | ].
  destruct (X13_recorder_flag_after_failures recorder_broken w) as (H & _).
  destruct (H (NativeError "recorder busy") eq_refl eq_refl) as (Hf & _ & Hc).
  split; [ exact Hf | exact Hc ].
Defined.

(** X14.  One audio cycle of the live camera.  A tick with no recording
    on starts the recorder and arms a 2000 ms stop; when that stop runs
    and the recorder hands back a file, the flag is cleared and exactly
    that file is uploaded, with its path as the uri; an answered upload
    sets the audio label to the body's [classification] as it is, with no
    fallback, and never touches the image label.  A tick that arrives
    while a recording is on starts nothing and still arms one more
    stop. *)
Theorem X14_audio_cycle (o : Oracle) (w : World LiveCamera.State) :
  (forall f,
      LiveCamera.isRecording (app w) = false ->
      o AudioRecord_start = Resolved tt ->
      o AudioRecord_stop = Resolved f ->
      f <> "" ->
      let w1 := exec o LiveCamera.audioChunkCallback w in
      let w2 := exec o LiveCamera.stopAndUploadCallback w1 in
      LiveCamera.isRecording (app w1) = true
      /\ LiveCamera.timeouts (app w1)
         = (LiveCamera.timeouts (app w)
            ++ [stop_timer (LiveCamera.nextTimer (app w))])%list
      /\ LiveCamera.isRecording (app w2) = false
      /\ uploads (trace w2) = (uploads (trace w) ++ [live_chunk_upload f])%list
      /\ LiveCamera.imageClassification (app w2)
         = LiveCamera.imageClassification (app w)
      /\ (forall r v c,
            o (live_chunk_upload f) = Resolved r ->
            o response_json = Resolved v ->
            Js.get v "classification" = inr c ->
            LiveCamera.audioClassification (app w2) = c))
  /\ (LiveCamera.isRecording (app w) = true ->
      let w1 := exec o LiveCamera.audioChunkCallback w in
      calls (trace w1) = calls (trace w)
      /\ LiveCamera.timeouts (app w1)
         = (LiveCamera.timeouts (app w)
            ++ [stop_timer (LiveCamera.nextTimer (app w))])%list).
Proof.
  split.
  - intros f H Hs Hf Hne. cbn zeta. rewrite !exec_go.
    unfold LiveCamera.audioChunkCallback. rewrite go_bind.
    rewrite (startRecording_resolved o w H Hs). go_simpl.
    split; [ reflexivity | ]. split; [ reflexivity | ].
    unfold LiveCamera.stopAndUploadCallback. rewrite go_bind.
    match goal with
    | |- context [go o LiveCamera.stopRecording ?w1] =>
        rewrite (stopRecording_resolved o f w1 eq_refl Hf)
    end.
    destruct (String.eqb_spec f "") as [E | _]; [ contradiction | ].
    match goal with
    | |- context [go o (LiveCamera.processAudioChunk f) ?w1] =>
        destruct (live_processAudioChunk_footprint o f w1)
          as (w2 & -> & Hu & Hr & Hi & Hl)
    end.
    cbn [fst]. rewrite Hr, Hu, Hi. split; [ reflexivity | ].
    split; [ trace_done | ]. split; [ reflexivity | exact Hl ].
  - intros H. cbn zeta. rewrite exec_go.
    unfold LiveCamera.audioChunkCallback. rewrite go_bind.
    rewrite (startRecording_guarded o w H). go_simpl. split; reflexivity.
Qed.

(** A tick, then its stop: the chunk file is uploaded and the label set. *)
Lemma X14_witness :
  let w := world_of filming [] in
  let w2 := exec all_ok LiveCamera.stopAndUploadCallback
              (exec all_ok LiveCamera.audioChunkCallback w) in
  LiveCamera.isRecording (app w) = false
  /\ all_ok AudioRecord_stop = Resolved "/data/files/audio_chunk.wav"
  /\ LiveCamera.isRecording (app w2) = false
  /\ uploads (trace w2) = [live_chunk_upload "/data/files/audio_chunk.wav"]
  /\ LiveCamera.audioClassification (app w2) = Js.Str "cat".
Proof.
  intros w w2. split; [ reflexivity | ]. split; [ reflexivity | ].
  destruct (X14_audio_cycle all_ok w) as (H & _).
  assert (Hne : "/data/files/audio_chunk.wav" <> "") by discriminate.
  destruct (H "/data/files/audio_chunk.wav" eq_refl eq_refl eq_refl Hne)
    as (_ & _ & Hr & Hu & _ & Hl).
  split; [ exact Hr | ]. split; [ exact Hu | ].
  exact (Hl {| http_status := 200 |} _ (Js.Str "cat") eq_refl eq_refl eq_refl).
Defined.

(** ** The frame tick of the live camera *)

(** X15.  A frame tick of the live camera.  With no camera mounted it does
    nothing at all.  When [takePhoto()] rejects, the error is logged, no
    request is sent and the state is as before.  When the photo is taken
    and the upload is answered, exactly that photo is sent, with
    [file://] before its path, and the image label becomes the body's
    [classification] as it is; the audio label and the recording flag are
    not touched. *)
Theorem X15_frame_tick (o : Oracle) (w : World LiveCamera.State) :
  (LiveCamera.cameraRef (app w) = false ->
     LiveCamera.processVideoFrame w = Done w tt)
  /\ (forall e,
        LiveCamera.cameraRef (app w) = true ->
        o camera_takePhoto = Rejected e ->
        let w' := exec o LiveCamera.processVideoFrame w in
        app w' = app w
        /\ uploads (trace w') = uploads (trace w)
        /\ errors (trace w')
           = (errors (trace w)
              ++ [console_error "Error processing video frame:" [LErr e]])%list)
  /\ (forall photo r v c,
        LiveCamera.cameraRef (app w) = true ->
        o camera_takePhoto = Resolved photo ->
        o (live_frame_upload photo) = Resolved r ->
        o response_json = Resolved v ->
        Js.get v "classification" = inr c ->
        let w' := exec o LiveCamera.processVideoFrame w in
        LiveCamera.imageClassification (app w') = c
        /\ LiveCamera.audioClassification (app w')
           = LiveCamera.audioClassification (app w)
        /\ LiveCamera.isRecording (app w') = LiveCamera.isRecording (app w)
        /\ uploads (trace w') = (uploads (trace w) ++ [live_frame_upload photo])%list
        /\ errors (trace w') = errors (trace w)).
Proof.
  split; [ | split ].
  - intros H. unfold LiveCamera.processVideoFrame, bind, get_app. cbn [bindR].
    rewrite H. reflexivity.
  - intros e Hcam He. cbn zeta. unfold LiveCamera.processVideoFrame.
    go_simpl. rewrite Hcam. go_all.
    split; [ reflexivity | ]. split; trace_done.
  - intros photo r v c Hcam Hp Hr Hv Hc. cbn zeta.
    unfold live_frame_upload in *. unfold LiveCamera.processVideoFrame.
    go_simpl. rewrite Hcam. go_all.
    split; [ reflexivity | ]. split; [ reflexivity | ]. split; [ reflexivity | ].
    split; trace_done.
Qed.

(** The camera is closed under a tick. *)
Lemma X15_witness :
  let w := world_of filming [] in
  let w' := exec camera_broken LiveCamera.processVideoFrame w in
  LiveCamera.cameraRef (app w) = true
  /\ camera_broken camera_takePhoto = Rejected (NativeError "camera closed")
  /\ app w' = app w
  /\ uploads (trace w') = uploads (trace w).
Proof.
  intros w w'. split; [ reflexivity | ]. split; [ reflexivity | ].
  destruct (X15_frame_tick camera_broken w) as (_ & H & _).
  destruct (H (NativeError "camera closed") eq_refl eq_refl) as (Ha & Hu & _).
  split; [ exact Ha | exact Hu ].
Defined.

(** ** Arming and clearing the timers *)

Lemma without_fresh id ts :
  (forall t, In t ts -> LiveCamera.timer_id t <> id) ->
  LiveCamera.without id ts = ts.
Proof.
  unfold LiveCamera.without. induction ts as [| t ts IH]; intros H;
    [ reflexivity | ].
  cbn [filter]. destruct (Pos.eqb_spec (LiveCamera.timer_id t) id) as [E | _].
  - exfalso. exact (H t (or_introl eq_refl) E).
  - cbn [negb]. f_equal. apply IH. intros t' Hin. apply H. right. exact Hin.
Qed.

(** X16.  Arming and clearing are inverse on the interval table.  When
    the ids in the table are all below the next id to be handed out, the
    cleanup run after the effect leaves exactly the intervals that were
    there before; it cancels no pending stop timeout, leaves the
    recording flag and the handlers in flight as they are, does not clear
    the two refs, and calls [AudioRecord.stop()] once.  The two ids are
    not handed out again.  The cleanup of a screen that never armed a
    timer changes no state and still calls [AudioRecord.stop()]. *)
Theorem X16_timers_round_trip (s : LiveCamera.System) :
  (LiveCamera.hasPermission (app (world s)) = true ->
   (forall t, In t (LiveCamera.intervals (app (world s))) ->
              (LiveCamera.timer_id t < LiveCamera.nextTimer (app (world s)))%positive) ->
   let id1 := LiveCamera.nextTimer (app (world s)) in
   let torn := LiveCamera.timersCleanup (LiveCamera.timersEffect s) in
   LiveCamera.intervals (app (world torn)) = LiveCamera.intervals (app (world s))
   /\ LiveCamera.timeouts (app (world torn)) = LiveCamera.timeouts (app (world s))
   /\ LiveCamera.isRecording (app (world torn))
      = LiveCamera.isRecording (app (world s))
   /\ tasks torn = tasks s
   /\ LiveCamera.audioChunkInterval (app (world torn)) = Some id1
   /\ LiveCamera.frameInterval (app (world torn)) = Some (Pos.succ id1)
   /\ LiveCamera.nextTimer (app (world torn)) = Pos.succ (Pos.succ id1)
   /\ calls (trace (world torn))
      = (calls (trace (world s))
         ++ [AudioRecord_init 16000 1 16 "audio_chunk.wav"; AudioRecord_stop])%list)
  /\ (LiveCamera.audioChunkInterval (app (world s)) = None ->
      LiveCamera.frameInterval (app (world s)) = None ->
      let torn := LiveCamera.timersCleanup s in
      app (world torn) = app (world s)
      /\ tasks torn = tasks s
      /\ calls (trace (world torn))
         = (calls (trace (world s)) ++ [AudioRecord_stop])%list).
Proof.
  split.
  - intros H Hfresh. cbn zeta.
    unfold LiveCamera.timersCleanup, LiveCamera.timersEffect. rewrite H.
    unfold LiveCamera.initAudioRecorder, update, log. cbn.
    split; [ | repeat split; autorewrite with trace; cbn;
                 rewrite <- ?app_assoc; reflexivity ].
    unfold LiveCamera.without. rewrite !filter_app. cbn.
    rewrite Pos.eqb_refl. cbn.
    assert (E : Pos.eqb (Pos.succ (LiveCamera.nextTimer (app (world s))))
                        (LiveCamera.nextTimer (app (world s))) = false)
      by (apply Pos.eqb_neq; lia).
    rewrite E. cbn. rewrite Pos.eqb_refl. cbn. rewrite !app_nil_r.
    fold (LiveCamera.without (LiveCamera.nextTimer (app (world s)))
            (LiveCamera.intervals (app (world s)))).
    rewrite without_fresh by (intros t Hin; specialize (Hfresh t Hin); lia).
    apply without_fresh. intros t Hin. specialize (Hfresh t Hin). lia.
  - intros H1 H2. cbn zeta. unfold LiveCamera.timersCleanup. rewrite H1, H2.
    unfold log. cbn. repeat split. trace_done.
Qed.

(** Mounting, then unmounting, the screen that is filming. *)
Lemma X16_witness :
  let s : LiveCamera.System := system_of filming in
  let torn := LiveCamera.timersCleanup (LiveCamera.timersEffect s) in
  LiveCamera.hasPermission (app (world s)) = true
  /\ LiveCamera.intervals (app (world torn)) = []
  /\ LiveCamera.nextTimer (app (world torn)) = 3%positive.
Proof.
  intros s torn. split; [ reflexivity | ].
  destruct (X16_timers_round_trip s) as (H & _).
  assert (Hfresh : forall t, In t (LiveCamera.intervals (app (world s))) ->
            (LiveCamera.timer_id t < LiveCamera.nextTimer (app (world s)))%positive)
    by (intros t []).
  destruct (H eq_refl Hfresh) as (Hi & _ & _ & _ & _ & _ & Hn & _).
  split; [ exact Hi | exact Hn ].
Defined.

(** ** Asking for camera and microphone *)

(** X17.  On Android the mount effect can never confirm the permissions.
    It stores the two booleans [granted[...] === RESULTS.GRANTED] and then
    compares them with the string ['granted'], so whatever the dialog
    answers, [hasPermission] and [device] are left as they were; a
    resolved request only ends the loading state, a rejected one changes
    nothing and leaves the rejection unhandled.  Starting without
    permission, the camera view is therefore never rendered and the
    timer effect arms nothing. *)
Theorem X17_android_permission_never_confirmed
    (rt : Runtime) (env : LiveCameraScreen.Replies) (sc : LiveCameraScreen.Screen) :
  Platform_OS rt = android ->
  let out := LiveCameraScreen.permissionEffect rt env sc in
  LiveCameraScreen.core (fst out) = LiveCameraScreen.core sc
  /\ LiveCameraScreen.device (fst out) = LiveCameraScreen.device sc
  /\ (forall granted,
        LiveCameraScreen.requestMultiple_reply env = Resolved granted ->
        LiveCameraScreen.isLoading (fst out) = false /\ snd out = None)
  /\ (forall e,
        LiveCameraScreen.requestMultiple_reply env = Rejected e ->
        out = (sc, Some e))
  /\ (LiveCamera.hasPermission (LiveCameraScreen.core sc) = false ->
      (forall d a i,
          LiveCameraScreen.render (fst out) <> LiveCameraScreen.CameraView d a i)
      /\ (forall s : LiveCamera.System,
            app (world s) = LiveCameraScreen.core (fst out) ->
            LiveCamera.timersEffect s = s)).
Proof.
  intros Hos. cbn zeta.
  unfold LiveCameraScreen.permissionEffect, LiveCameraScreen.requested.
  rewrite (android_is_android rt Hos).
  destruct (LiveCameraScreen.requestMultiple_reply env) as [granted | e];
    cbn [LiveCameraScreen.strict_eq_string andb fst snd
         LiveCameraScreen.core LiveCameraScreen.device LiveCameraScreen.isLoading].
  - split; [ reflexivity | ]. split; [ reflexivity | ].
    split; [ intros g _; split; reflexivity | ].
    split; [ intros e; discriminate | ].
    intros Hp. split.
    + intros d a i. unfold LiveCameraScreen.render.
      cbn [LiveCameraScreen.core LiveCameraScreen.device LiveCameraScreen.isLoading].
      destruct (LiveCameraScreen.device sc); [ | discriminate ].
      rewrite Hp. discriminate.
    + intros s Hs. unfold LiveCamera.timersEffect. rewrite Hs, Hp. reflexivity.
  - split; [ reflexivity | ]. split; [ reflexivity | ].
    split; [ intros g; discriminate | ].
    split; [ intros e' [= <-]; reflexivity | ].
    intros Hp. split.
    + intros d a i. unfold LiveCameraScreen.render.
      destruct (LiveCameraScreen.isLoading sc); [ discriminate | ].
      destruct (LiveCameraScreen.device sc); [ | discriminate ].
      rewrite Hp. discriminate.
    + intros s Hs. unfold LiveCamera.timersEffect. rewrite Hs, Hp. reflexivity.
Qed.

(** The user grants both permissions on an Android phone. *)
Lemma X17_witness :
  let out := LiveCameraScreen.permissionEffect demo_runtime all_granted
               LiveCameraScreen.initial in
  Platform_OS demo_runtime = android
  /\ LiveCameraScreen.core (fst out) = LiveCamera.initial
  /\ LiveCameraScreen.render (fst out) = LiveCameraScreen.Notice "No Camera Found".
Proof.
  intros out. split; [ reflexivity | ].
  destruct (X17_android_permission_never_confirmed demo_runtime all_granted
              LiveCameraScreen.initial eq_refl) as (Hc & _).
  split; [ exact Hc | reflexivity ].
Defined.

(** X18.  On the other platform the camera view is rendered after the
    mount effect exactly when both requests resolve to the string
    ['granted'] and [useCameraDevices()] hands back a back camera; that
    camera is then the one shown.  Any other answer of the camera
    library, such as ['authorized'], leaves [hasPermission] false.  When
    both are granted and the call of [useCameraDevices] throws,
    [hasPermission] is already true, so the timer effect arms its timers,
    while the loading state is not ended and the rejection is left
    unhandled. *)
Theorem X18_camera_view_conditions
    (rt : Runtime) (env : LiveCameraScreen.Replies) (sc : LiveCameraScreen.Screen)
    (d : string) :
  Platform_OS rt = ios ->
  LiveCamera.hasPermission (LiveCameraScreen.core sc) = false ->
  LiveCameraScreen.device sc = None ->
  let out := LiveCameraScreen.permissionEffect rt env sc in
  ((exists a i,
       LiveCameraScreen.render (fst out) = LiveCameraScreen.CameraView d a i)
   <-> LiveCameraScreen.requestCameraPermission_reply env = Resolved "granted"
       /\ LiveCameraScreen.requestMicrophonePermission_reply env = Resolved "granted"
       /\ LiveCameraScreen.useCameraDevices_back env = Resolved (Some d))
  /\ (LiveCamera.hasPermission (LiveCameraScreen.core (fst out)) = true
      <-> LiveCameraScreen.requestCameraPermission_reply env = Resolved "granted"
          /\ LiveCameraScreen.requestMicrophonePermission_reply env
             = Resolved "granted")
  /\ (forall e,
        LiveCameraScreen.requestCameraPermission_reply env = Resolved "granted" ->
        LiveCameraScreen.requestMicrophonePermission_reply env = Resolved "granted" ->
        LiveCameraScreen.useCameraDevices_back env = Rejected e ->
        snd out = Some e
        /\ LiveCameraScreen.isLoading (fst out) = LiveCameraScreen.isLoading sc
        /\ forall s : LiveCamera.System,
             app (world s) = LiveCameraScreen.core (fst out) ->
             LiveCamera.timersEffect s <> s).
Proof.
  intros Hos Hp Hd. cbn zeta.
  unfold LiveCameraScreen.permissionEffect, LiveCameraScreen.requested.
  rewrite (ios_is_not_android rt Hos).
  destruct (LiveCameraScreen.requestCameraPermission_reply env) as [cam | e1].
  2:{ cbn. unfold LiveCameraScreen.render. rewrite Hd, Hp.
      split; [ | split ].
      - split; [ intros (a & i & H) | intros (H & _); discriminate ].
        destruct (LiveCameraScreen.isLoading sc); discriminate.
      - split; [ discriminate | intros (H & _); discriminate ].
      - intros e; discriminate. }
  destruct (LiveCameraScreen.requestMicrophonePermission_reply env) as [mic | e2].
  2:{ cbn. unfold LiveCameraScreen.render. rewrite Hd, Hp.
      split; [ | split ].
      - split; [ intros (a & i & H) | intros (_ & H & _); discriminate ].
        destruct (LiveCameraScreen.isLoading sc); discriminate.
      - split; [ discriminate | intros (_ & H); discriminate ].
      - intros e _; discriminate. }
  cbn [LiveCameraScreen.strict_eq_string].
  destruct (String.eqb_spec cam "granted") as [-> | Hcam].
  2:{ cbn. unfold LiveCameraScreen.render. cbn. rewrite Hd, Hp.
      split; [ | split ].
      - split; [ intros (a & i & H); discriminate | intros (H & _); congruence ].
      - split; [ discriminate | intros (H & _); congruence ].
      - intros e H; congruence. }
  destruct (String.eqb_spec mic "granted") as [-> | Hmic].
  2:{ cbn. unfold LiveCameraScreen.render. cbn. rewrite Hd, Hp.
      split; [ | split ].
      - split; [ intros (a & i & H); discriminate | intros (_ & H & _); congruence ].
      - split; [ discriminate | intros (_ & H); congruence ].
      - intros e _ H; congruence. }
  cbn [andb].
  destruct (LiveCameraScreen.useCameraDevices_back env) as [[d' |] | e3];
    cbn; unfold LiveCameraScreen.render; cbn; rewrite ?Hd.
  - split; [ | split ].
    + split.
      * intros (a & i & [= ->]). repeat split.
      * intros (_ & _ & [= ->]). eexists _, _. reflexivity.
    + split; [ intros _; split; reflexivity | reflexivity ].
    + intros e _ _; discriminate.
  - split; [ | split ].
    + split; [ intros (a & i & H); discriminate | intros (_ & _ & H); discriminate ].
    + split; [ intros _; split; reflexivity | reflexivity ].
    + intros e _ _; discriminate.
  - split; [ | split ].
    + split; [ intros (a & i & H) | intros (_ & _ & H); discriminate ].
      destruct (LiveCameraScreen.isLoading sc); discriminate.
    + split; [ intros _; split; reflexivity | reflexivity ].
    + intros e _ _ [= <-]. split; [ reflexivity | ]. split; [ reflexivity | ].
      intros s Hs Heq. unfold LiveCamera.timersEffect in Heq. rewrite Hs in Heq.
      cbn in Heq. apply (f_equal (fun x => LiveCamera.nextTimer (app (world x)))) in Heq.
      cbn in Heq. rewrite Hs in Heq. cbn in Heq. lia.
Qed.

(** Camera and microphone granted, a back camera present. *)
Lemma X18_witness :
  let out := LiveCameraScreen.permissionEffect ios_runtime all_granted
               LiveCameraScreen.initial in
  Platform_OS ios_runtime = ios
  /\ exists a i,
       LiveCameraScreen.render (fst out)
       = LiveCameraScreen.CameraView "back-camera" a i.
Proof.
  intros out. split; [ reflexivity | ].
  destruct (X18_camera_view_conditions ios_runtime all_granted
              LiveCameraScreen.initial "back-camera" eq_refl eq_refl eq_refl)
    as ((_ & H) & _).
  apply H. repeat split.
Defined.

(** ** Timers and the event loop *)

Lemma nth_error_last {A} (l : list A) (x : A) :
  nth_error (l ++ [x]) (List.length l) = Some x.
Proof. induction l as [| y l IH]; [ reflexivity | exact IH ]. Qed.

Lemma drop_nth_last {A} (l : list A) (x : A) :
  drop_nth (List.length l) (l ++ [x]) = l.
Proof.
  induction l as [| y l IH]; [ reflexivity | ].
  simpl. rewrite IH. reflexivity.
Qed.

(** X19.  The stop timeout and the event loop.  An audio tick with no
    recording on suspends at [AudioRecord.start()] before it arms
    anything: the 2000 ms stop is armed only when that call has settled,
    and it is armed whether the call resolved or rejected.  A stop
    timeout runs once: firing it again does nothing, and it leaves the
    intervals armed.  When it runs with no recording on, it calls nothing
    and is over at once; with a recording on it suspends at
    [AudioRecord.stop()]. *)
Theorem X19_stop_timeout (o : Oracle) (s : LiveCamera.System) :
  (forall id t,
      LiveCamera.find_timer id (LiveCamera.intervals (app (world s))) = Some t ->
      LiveCamera.callback t = LiveCamera.audioChunkTick ->
      LiveCamera.isRecording (app (world s)) = false ->
      let s1 := LiveCamera.interval_fires id s in
      let s2 := deliver o (List.length (tasks s)) s1 in
      LiveCamera.timeouts (app (world s1)) = LiveCamera.timeouts (app (world s))
      /\ in_flight s1 = (in_flight s ++ [LiveCamera.audioChunkTick])%list
      /\ calls (trace (world s1)) = (calls (trace (world s)) ++ [AudioRecord_start])%list
      /\ LiveCamera.timeouts (app (world s2))
         = (LiveCamera.timeouts (app (world s))
            ++ [stop_timer (LiveCamera.nextTimer (app (world s)))])%list
      /\ LiveCamera.isRecording (app (world s2)) = true
      /\ tasks s2 = tasks s)
  /\ (forall id t,
      LiveCamera.find_timer id (LiveCamera.timeouts (app (world s))) = Some t ->
      LiveCamera.callback t = LiveCamera.stopAndUpload ->
      let s' := LiveCamera.timeout_fires id s in
      LiveCamera.timeout_fires id s' = s'
      /\ LiveCamera.intervals (app (world s')) = LiveCamera.intervals (app (world s))
      /\ (LiveCamera.isRecording (app (world s)) = false ->
          tasks s' = tasks s /\ trace (world s') = trace (world s))
      /\ (LiveCamera.isRecording (app (world s)) = true ->
          in_flight s' = (in_flight s ++ [LiveCamera.stopAndUpload])%list
          /\ calls (trace (world s'))
             = (calls (trace (world s)) ++ [AudioRecord_stop])%list)).
Proof.
  split.
  - intros id t Hfind Hcb Hrec. cbn zeta.
    unfold LiveCamera.interval_fires. rewrite Hfind, Hcb.
    unfold spawn, LiveCamera.run_callback, LiveCamera.audioChunkCallback,
      LiveCamera.startRecording, bind, try_catch, get_app.
    cbn [bindR catchR]. rewrite Hrec. cbn [negb].
    unfold modify_app, await, await_result, bind, in_flight, deliver. cbn.
    rewrite map_app, nth_error_last, drop_nth_last.
    split; [ reflexivity | ]. split; [ reflexivity | ].
    split; [ trace_done | ].
    match goal with
    | |- context [o ?c] => destruct (o c) as [[] | e]
    end; cbn; repeat split.
  - intros id t Hfind Hcb. cbn zeta.
    unfold LiveCamera.timeout_fires. rewrite Hfind, Hcb.
    unfold spawn, LiveCamera.run_callback, LiveCamera.stopAndUploadCallback,
      LiveCamera.stopRecording, bind, try_catch, get_app, update.
    cbn [bindR catchR world app LiveCamera.expire LiveCamera.isRecording].
    destruct (LiveCamera.isRecording (app (world s))) eqn:Hrec.
    + unfold await, await_result, bind, in_flight.
      cbn -[LiveCamera.without LiveCamera.find_timer].
      rewrite find_timer_without, map_app.
      split; [ reflexivity | ]. split; [ reflexivity | ].
      split; [ discriminate | ]. intros _.
      split; [ reflexivity | trace_done ].
    + cbn -[LiveCamera.without LiveCamera.find_timer].
      rewrite find_timer_without.
      split; [ reflexivity | ]. split; [ reflexivity | ].
      split; [ intros _; split; reflexivity | discriminate ].
Qed.

(** The first audio tick of the screen that is filming, and the answer
    of the recorder. *)
Lemma X19_witness :
  let s := LiveCamera.timersEffect (system_of filming : LiveCamera.System) in
  let s2 := deliver all_ok 0 (LiveCamera.interval_fires 1 s) in
  LiveCamera.isRecording (app (world s)) = false
  /\ LiveCamera.timeouts (app (world s2)) = [stop_timer 3]
  /\ tasks s2 = [].
Proof.
  intros s s2. split; [ reflexivity | ].
  destruct (X19_stop_timeout all_ok s) as (H & _).
  destruct (H 1%positive _ eq_refl eq_refl eq_refl) as (_ & _ & _ & Ht & _ & Hk).
  split; [ exact Ht | exact Hk ].
Defined.
